(** * Identity-to-conversation resolution and reconciliation

    A shallow embedding of the multi-bot persona controller:
    [BotManager] (src/bot-manager.ts), [ChainInterceptor]
    (src/interceptors/chain.ts) and [MemoryInterceptor]
    (src/interceptors/memory.ts).

    Strings are [string]; optional fields of the host tables are [option];
    room ids and timestamps are the integers among the JavaScript numbers,
    kept as [Z], with the rounding of the one addition the code makes on
    them written out ([Js.add]).  Store operations thread the store
    explicitly and may raise; a raise keeps the writes made before it, as in
    the source. *)

From Stdlib Require Import String Ascii List ZArith Bool Lia.
Import ListNotations.

Local Open Scope string_scope.
Local Open Scope Z_scope.

Set Implicit Arguments.

(** ** JavaScript string and value helpers *)

Module Js.

(** Truthiness of a string value: only the empty string is falsy. *)
Definition truthy (s : string) : bool :=
  match s with
  | EmptyString => false
  | String _ _ => true
  end.

(** Truthiness of a possibly-undefined string. *)
Definition truthy_opt (o : option string) : bool :=
  match o with
  | Some s => truthy s
  | None => false
  end.

(** [a || b] on possibly-undefined strings with a string fallback. *)
Definition or_else (o : option string) (d : string) : string :=
  match o with
  | Some s => if truthy s then s else d
  | None => d
  end.

(** [a ?? b] *)
Definition nullish {A : Type} (o1 o2 : option A) : option A :=
  match o1 with
  | Some x => Some x
  | None => o2
  end.

(** A possibly-undefined string inside a template literal. *)
Definition template (o : option string) : string :=
  match o with
  | Some s => s
  | None => "undefined"
  end.

(** [s.startsWith(p)] *)
Definition startsWith (p s : string) : bool := String.prefix p s.

(** [s.includes(sub)] *)
Fixpoint includes (sub s : string) : bool :=
  String.prefix sub s ||
  match s with
  | EmptyString => false
  | String _ rest => includes sub rest
  end.

(** [s.split(sep)] for a one-character separator: every occurrence of
    the separator cuts the string. *)
Fixpoint split (sep : ascii) (s : string) : list string :=
  match s with
  | EmptyString => [EmptyString]
  | String c rest =>
      if Ascii.eqb c sep then EmptyString :: split sep rest
      else
        match split sep rest with
        | [] => [String c EmptyString]
        | piece :: pieces => String c piece :: pieces
        end
  end.

(** [s.split(sep, limit)]: the array of all pieces, truncated to
    [limit] entries. *)
Definition split_limit (sep : ascii) (limit : nat) (s : string)
  : list string :=
  firstn limit (split sep s).

(** Below [2^53] in magnitude every integer is a number. *)
Definition two53 : Z := 9007199254740992.

(** The number nearest to the integer [z], for [z] below [2^1024] in
    magnitude: a number keeps 53 binary digits, the rest is rounded to the
    nearest, a tie to the neighbour whose last kept digit is even. *)
Definition to_number (z : Z) : Z :=
  let a := Z.abs z in
  if a <? two53 then z
  else
    let unit := 2 ^ (Z.log2 a - 52) in
    let q := a / unit in
    let r := a mod unit in
    let q' :=
      if 2 * r <? unit then q
      else if unit <? 2 * r then q + 1
      else if Z.even q then q else q + 1 in
    Z.sgn z * (q' * unit).

(** [a + b] on numbers that are integers: the exact sum, rounded.  (The
    sum of a finite number and [1] is finite.) *)
Definition add (a b : Z) : Z := to_number (a + b).

(** [a === b] on possibly-undefined strings. *)
Definition opt_eqb (a b : option string) : bool :=
  match a, b with
  | Some x, Some y => String.eqb x y
  | None, None => true
  | _, _ => false
  end.

End Js.

(** ** Types (src/types.ts) *)

Inductive PresetSource : Type :=
| ChatLuna
| Character.

Definition PresetSource_value (s : PresetSource) : string :=
  match s with
  | ChatLuna => "chatluna"
  | Character => "character"
  end.

Record BotPersonaConfig : Type := mkBotPersonaConfig {
  botId : string;
  enabled : bool;
  preset : string;
  model : string;
  chatMode : option string
}.

(** Row of the host table [chathub_room]. *)
Record Room : Type := mkRoom {
  roomId : Z;
  roomName : string;
  conversationId : string;
  room_preset : option string;
  room_model : option string;
  room_chatMode : option string;
  visibility : option string;
  updatedTime : Z;
  roomMasterId : option string;
  autoUpdate : option bool;
  password : option string
}.

(** Row of [chathub_room_member]. *)
Record RoomMember : Type := mkRoomMember {
  member_userId : string;
  member_roomId : Z;
  roomPermission : option string
}.

(** Row of [chathub_room_group_member]. *)
Record RoomGroupMember : Type := mkRoomGroupMember {
  group_groupId : string;
  group_roomId : Z;
  roomVisibility : option string
}.

(** Row of [chathub_user]. *)
Record UserRow : Type := mkUserRow {
  user_userId : string;
  user_groupId : string;
  defaultRoomId : Z
}.

Record ParsedPreset : Type := mkParsedPreset {
  name : string;
  source : PresetSource
}.

(** ** BotManager (src/bot-manager.ts), pure part *)

Module BotManager.

Definition getBotId (platform selfId : string) : string :=
  platform ++ ":" ++ selfId.

Definition generateConversationId (botId uuid : string) : string :=
  "bot_" ++ botId ++ "_" ++ uuid.

Definition getBotConfig (config : list BotPersonaConfig) (id : string)
  : option BotPersonaConfig :=
  find (fun bot => String.eqb (botId bot) id) config.

Definition getEnabledBots (config : list BotPersonaConfig)
  : list BotPersonaConfig :=
  filter enabled config.

(** [parsePresetName]: [presetName.split(':', 2)], then the source test
    on the first piece. *)
Definition parsePresetName (presetName : string) : ParsedPreset :=
  let whole := mkParsedPreset presetName ChatLuna in
  match Js.split_limit ":"%char 2 presetName with
  | [p0; p1] =>
      if String.eqb p0 (PresetSource_value ChatLuna)
      then mkParsedPreset p1 ChatLuna
      else if String.eqb p0 (PresetSource_value Character)
      then mkParsedPreset p1 Character
      else whole
  | _ => whole
  end.

End BotManager.

(** ** The persistent store

    The host store ([ctx.database]) with the four tables the plugin
    touches, as one run of a hook sees it: no other writer acts between
    two store calls of a run.  Rows are kept in storage order; [get]
    returns the rows that match, in that order.  [writes] is the journal of the write calls that
    were issued (oldest first), so that two equal stores have seen the same
    writes. *)

Inductive StoreWrite : Type :=
| CreateRoom (r : Room)
| CreateRoomMember (m : RoomMember)
| CreateRoomGroupMember (g : RoomGroupMember)
| CreateUser (u : UserRow)
| UpsertRoom (r : Room).

Record Database : Type := mkDatabase {
  chathub_room : list Room;
  chathub_room_member : list RoomMember;
  chathub_room_group_member : list RoomGroupMember;
  chathub_user : list UserRow;
  writes : list StoreWrite
}.

(** The failure of a [create] whose primary key is already taken; its
    message contains the text [UNIQUE constraint]. *)
Inductive StoreError : Type :=
| UniqueConstraint (table : string).

Definition message (e : StoreError) : string :=
  match e with
  | UniqueConstraint table => "UNIQUE constraint failed: " ++ table
  end.

Inductive result (A : Type) : Type :=
| Ok (a : A)
| Throw (e : StoreError).

Arguments Ok {A} a.
Arguments Throw {A} e.

(** Effectful computations over a state [S] that may raise.  The state
    reached when the exception is raised is kept. *)
Definition Eff (S A : Type) : Type := S -> S * result A.

Definition ret {S A : Type} (a : A) : Eff S A := fun s => (s, Ok a).

Definition throw {S A : Type} (e : StoreError) : Eff S A :=
  fun s => (s, Throw e).

Definition bind {S A B : Type} (c : Eff S A) (k : A -> Eff S B) : Eff S B :=
  fun s =>
    match c s with
    | (s', Ok a) => k a s'
    | (s', Throw e) => (s', Throw e)
    end.

(** [try { c } catch (error) { h error }] *)
Definition try_catch {S A : Type} (c : Eff S A) (h : StoreError -> Eff S A)
  : Eff S A :=
  fun s =>
    match c s with
    | (s', Ok a) => (s', Ok a)
    | (s', Throw e) => h e s'
    end.

Definition gets {S A : Type} (f : S -> A) : Eff S A := fun s => (s, Ok (f s)).

Definition modify {S : Type} (f : S -> S) : Eff S unit :=
  fun s => (f s, Ok tt).

Declare Scope eff_scope.
Delimit Scope eff_scope with eff.

Notation "x <- c ;; k" := (bind c (fun x => k))
  (at level 61, c at next level, right associativity) : eff_scope.
Notation "c ;;; k" := (bind c (fun _ => k))
  (at level 61, right associativity) : eff_scope.

Module Store.

Definition journal (w : StoreWrite) (db : Database) : Database :=
  mkDatabase (chathub_room db) (chathub_room_member db)
    (chathub_room_group_member db) (chathub_user db) (writes db ++ [w]).

Definition set_rooms (rows : list Room) (db : Database) : Database :=
  mkDatabase rows (chathub_room_member db)
    (chathub_room_group_member db) (chathub_user db) (writes db).

Definition set_members (rows : list RoomMember) (db : Database)
  : Database :=
  mkDatabase (chathub_room db) rows
    (chathub_room_group_member db) (chathub_user db) (writes db).

Definition set_group_members (rows : list RoomGroupMember) (db : Database)
  : Database :=
  mkDatabase (chathub_room db) (chathub_room_member db) rows
    (chathub_user db) (writes db).

Definition set_users (rows : list UserRow) (db : Database) : Database :=
  mkDatabase (chathub_room db) (chathub_room_member db)
    (chathub_room_group_member db) rows (writes db).

(** Primary keys of the host tables: [roomId]; [(userId, roomId)];
    [(groupId, roomId)]; [(userId, groupId)]. *)
Definition same_room (a b : Room) : bool := roomId a =? roomId b.

Definition same_member (a b : RoomMember) : bool :=
  String.eqb (member_userId a) (member_userId b)
  && (member_roomId a =? member_roomId b).

Definition same_group_member (a b : RoomGroupMember) : bool :=
  String.eqb (group_groupId a) (group_groupId b)
  && (group_roomId a =? group_roomId b).

Definition same_user (a b : UserRow) : bool :=
  String.eqb (user_userId a) (user_userId b)
  && String.eqb (user_groupId a) (user_groupId b).

(** [database.create(table, row)] *)
Definition create_room (r : Room) : Eff Database unit :=
  fun db =>
    let db' := journal (CreateRoom r) db in
    if existsb (same_room r) (chathub_room db)
    then (db', Throw (UniqueConstraint "chathub_room"))
    else (set_rooms (chathub_room db ++ [r]) db', Ok tt).

Definition create_room_member (m : RoomMember) : Eff Database unit :=
  fun db =>
    let db' := journal (CreateRoomMember m) db in
    if existsb (same_member m) (chathub_room_member db)
    then (db', Throw (UniqueConstraint "chathub_room_member"))
    else (set_members (chathub_room_member db ++ [m]) db', Ok tt).

Definition create_room_group_member (g : RoomGroupMember)
  : Eff Database unit :=
  fun db =>
    let db' := journal (CreateRoomGroupMember g) db in
    if existsb (same_group_member g) (chathub_room_group_member db)
    then (db', Throw (UniqueConstraint "chathub_room_group_member"))
    else
      (set_group_members (chathub_room_group_member db ++ [g]) db', Ok tt).

Definition create_user (u : UserRow) : Eff Database unit :=
  fun db =>
    let db' := journal (CreateUser u) db in
    if existsb (same_user u) (chathub_user db)
    then (db', Throw (UniqueConstraint "chathub_user"))
    else (set_users (chathub_user db ++ [u]) db', Ok tt).

(** [database.upsert('chathub_room', [row])]: the columns of the object
    are written over the row with the same primary key, where it stands;
    a new key is appended.  A [Room] carries every column, as the rows
    read from the store and the rows [createRoom] builds do, so the row
    is replaced as a whole. *)
Definition replace_room (r : Room) (rows : list Room) : list Room :=
  map (fun x => if same_room r x then r else x) rows.

Definition upsert_room (r : Room) : Eff Database unit :=
  fun db =>
    let db' := journal (UpsertRoom r) db in
    if existsb (same_room r) (chathub_room db)
    then (set_rooms (replace_room r (chathub_room db)) db', Ok tt)
    else (set_rooms (chathub_room db ++ [r]) db', Ok tt).

(** [database.get('chathub_room', { roomId: { $in: ids } })] *)
Definition get_rooms_in (ids : list Z) : Eff Database (list Room) :=
  gets (fun db =>
    filter (fun r => existsb (Z.eqb (roomId r)) ids) (chathub_room db)).

(** [database.get('chathub_room', { roomName })] *)
Definition get_rooms_named (n : string) : Eff Database (list Room) :=
  gets (fun db =>
    filter (fun r => String.eqb (roomName r) n) (chathub_room db)).

(** [database.get('chathub_room_member', { userId })] *)
Definition get_members_of (user : string)
  : Eff Database (list RoomMember) :=
  gets (fun db =>
    filter (fun m => String.eqb (member_userId m) user)
      (chathub_room_member db)).

(** [database.get('chathub_room_group_member',
      { groupId, roomId: { $in: ids } })] *)
Definition get_group_members (group : string) (ids : list Z)
  : Eff Database (list RoomGroupMember) :=
  gets (fun db =>
    filter (fun g => String.eqb (group_groupId g) group
                     && existsb (Z.eqb (group_roomId g)) ids)
      (chathub_room_group_member db)).

(** [database.get('chathub_room', {}, { limit: 1, sort: { roomId: 'desc' } })]
    followed by [result[0]?.roomId]. *)
Definition max_roomId : Eff Database (option Z) :=
  gets (fun db =>
    match chathub_room db with
    | [] => None
    | r :: rows => Some (fold_left Z.max (map roomId rows) (roomId r))
    end).

End Store.

(** ** Sessions, per-message context and the character plugin *)

Record Session : Type := mkSession {
  platform : string;
  bot_selfId : option string;       (* session.bot?.selfId *)
  session_selfId : option string;   (* session.selfId *)
  userId : string;
  guildId : option string;
  channelId : option string;
  username : option string;
  guild_name : option string        (* session.event?.guild?.name *)
}.

(** [session.bot?.selfId ?? session.selfId] *)
Definition selfId_of (session : Session) : option string :=
  Js.nullish (bot_selfId session) (session_selfId session).

(** [context.options.charonBotConfig], the context stashed by the
    pre-hook for the post-hook. *)
Record CharonBotConfig : Type := mkCharonBotConfig {
  stash_botId : string;
  stash_preset : string;
  stash_model : string;
  stash_chatMode : string
}.

(** [context.options] *)
Record Options : Type := mkOptions {
  charonBotConfig : option CharonBotConfig;
  room : option Room;
  room_resolve_name : option string
}.

(** [ctx.chatluna_character._config]: the group allow-list and the preset
    configured per group. *)
Record CharacterConfig : Type := mkCharacterConfig {
  applyGroup : option (list string);
  configs : option (list (string * option string))
}.

Record CharacterPlugin : Type := mkCharacterPlugin {
  plugin_config : option CharacterConfig
}.

(** Everything a hook can read or change. *)
Record World : Type := mkWorld {
  database : Database;
  options : Options;
  chatluna_character : option CharacterPlugin
}.

Inductive ChainMiddlewareRunStatus : Type :=
| SKIPPED
| STOP
| CONTINUE.

Definition ChainMiddlewareRunStatus_value (s : ChainMiddlewareRunStatus) : Z :=
  match s with
  | SKIPPED => 0
  | STOP => 1
  | CONTINUE => 2
  end.

(** Running a store computation inside a hook. *)
Definition on_database {A : Type} (c : Eff Database A) : Eff World A :=
  fun w =>
    let (db, r) := c (database w) in
    (mkWorld db (options w) (chatluna_character w), r).

Definition set_option_room (r : Room) : Eff World unit :=
  modify (fun w =>
    mkWorld (database w)
      (mkOptions (charonBotConfig (options w)) (Some r)
         (room_resolve_name (options w)))
      (chatluna_character w)).

Definition set_option_charonBotConfig (c : CharonBotConfig) : Eff World unit :=
  modify (fun w =>
    mkWorld (database w)
      (mkOptions (Some c) (room (options w)) (room_resolve_name (options w)))
      (chatluna_character w)).

(** ** BotManager.createRoom *)

Record CreateRoomOptions : Type := mkCreateRoomOptions {
  opt_botId : string;
  opt_roomName : string;
  opt_roomMasterId : string;
  opt_guildId : option string;
  opt_visibility : string;
  opt_preset : option string;
  opt_model : option string;
  opt_chatMode : option string
}.

Section Creation.

(** The value [randomUUID()] returns and the clock reading of
    [new Date()] for this run. *)
Variable uuid : string.
Variable now : Z.

Local Open Scope eff_scope.

Definition newRoom (newRoomId : Z) (o : CreateRoomOptions) : Room :=
  let presetName :=
    match opt_preset o with
    | Some p => if Js.truthy p then name (BotManager.parsePresetName p)
                else ""
    | None => ""
    end in
  mkRoom newRoomId (opt_roomName o)
    (BotManager.generateConversationId (opt_botId o) uuid)
    (Some presetName)
    (Some (Js.or_else (opt_model o) ""))
    (Some (Js.or_else (opt_chatMode o) "chat"))
    (Some (opt_visibility o))
    now
    (Some (opt_roomMasterId o))
    (Some false)
    (Some "").

(** [BotManager.createRoom]: every store failure is logged and
    rethrown. *)
Definition createRoom (o : CreateRoomOptions) : Eff Database Room :=
  top <- Store.max_roomId ;;
  let maxRoomId := match top with Some n => n | None => 0 end in
  let newRoomId := Js.add maxRoomId 1 in
  let created := newRoom newRoomId o in
  try_catch (Store.create_room created) (fun error => throw error) ;;;
  try_catch
    (Store.create_room_member
       (mkRoomMember (opt_roomMasterId o) newRoomId (Some "owner")))
    (fun error => throw error) ;;;
  (if Js.truthy_opt (opt_guildId o)
      && negb (String.eqb (opt_visibility o) "private")
   then
     try_catch
       (Store.create_room_group_member
          (mkRoomGroupMember (Js.template (opt_guildId o)) newRoomId
             (Some (opt_visibility o))))
       (fun error => throw error)
   else ret tt) ;;;
  ret created.

End Creation.

(** ** ChainInterceptor (src/interceptors/chain.ts) *)

Module ChainInterceptor.

Local Open Scope eff_scope.

Definition isDirect (session : Session) : bool :=
  negb (Js.truthy_opt (guildId session)).

(** The marker [`(${botId})`] searched for in room names. *)
Definition name_marker (id : string) : string := "(" ++ id ++ ")".

Definition findBotSpecificRoom (roomName_ : string) (id : string)
  : Eff Database (option Room) :=
  rooms <- Store.get_rooms_named roomName_ ;;
  match rooms with
  | r :: _ =>
      if Js.includes (name_marker id) (roomName r) then ret (Some r)
      else ret None
  | [] => ret None
  end.

(** [a || b] on the results of [Array.prototype.find]. *)
Definition orElse (a b : option Room) : option Room :=
  match a with
  | Some r => Some r
  | None => b
  end.

(** The scope-specific choice among the rooms of this bot. *)
Definition selectedRoom (session : Session) (groupRoomIds : list Z)
    (rooms : list Room) : option Room :=
  if negb (isDirect session) then
    orElse
      (find (fun r => existsb (Z.eqb (roomId r)) groupRoomIds
                      && Js.opt_eqb (visibility r) (Some "template_clone"))
            rooms)
      (find (fun r => existsb (Z.eqb (roomId r)) groupRoomIds) rooms)
  else
    orElse
      (find (fun r => Js.opt_eqb (visibility r) (Some "private")
                      && Js.opt_eqb (roomMasterId r) (Some (userId session)))
            rooms)
      (orElse
         (find (fun r => Js.opt_eqb (visibility r) (Some "private")) rooms)
         (hd_error rooms)).

Section WithEntropy.

Variable uuid : string.
Variable now : Z.

(** The options object [createBotSpecificRoom] hands to
    [BotManager.createRoom]. *)
Definition botRoomOptions (session : Session) (id : string)
    (botConfig : BotPersonaConfig) : CreateRoomOptions :=
  let direct := isDirect session in
  let username_ := Js.or_else (username session) (userId session) in
  let roomName_ :=
    if direct then username_ ++ " " ++ name_marker id
    else Js.or_else (guild_name session) username_
         ++ " " ++ name_marker id in
  mkCreateRoomOptions id roomName_ (userId session) (guildId session)
    (if direct then "private" else "template_clone")
    (Some (preset botConfig)) (Some (model botConfig))
    (Some (Js.or_else (chatMode botConfig) "chat")).

(** The [chathub_user] row that makes the new room the user's default
    in this scope. *)
Definition userDefaultRow (session : Session) (created : Room) : UserRow :=
  mkUserRow (userId session)
    (if isDirect session then "0" else Js.template (guildId session))
    (roomId created).

Definition createBotSpecificRoom (session : Session) (id : string)
    (botConfig : BotPersonaConfig) : Eff Database Room :=
  created <- createRoom uuid now (botRoomOptions session id botConfig) ;;
  try_catch (Store.create_user (userDefaultRow session created))
    (fun error =>
       if Js.includes "UNIQUE constraint" (message error)
       then ret tt   (* logger.debug: the record exists already *)
       else ret tt   (* logger.warn: the create failed *)) ;;;
  ret created.

Definition getOrCreateBotSpecificRoom (session : Session) (id : string)
    (botConfig : BotPersonaConfig) : Eff Database Room :=
  userRooms <- Store.get_members_of (userId session) ;;
  found <-
    match userRooms with
    | [] => ret None
    | _ :: _ =>
        let roomIds := map member_roomId userRooms in
        allRooms <- Store.get_rooms_in roomIds ;;
        let rooms :=
          filter (fun r => Js.includes (name_marker id) (roomName r))
                 allRooms in
        groupRoomIds <-
          (if negb (isDirect session) then
             groupRooms <- Store.get_group_members
                             (Js.template (guildId session)) roomIds ;;
             ret (map group_roomId groupRooms)
           else ret []) ;;
        ret (selectedRoom session groupRoomIds rooms)
    end ;;
  match found with
  | Some selectedRoom => ret selectedRoom
  | None => createBotSpecificRoom session id botConfig
  end.

(** [configureCharacterPlugin]: allow-list the scope and set the
    preset the character plugin uses for it. *)
Fixpoint set_group_preset (g presetName : string)
    (cfgs : list (string * option string))
  : list (string * option string) :=
  match cfgs with
  | [] => [(g, Some presetName)]
  | (k, v) :: rest =>
      if String.eqb k g then (k, Some presetName) :: rest
      else (k, v) :: set_group_preset g presetName rest
  end.

Definition configureCharacterPlugin (session : Session)
    (presetName : string) : Eff World unit :=
  modify (fun w =>
    match chatluna_character w with
    | None => w
    | Some characterPlugin =>
        match plugin_config characterPlugin with
        | None => w
        | Some characterConfig =>
            let g := Js.or_else (guildId session)
                       (Js.or_else (channelId session) "private") in
            let groups :=
              match applyGroup characterConfig with
              | Some l => l
              | None => []
              end in
            let groups' :=
              if existsb (String.eqb g) groups then groups
              else (groups ++ [g])%list in
            let cfgs :=
              match configs characterConfig with
              | Some l => l
              | None => []
              end in
            mkWorld (database w) (options w)
              (Some (mkCharacterPlugin
                 (Some (mkCharacterConfig (Some groups')
                    (Some (set_group_preset g presetName cfgs))))))
        end
    end).

Variable config : list BotPersonaConfig.

(** The pre-hook, registered before [resolve_room]. *)
Definition charon_resolve_bot_room (session : Session)
  : Eff World ChainMiddlewareRunStatus :=
  let id := BotManager.getBotId (platform session)
              (Js.template (selfId_of session)) in
  match BotManager.getBotConfig config id with
  | None => ret CONTINUE
  | Some botConfig =>
      if negb (enabled botConfig) then ret CONTINUE
      else if negb (Js.truthy (preset botConfig))
              && negb (Js.truthy (model botConfig))
      then ret CONTINUE
      else
        let parsed :=
          if Js.truthy (preset botConfig)
          then let p := BotManager.parsePresetName (preset botConfig) in
               (name p, Some (source p))
          else ("", None) in
        let presetName := fst parsed in
        match snd parsed with
        | Some Character =>
            configureCharacterPlugin session presetName ;;;
            ret STOP
        | _ =>
            set_option_charonBotConfig
              (mkCharonBotConfig id presetName (model botConfig)
                 (Js.or_else (chatMode botConfig) "chat")) ;;;
            opts <- gets options ;;
            if Js.truthy_opt (room_resolve_name opts) then
              botSpecificRoom <-
                on_database
                  (findBotSpecificRoom
                     (Js.template (room_resolve_name opts)) id) ;;
              match botSpecificRoom with
              | Some r => set_option_room r
              | None => ret tt
              end ;;;
              ret CONTINUE
            else
              botRoom <-
                on_database
                  (getOrCreateBotSpecificRoom session id botConfig) ;;
              (* a returned room is an object: [if (botRoom)] holds *)
              set_option_room botRoom ;;;
              ret CONTINUE
        end
  end.

(** The field repair of the post-hook: the corrected copy and the
    [needsFix] flag. *)
Definition set_room_preset (v : option string) (r : Room) : Room :=
  mkRoom (roomId r) (roomName r) (conversationId r) v (room_model r)
    (room_chatMode r) (visibility r) (updatedTime r) (roomMasterId r)
    (autoUpdate r) (password r).

Definition set_room_model (v : option string) (r : Room) : Room :=
  mkRoom (roomId r) (roomName r) (conversationId r) (room_preset r) v
    (room_chatMode r) (visibility r) (updatedTime r) (roomMasterId r)
    (autoUpdate r) (password r).

Definition set_room_chatMode (v : option string) (r : Room) : Room :=
  mkRoom (roomId r) (roomName r) (conversationId r) (room_preset r)
    (room_model r) v (visibility r) (updatedTime r) (roomMasterId r)
    (autoUpdate r) (password r).

Definition set_updatedTime (t : Z) (r : Room) : Room :=
  mkRoom (roomId r) (roomName r) (conversationId r) (room_preset r)
    (room_model r) (room_chatMode r) (visibility r) t (roomMasterId r)
    (autoUpdate r) (password r).

Definition fixedRoom (stash : CharonBotConfig) (currentRoom : Room)
  : Room * bool :=
  let step0 := (currentRoom, false) in
  let step1 :=
    if Js.truthy (stash_preset stash)
       && negb (Js.opt_eqb (room_preset currentRoom)
                           (Some (stash_preset stash)))
    then (set_room_preset (Some (stash_preset stash)) (fst step0), true)
    else step0 in
  let step2 :=
    if Js.truthy (stash_model stash)
       && negb (Js.opt_eqb (room_model currentRoom)
                           (Some (stash_model stash)))
    then (set_room_model (Some (stash_model stash)) (fst step1), true)
    else step1 in
  if negb (Js.opt_eqb (room_chatMode currentRoom)
                      (Some (stash_chatMode stash)))
  then (set_room_chatMode (Some (stash_chatMode stash)) (fst step2), true)
  else step2.

(** The clock reading of [new Date()] when the repair is persisted. *)
Variable fixTime : Z.

(** [room.conversationId?.startsWith(`bot_${botId}_`)] *)
Definition isRoomForBot (id : string) (r : Room) : bool :=
  Js.startsWith ("bot_" ++ id ++ "_") (conversationId r).

(** The post-hook, registered after [resolve_room]. *)
Definition charon_fix_room_auto_update (session : Session)
  : Eff World ChainMiddlewareRunStatus :=
  opts <- gets options ;;
  match charonBotConfig opts, room opts with
  | Some stash, Some bound =>
      let id := stash_botId stash in
      (if negb (isRoomForBot id bound) then
         match BotManager.getBotConfig config id with
         | Some botConfig =>
             correctRoom <-
               on_database
                 (getOrCreateBotSpecificRoom session id botConfig) ;;
             (* a returned room is an object: [if (correctRoom)] holds *)
             set_option_room correctRoom
         | None => ret tt
         end
       else ret tt) ;;;
      opts' <- gets options ;;
      match room opts' with
      | None => ret CONTINUE
      | Some currentRoom =>
          let (fixed, needsFix) := fixedRoom stash currentRoom in
          if needsFix then
            let fixed' := set_updatedTime fixTime fixed in
            on_database (Store.upsert_room fixed') ;;;
            set_option_room fixed' ;;;
            ret CONTINUE
          else ret CONTINUE
      end
  | _, _ => ret CONTINUE
  end.

End WithEntropy.

End ChainInterceptor.

(** ** MemoryInterceptor (src/interceptors/memory.ts) *)

Record LayerConfig : Type := mkLayerConfig {
  layer_session : option Session;
  layer_userId : option string;
  layer_guildId : option string
}.

Module MemoryInterceptor.

(** The handler of [chatluna-long-memory/init-layer]. *)
Definition init_layer (isolateLongMemory : bool) (layerConfig : LayerConfig)
  : LayerConfig :=
  if negb isolateLongMemory then layerConfig
  else
    let botId_ :=
      match layer_session layerConfig with
      | Some session => selfId_of session
      | None => None
      end in
    match botId_ with
    | None => layerConfig
    | Some id =>
        if negb (Js.truthy id) then layerConfig
        else
          let originalUserId := layer_userId layerConfig in
          let originalGuildId := layer_guildId layerConfig in
          mkLayerConfig (layer_session layerConfig)
            (if Js.truthy_opt originalUserId
             then Some (id ++ "_" ++ Js.template originalUserId)
             else originalUserId)
            (if Js.truthy_opt originalGuildId
             then Some (id ++ "_" ++ Js.template originalGuildId)
             else originalGuildId)
    end.

End MemoryInterceptor.

(** ** Specification-side definitions *)

(** The id [createRoom] allots: the number [maxRoomId + 1] for the
    largest id in the room table, [1] for an empty table. *)
Definition newRoomId_of (db : Database) : Z :=
  Js.add match chathub_room db with
         | [] => 0
         | r :: rows => fold_left Z.max (map roomId rows) (roomId r)
         end 1.

(** Every id of the room table is a natural number below [2^53 - 1]:
    adding [1] to the largest is exact. *)
Definition safe_roomIds (db : Database) : Prop :=
  forall r, In r (chathub_room db) -> 0 <= roomId r < Js.two53 - 1.

(** The ids of the rooms the user is a member of. *)
Definition memberRoomIds (session : Session) (db : Database) : list Z :=
  map member_roomId
    (filter (fun m => String.eqb (member_userId m) (userId session))
            (chathub_room_member db)).

(** The user's rooms whose name carries the marker of the bot. *)
Definition candidateRooms (session : Session) (id : string) (db : Database)
  : list Room :=
  filter (fun r => Js.includes (ChainInterceptor.name_marker id) (roomName r))
    (filter (fun r => existsb (Z.eqb (roomId r)) (memberRoomIds session db))
            (chathub_room db)).

(** The ids, among the user's rooms, that are associated with the group of
    the session. *)
Definition groupRoomIds_of (session : Session) (db : Database) : list Z :=
  map group_roomId
    (filter (fun g =>
               String.eqb (group_groupId g) (Js.template (guildId session))
               && existsb (Z.eqb (group_roomId g)) (memberRoomIds session db))
            (chathub_room_group_member db)).

(** The room the find phase settles on, if any. *)
Definition existingRoom (session : Session) (id : string) (db : Database)
  : option Room :=
  ChainInterceptor.selectedRoom session
    (if negb (ChainInterceptor.isDirect session)
     then groupRoomIds_of session db else [])
    (candidateRooms session id db).

(** The message context with the room [r] bound. *)
Definition with_room (r : Room) (o : Options) : Options :=
  mkOptions (charonBotConfig o) (Some r) (room_resolve_name o).

(** What the repair phase of the post-hook leaves behind once
    [currentRoom] is the bound room and [db] the store: the corrected copy
    is persisted and bound when a field had to change, otherwise
    [currentRoom] stays bound and the store is not written. *)
Definition repaired (fixTime : Z) (stash : CharonBotConfig)
    (currentRoom : Room) (db : Database) (w : World) : World :=
  let (fixed, needsFix) := ChainInterceptor.fixedRoom stash currentRoom in
  if needsFix then
    let fixed' := ChainInterceptor.set_updatedTime fixTime fixed in
    mkWorld (fst (Store.upsert_room fixed' db))
      (with_room fixed' (options w)) (chatluna_character w)
  else mkWorld db (with_room currentRoom (options w)) (chatluna_character w).

(** Two rows that agree on the columns the find phase looks at. *)
Definition same_keys (a b : Room) : Prop :=
  roomId a = roomId b
  /\ roomName a = roomName b
  /\ visibility a = visibility b
  /\ roomMasterId a = roomMasterId b.

(** The first hit of the first test that has one. *)
Fixpoint first_match (tests : list (Room -> bool)) (rows : list Room)
  : option Room :=
  match tests with
  | [] => None
  | test :: others =>
      ChainInterceptor.orElse (find test rows) (first_match others rows)
  end.

(** The tests [selectedRoom] tries in turn on the rows that pass [keep]. *)
Definition selection_tests (session : Session) (groupRoomIds : list Z)
    (keep : Room -> bool) : list (Room -> bool) :=
  if negb (ChainInterceptor.isDirect session) then
    [ (fun r => keep r
                && (existsb (Z.eqb (roomId r)) groupRoomIds
                    && Js.opt_eqb (visibility r) (Some "template_clone")));
      (fun r => keep r && existsb (Z.eqb (roomId r)) groupRoomIds) ]
  else
    [ (fun r => keep r
                && (Js.opt_eqb (visibility r) (Some "private")
                    && Js.opt_eqb (roomMasterId r)
                         (Some (userId session))));
      (fun r => keep r && Js.opt_eqb (visibility r) (Some "private"));
      keep ].

(** The room left bound by the repair phase. *)
Definition final_room (fixTime : Z) (stash : CharonBotConfig)
    (currentRoom : Room) : Room :=
  let (fixed, needsFix) := ChainInterceptor.fixedRoom stash currentRoom in
  if needsFix then ChainInterceptor.set_updatedTime fixTime fixed
  else currentRoom.

(** A field is overwritten with the declared value only if that value is
    not empty and differs from the current one; an empty declared value
    leaves the field as it is. *)
Definition overwritten_only_if_declared (declared : string)
    (current final : option string) : Prop :=
  (final <> current ->
   declared <> "" /\ current <> Some declared /\ final = Some declared)
  /\ (declared <> "" -> current <> Some declared -> final = Some declared)
  /\ (declared = "" -> final = current).

(** A field is overwritten whenever it differs from the declared value. *)
Definition overwritten_whenever_different (declared : string)
    (current final : option string) : Prop :=
  (current <> Some declared -> final = Some declared)
  /\ (current = Some declared -> final = current).

(** ** Concrete scenario used by the closed lemmas below *)

Module Scenario.

(** Identity [disc:42] with preset [chatluna:helper] and model
    [vendorA/modelX]. *)
Definition helper : BotPersonaConfig :=
  mkBotPersonaConfig "disc:42" true "chatluna:helper" "vendorA/modelX" None.

Definition config : list BotPersonaConfig := [helper].

(** A direct message of user [u1] to the bot [42] on platform [disc]. *)
Definition direct : Session :=
  mkSession "disc" (Some "42") None "u1" None None (Some "Una") None.

(** A message of [u1] in the group [g1]. *)
Definition grouped : Session :=
  mkSession "disc" (Some "42") None "u1" (Some "g1") None (Some "Una")
    (Some "Guild").

Definition empty_db : Database := mkDatabase [] [] [] [] [].

Definition no_options : Options := mkOptions None None None.

Definition fresh : World := mkWorld empty_db no_options None.

(** A store in which a membership row of [u1] was left behind for the
    room id [1], with no room of that id. *)
Definition stale_member_db : Database :=
  mkDatabase [] [mkRoomMember "u1" 1 (Some "member")] [] [] [].

Definition stash : CharonBotConfig :=
  mkCharonBotConfig "disc:42" "helper" "vendorA/modelX" "chat".

(** A room the host made on its own: neither its key nor its name
    mentions the bot. *)
Definition host_room : Room :=
  mkRoom 7 "lobby" "host-default-key" (Some "sydney") (Some "other/model")
    (Some "chat") (Some "private") 5 (Some "u1") (Some true) (Some "").

(** A room whose name carries the marker of [disc:42] while its key is
    a foreign one. *)
Definition named_room : Room :=
  mkRoom 3 "Una (disc:42)" "legacy-key" (Some "helper")
    (Some "vendorA/modelX") (Some "chat") (Some "private") 5 (Some "u1")
    (Some true) (Some "").

(** A room whose key belongs to [disc:42] while its name was changed. *)
Definition renamed_room : Room :=
  mkRoom 4 "renamed" "bot_disc:42_0001" (Some "helper")
    (Some "vendorA/modelX") (Some "chat") (Some "private") 5 (Some "u1")
    (Some false) (Some "").

(** The room [createRoom] makes for [direct] on an empty store. *)
Definition created_room : Room :=
  mkRoom 1 "Una (disc:42)" "bot_disc:42_UUID" (Some "helper")
    (Some "vendorA/modelX") (Some "chat") (Some "private") 100 (Some "u1")
    (Some false) (Some "").

(** The room [createRoom] makes for [direct] when [host_room] is the
    only room of the store. *)
Definition created_room_8 : Room :=
  mkRoom 8 "Una (disc:42)" "bot_disc:42_UUID" (Some "helper")
    (Some "vendorA/modelX") (Some "chat") (Some "private") 100 (Some "u1")
    (Some false) (Some "").

(** [u1] is a member of [named_room] only. *)
Definition named_db : Database :=
  mkDatabase [named_room] [mkRoomMember "u1" 3 (Some "owner")] [] [] [].

(** [u1] is a member of [renamed_room] only. *)
Definition renamed_db : Database :=
  mkDatabase [renamed_room] [mkRoomMember "u1" 4 (Some "owner")] [] [] [].

(** A room named for [disc:42] under a foreign key whose persona has
    drifted. *)
Definition drifted_room : Room :=
  mkRoom 3 "Una (disc:42)" "legacy-key" (Some "sydney") (Some "other/model")
    (Some "plugin") (Some "private") 5 (Some "u1") (Some true) (Some "").

(** The host bound its own room while [u1] already has [drifted_room]. *)
Definition drifted : World :=
  mkWorld
    (mkDatabase [host_room; drifted_room]
       [mkRoomMember "u1" 3 (Some "owner")] [] [] [])
    (mkOptions (Some stash) (Some host_room) None) None.

(** The message context after the pre-hook stashed [stash] and the host
    bound its own room. *)
Definition host_bound : World :=
  mkWorld (mkDatabase [host_room] [] [] [] [])
    (mkOptions (Some stash) (Some host_room) None) None.

(** A room whose id is [2^53]: [2^53 + 1] is not a number, and the sum
    [2^53 + 1] is [2^53] again. *)
Definition brim_room : Room :=
  mkRoom 9007199254740992 "lobby" "host-default-key" (Some "sydney")
    (Some "other/model") (Some "chat") (Some "private") 5 (Some "u1")
    (Some true) (Some "").

Definition brim_db : Database := mkDatabase [brim_room] [] [] [] [].

(** The message of [u1] names the room [lobby], which the host made. *)
Definition lobby_asked : World :=
  mkWorld (mkDatabase [host_room] [] [] [] [])
    (mkOptions None None (Some "lobby")) None.

(** The same message after the pre-hook stashed [stash] and the host
    bound the room it was asked for. *)
Definition lobby_bound : World :=
  mkWorld (mkDatabase [host_room] [] [] [] [])
    (mkOptions (Some stash) (Some host_room) (Some "lobby")) None.

End Scenario.


(** * The rest of the plugin

    The registry, the runtime status map and the preset catalog of
    [BotManager], the template rooms of [RoomInterceptor]
    (src/interceptors/room.ts) and the bot-list scan of src/index.ts. *)

(** ** BotManager: bot ids and the registry *)

Record ParsedBotId : Type := mkParsedBotId {
  parsed_platform : option string;
  parsed_selfId : option string
}.

Module Registry.

(** [const [platform, selfId] = botId.split(':', 2)]: a missing piece is
    [undefined]. *)
Definition parseBotId (id : string) : ParsedBotId :=
  let parts := Js.split_limit ":"%char 2 id in
  mkParsedBotId (nth_error parts 0) (nth_error parts 1).

Definition getBotConfigByPlatform (config : list BotPersonaConfig)
    (platform selfId : string) : option BotPersonaConfig :=
  BotManager.getBotConfig config (BotManager.getBotId platform selfId).

(** [Array.prototype.findIndex], [None] for [-1]. *)
Fixpoint findIndex {A : Type} (test : A -> bool) (l : list A) : option nat :=
  match l with
  | [] => None
  | x :: rest =>
      if test x then Some O
      else match findIndex test rest with
           | Some i => Some (S i)
           | None => None
           end
  end.

(** [l[i] = v] for an index inside the array. *)
Fixpoint assign_at {A : Type} (i : nat) (v : A) (l : list A) : list A :=
  match l, i with
  | [], _ => []
  | _ :: rest, O => v :: rest
  | x :: rest, S j => x :: assign_at j v rest
  end.

(** [updateBotConfig]: the first entry with the same bot id is replaced
    where it stands; an unknown bot id is pushed at the end. *)
Definition updateBotConfig (config : list BotPersonaConfig)
    (c : BotPersonaConfig) : list BotPersonaConfig :=
  match findIndex (fun b => String.eqb (botId b) (botId c)) config with
  | Some index => assign_at index c config
  | None => (config ++ [c])%list
  end.

End Registry.

(** ** BotManager: runtime status *)

Record BotStatus : Type := mkBotStatus {
  status_botId : string;
  status_platform : option string;
  status_initialized : bool;
  status_templateRoomId : option Z;
  status_currentPreset : option string;
  status_currentModel : option string;
  status_error : option string
}.

(** [Partial<BotStatus>]: [None] is a key that is not set. *)
Record PartialBotStatus : Type := mkPartialBotStatus {
  part_botId : option string;
  part_platform : option string;
  part_initialized : option bool;
  part_templateRoomId : option Z;
  part_currentPreset : option string;
  part_currentModel : option string;
  part_error : option string
}.

(** [botStatusMap], a JavaScript [Map]: one value per key, keys in the
    order of their first insertion. *)
Definition StatusMap : Type := list (string * BotStatus).

Module Status.

Definition no_change : PartialBotStatus :=
  mkPartialBotStatus None None None None None None None.

Definition set_initialized (b : bool) : PartialBotStatus :=
  mkPartialBotStatus None None (Some b) None None None None.

Definition set_templateRoomId (n : Z) : PartialBotStatus :=
  mkPartialBotStatus None None None (Some n) None None None.

Definition set_error (text : string) : PartialBotStatus :=
  mkPartialBotStatus None None None None None None (Some text).

(** [Map.prototype.get] *)
Fixpoint get (m : StatusMap) (id : string) : option BotStatus :=
  match m with
  | [] => None
  | (k, v) :: rest => if String.eqb k id then Some v else get rest id
  end.

(** [Map.prototype.set] *)
Fixpoint set (m : StatusMap) (id : string) (v : BotStatus) : StatusMap :=
  match m with
  | [] => [(id, v)]
  | (k, old) :: rest =>
      if String.eqb k id then (k, v) :: rest else (k, old) :: set rest id v
  end.

Definition getBotStatus (m : StatusMap) (id : string) : option BotStatus :=
  get m id.

(** [Object.assign({}, current, status)] *)
Definition assign (current : BotStatus) (status : PartialBotStatus)
  : BotStatus :=
  let pick {A : Type} (new : option A) (old : A) : A :=
    match new with
    | Some v => v
    | None => old
    end in
  let pick_opt {A : Type} (new old : option A) : option A :=
    match new with
    | Some v => Some v
    | None => old
    end in
  mkBotStatus
    (pick (part_botId status) (status_botId current))
    (pick_opt (part_platform status) (status_platform current))
    (pick (part_initialized status) (status_initialized current))
    (pick_opt (part_templateRoomId status) (status_templateRoomId current))
    (pick_opt (part_currentPreset status) (status_currentPreset current))
    (pick_opt (part_currentModel status) (status_currentModel current))
    (pick_opt (part_error status) (status_error current)).

(** The entry [setBotStatus] starts from when the bot has none. *)
Definition initial (id : string) : BotStatus :=
  mkBotStatus id (parsed_platform (Registry.parseBotId id)) false None None
    None None.

Definition setBotStatus (m : StatusMap) (id : string)
    (status : PartialBotStatus) : StatusMap :=
  let current :=
    match get m id with
    | Some s => s
    | None => initial id
    end in
  set m id (assign current status).

Definition getAllBotStatus (m : StatusMap) : list BotStatus := map snd m.

End Status.

(** ** Reading the character plugin's configuration *)

(** [configs[g]?.preset], with [None] when the scope has no entry. *)
Fixpoint group_preset (g : string) (cfgs : list (string * option string))
  : option (option string) :=
  match cfgs with
  | [] => None
  | (k, v) :: rest => if String.eqb k g then Some v else group_preset g rest
  end.

(** The scope the character plugin is configured for:
    [session.guildId || session.channelId || 'private']. *)
Definition character_scope (session : Session) : string :=
  Js.or_else (guildId session) (Js.or_else (channelId session) "private").

Definition or_empty {A : Type} (o : option (list A)) : list A :=
  match o with
  | Some l => l
  | None => []
  end.

(** ** The outcome of the pre-hook, path by path *)

(** The context the pre-hook stashes for the post-hook. *)
Definition stash_of (id : string) (botConfig : BotPersonaConfig)
  : CharonBotConfig :=
  mkCharonBotConfig id
    (if Js.truthy (preset botConfig)
     then name (BotManager.parsePresetName (preset botConfig)) else "")
    (model botConfig) (Js.or_else (chatMode botConfig) "chat").

(** The message context with [c] stashed. *)
Definition with_stash (c : CharonBotConfig) (o : Options) : Options :=
  mkOptions (Some c) (room o) (room_resolve_name o).

(** Whether the pre-hook intercepts for this configuration, and how. *)
Inductive Interception : Type :=
| LeftAlone
| HandedToCharacter (presetName : string)
| Resolved.

Definition interception (found : option BotPersonaConfig) : Interception :=
  match found with
  | None => LeftAlone
  | Some botConfig =>
      if negb (enabled botConfig) then LeftAlone
      else if negb (Js.truthy (preset botConfig))
              && negb (Js.truthy (model botConfig))
      then LeftAlone
      else if Js.truthy (preset botConfig)
      then match source (BotManager.parsePresetName (preset botConfig)) with
           | Character =>
               HandedToCharacter
                 (name (BotManager.parsePresetName (preset botConfig)))
           | ChatLuna => Resolved
           end
      else Resolved
  end.

(** ** RoomInterceptor (src/interceptors/room.ts) *)

(** What the handlers of [RoomInterceptor] read and change: the store and
    the status map of [BotManager]. *)
Record RoomWorld : Type := mkRoomWorld {
  room_database : Database;
  botStatusMap : StatusMap
}.

Module RoomInterceptor.

Local Open Scope eff_scope.

Definition on_store {A : Type} (c : Eff Database A) : Eff RoomWorld A :=
  fun w =>
    let (db, r) := c (room_database w) in
    (mkRoomWorld db (botStatusMap w), r).

Definition setBotStatus (id : string) (status : PartialBotStatus)
  : Eff RoomWorld unit :=
  modify (fun w =>
    mkRoomWorld (room_database w)
      (Status.setBotStatus (botStatusMap w) id status)).

(** The room name [`模板房间_${botId}`]. *)
Definition templateRoomName (id : string) : string := "模板房间_" ++ id.

Section Handlers.

Variable uuid : string.
Variable now : Z.
Variable config : list BotPersonaConfig.

(** The plugin option [autoCreateTemplateRooms]. *)
Variable autoCreateTemplateRooms : bool.

(** [String(error)], the text recorded for a caught exception. *)
Variable error_text : StoreError -> string.

(** [createTemplateRoomForBot].  The room master is the self id cut out
    of the bot id; [handleBotStatusUpdate], the only caller, passes a
    configuration whose bot id was built by [getBotId], in which
    [parseBotId] always finds one. *)
Definition createTemplateRoomForBot (botConfig : BotPersonaConfig)
  : Eff RoomWorld unit :=
  let id := botId botConfig in
  let selfId := parsed_selfId (Registry.parseBotId id) in
  try_catch
    (existingRooms <- on_store (Store.get_rooms_named (templateRoomName id)) ;;
     match existingRooms with
     | first :: _ =>
         setBotStatus id (Status.set_templateRoomId (roomId first))
     | [] =>
         match source (BotManager.parsePresetName (preset botConfig)) with
         | Character => setBotStatus id (Status.set_initialized true)
         | ChatLuna =>
             created <-
               on_store
                 (createRoom uuid now
                    (mkCreateRoomOptions id (templateRoomName id)
                       (Js.template selfId) None "template_clone"
                       (Some (preset botConfig)) (Some (model botConfig))
                       (Some (Js.or_else (chatMode botConfig) "chat")))) ;;
             setBotStatus id (Status.set_templateRoomId (roomId created))
         end
     end)
    (fun error => setBotStatus id (Status.set_error (error_text error))).

(** [handleBotStatusUpdate(bot)] for a bot with the given platform and
    self id. *)
Definition handleBotStatusUpdate (platform selfId : string)
  : Eff RoomWorld unit :=
  let id := BotManager.getBotId platform selfId in
  match BotManager.getBotConfig config id with
  | None => ret tt
  | Some botConfig =>
      if negb (enabled botConfig) then ret tt
      else
        status <- gets (fun w => Status.getBotStatus (botStatusMap w) id) ;;
        if match status with
           | Some s => status_initialized s
           | None => false
           end
        then ret tt
        else
          (if autoCreateTemplateRooms
           then createTemplateRoomForBot botConfig
           else ret tt) ;;;
          setBotStatus id (Status.set_initialized true)
  end.

End Handlers.

End RoomInterceptor.

(** ** BotManager: the preset catalog *)

Record PresetWithSource : Type := mkPresetWithSource {
  preset_name : string;
  preset_label : option string;
  preset_path : option string;
  preset_source : PresetSource
}.

(** What a call into another plugin gives: a value or an exception with
    its message. *)
Inductive Reply (A : Type) : Type :=
| Returns (a : A)
| Raises (text : string).

Arguments Returns {A} a.
Arguments Raises {A} text.

(** The two preset services as [loadPresets] meets them: [None] when the
    service is not there; the reply of [getAllPreset] otherwise, whose
    value may be missing. *)
Record PresetServices : Type := mkPresetServices {
  chatluna_getAllPreset : option (Reply (option (list string)));
  character_getAllPreset : option (Reply (option (list string)))
}.

(** The cache of [BotManager] (key ['all']) and the options published
    under the schema name ['charon.preset'], each a value with its
    description. *)
Record Catalog : Type := mkCatalog {
  presetCache : option (list PresetWithSource);
  preset_schema : list (string * option string)
}.

Module Presets.

(** [Array.prototype.join] *)
Fixpoint join (sep : string) (l : list string) : string :=
  match l with
  | [] => ""
  | [x] => x
  | x :: rest => x ++ sep ++ join sep rest
  end.

Section Loading.

(** [String.prototype.trim] and [Array.prototype.sort] (default order),
    as the host's JavaScript engine provides them. *)
Variable trim : string -> string.
Variable sort : list string -> list string.

(** [preset.split(',')[0].trim()]; [split] always returns a first
    piece. *)
Definition firstKeyword (p : string) : string :=
  trim (match Js.split ","%char p with
        | piece :: _ => piece
        | [] => ""
        end).

Definition chatlunaEntry (p : string) : PresetWithSource :=
  mkPresetWithSource ("chatluna:" ++ firstKeyword p)
    (Some ("ChatLuna：" ++ firstKeyword p)) None ChatLuna.

Definition characterEntry (n : string) : PresetWithSource :=
  mkPresetWithSource ("character:" ++ n) (Some ("character：" ++ n)) None
    Character.

(** [loadChatLunaPresets]: a failure is logged and leaves the list as it
    is. *)
Definition loadChatLunaPresets (services : PresetServices)
    (presets : list PresetWithSource) : list PresetWithSource :=
  match chatluna_getAllPreset services with
  | None => presets
  | Some (Raises _) => presets
  | Some (Returns value) =>
      (presets ++ map chatlunaEntry (or_empty value))%list
  end.

(** [loadCharacterPresets]: every kind of failure only chooses the log
    line; a missing or empty answer adds nothing. *)
Definition loadCharacterPresets (services : PresetServices)
    (presets : list PresetWithSource) : list PresetWithSource :=
  match character_getAllPreset services with
  | None => presets
  | Some (Raises _) => presets
  | Some (Returns None) => presets
  | Some (Returns (Some [])) => presets
  | Some (Returns (Some names)) =>
      (presets ++ map characterEntry names)%list
  end.

Definition getPresets (c : Catalog) : list PresetWithSource :=
  or_empty (presetCache c).

(** [updatePresetOptions] (src/config.ts) *)
Definition updatePresetOptions (presets : list PresetWithSource)
  : list (string * option string) :=
  match presets with
  | [] => [("", Some "请先在 ChatLuna 中配置预设")]
  | _ :: _ =>
      ("", Some "未选择")
      :: map (fun p => (preset_name p, preset_label p)) presets
  end.

(** The list [loadPresets] builds from the two services. *)
Definition loaded (services : PresetServices) : list PresetWithSource :=
  loadCharacterPresets services (loadChatLunaPresets services []).

(** [loadPresets(silent, force)]; [silent] only silences the log. *)
Definition loadPresets (silent force : bool) (services : PresetServices)
    (c : Catalog) : Catalog :=
  let presets := loaded services in
  if negb force
     && String.eqb (join "," (sort (map preset_name (getPresets c))))
                   (join "," (sort (map preset_name presets)))
  then c
  else mkCatalog (Some presets) (updatePresetOptions presets).

Definition validatePreset (c : Catalog) (presetName : string) : bool :=
  existsb (fun p => String.eqb (preset_name p) presetName) (getPresets c).

End Loading.

End Presets.

(** ** The bot-list scan of src/index.ts *)

Record MbcBotInfo : Type := mkMbcBotInfo {
  mbc_platform : string;
  mbc_selfId : string;
  mbc_enabled : bool
}.

(** [knownBots], a JavaScript [Set] (members in insertion order, none
    twice), and the options published under ['charon.botId']. *)
Record BotSchema : Type := mkBotSchema {
  knownBots : list string;
  botId_schema : list (string * option string)
}.

Module Scan.

(** [setsEqual(a, b)] *)
Definition setsEqual (a b : list string) : bool :=
  Nat.eqb (length a) (length b)
  && forallb (fun item => existsb (String.eqb item) b) a.

(** [Set.prototype.add] *)
Definition add (s : list string) (x : string) : list string :=
  if existsb (String.eqb x) s then s else (s ++ [x])%list.

(** [new Set(array)], and [forEach(id => set.add(id))] on an empty set. *)
Definition to_set (l : list string) : list string := fold_left add l [].

(** [updateBotIdOptions] (src/config.ts) *)
Definition updateBotIdOptions (botIds : list string)
  : list (string * option string) :=
  ("", Some "无") :: map (fun id => (id, Some id)) botIds.

Section Scanning.

Variable sort : list string -> list string.

(** [scanFromMBC]; [None] is a missing service, [Raises] an exception of
    [getBots], which is caught and logged. *)
Definition scanFromMBC (mbcService : option (Reply (list MbcBotInfo)))
    (s : BotSchema) : BotSchema :=
  match mbcService with
  | None => s
  | Some (Raises _) => s
  | Some (Returns bots) =>
      let enabledBots := filter mbc_enabled bots in
      let botIds :=
        sort (map (fun b => mbc_platform b ++ ":" ++ mbc_selfId b)
                  enabledBots) in
      let currentSet := to_set botIds in
      if setsEqual (knownBots s) currentSet then s
      else mkBotSchema (to_set botIds) (updateBotIdOptions botIds)
  end.

End Scanning.

End Scan.

(** ** More concrete data for the closed lemmas *)

Module Examples.

(** Identity [disc:42] with a preset of the character source. *)
Definition alice : BotPersonaConfig :=
  mkBotPersonaConfig "disc:42" true "character:alice" "vendorA/modelX" None.

(** An empty store and message context, with the character plugin loaded
    and nothing configured in it. *)
Definition with_character : World :=
  mkWorld Scenario.empty_db Scenario.no_options
    (Some (mkCharacterPlugin (Some (mkCharacterConfig None None)))).

End Examples.
(** * Properties *)

Unset Implicit Arguments.

Arguments Js.add : simpl never.
Arguments Js.to_number : simpl never.

Example parse_plain :
  BotManager.parsePresetName "helper" = mkParsedPreset "helper" ChatLuna.
Proof. reflexivity. Qed.

Example parse_prefixed :
  BotManager.parsePresetName "character:alice"
  = mkParsedPreset "alice" Character.
Proof. reflexivity. Qed.

Example parse_unknown_prefix :
  BotManager.parsePresetName "foo:bar:baz"
  = mkParsedPreset "foo:bar:baz" ChatLuna.
Proof. reflexivity. Qed.

(** ** Strings *)

Lemma prefix_app (p s : string) : String.prefix p (p ++ s) = true.
Proof.
  induction p as [|c p IH]; simpl.
  - now destruct s.
  - destruct (ascii_dec c c) as [_|Hc]; [exact IH | now elim Hc].
Qed.

Lemma truthy_false_iff (s : string) : Js.truthy s = false <-> s = "".
Proof. destruct s; simpl; split; congruence. Qed.

Lemma truthy_true_iff (s : string) : Js.truthy s = true <-> s <> "".
Proof. destruct s; simpl; split; congruence. Qed.

Lemma opt_eqb_eq (a b : option string) : Js.opt_eqb a b = true <-> a = b.
Proof.
  destruct a as [x|], b as [y|]; simpl; try (split; congruence).
  rewrite String.eqb_eq. split; congruence.
Qed.

Lemma opt_eqb_refl (a : option string) : Js.opt_eqb a a = true.
Proof. now apply opt_eqb_eq. Qed.

Lemma split_no_separator (s : string) :
  Js.includes ":" s = false -> Js.split ":"%char s = [s].
Proof.
  induction s as [|c s IH]; simpl; intros H; [reflexivity|].
  destruct (Ascii.eqb_spec c ":"%char) as [->|Hc].
  - simpl in H. now destruct s.
  - assert (Hs : Js.includes ":" s = false).
    { apply orb_false_iff in H. tauto. }
    now rewrite (IH Hs).
Qed.

(** What [parsePresetName] does get right: a name without separator goes
    to the primary source, and a namespaced name whose raw part has no
    separator comes back whole. *)
Lemma parsePresetName_no_separator (s : string) :
  Js.includes ":" s = false ->
  BotManager.parsePresetName s = mkParsedPreset s ChatLuna.
Proof.
  intros H. unfold BotManager.parsePresetName, Js.split_limit.
  now rewrite (split_no_separator _ H).
Qed.

Lemma parsePresetName_namespaced (src : PresetSource) (raw : string) :
  Js.includes ":" raw = false ->
  BotManager.parsePresetName (PresetSource_value src ++ ":" ++ raw)
  = mkParsedPreset raw src.
Proof.
  intros H. unfold BotManager.parsePresetName, Js.split_limit.
  destruct src; simpl; now rewrite (split_no_separator _ H).
Qed.

(** C6 (defect in the code).  [parsePresetName] cuts the input at every
    separator and keeps the first two pieces, so a remainder that itself
    contains a separator is truncated: on ["chatluna:a:b"] the name is
    ["a"], not the entire remainder ["a:b"]. *)
Theorem C6_parsePresetName_truncates_remainder :
  BotManager.parsePresetName "chatluna:a:b" = mkParsedPreset "a" ChatLuna
  /\ name (BotManager.parsePresetName "chatluna:a:b") <> "a:b".
Proof. split; [reflexivity | discriminate]. Qed.

(** C7 (defect in the code).  The memory hook prefixes the identifiers
    with the bot's self id alone, not with the [platform:selfId] identity
    key that [BotManager.getBotId] builds: for the bot [42] on platform
    [disc] the user id ["u1"] becomes ["42_u1"], not ["disc:42_u1"]. *)
Theorem C7_memory_prefix_is_selfId_only :
  let session :=
    mkSession "disc" (Some "42") None "u1" (Some "g1") None None None in
  let layer := mkLayerConfig (Some session) (Some "u1") (Some "g1") in
  MemoryInterceptor.init_layer true layer
  = mkLayerConfig (Some session) (Some "42_u1") (Some "42_g1")
  /\ layer_userId (MemoryInterceptor.init_layer true layer)
     <> Some (BotManager.getBotId "disc" "42" ++ "_" ++ "u1")
  /\ layer_guildId (MemoryInterceptor.init_layer true layer)
     <> Some (BotManager.getBotId "disc" "42" ++ "_" ++ "g1").
Proof. repeat split; discriminate. Qed.

(** ** Room creation *)


Ltac run_eff :=
  unfold bind, try_catch, gets, ret, throw, modify, on_database,
    Store.create_room, Store.create_room_member,
    Store.create_room_group_member, Store.create_user, Store.upsert_room,
    Store.max_roomId, Store.get_rooms_in, Store.get_rooms_named,
    Store.get_members_of, Store.get_group_members in *;
  simpl in *.

Section CreateRoomFacts.

Variables (uuid : string) (now : Z) (o : CreateRoomOptions) (db : Database).

Let created : Room := newRoom uuid now (newRoomId_of db) o.

Lemma createRoom_rooms :
  chathub_room (fst (createRoom uuid now o db)) = chathub_room db
  \/ chathub_room (fst (createRoom uuid now o db))
     = (chathub_room db ++ [created])%list.
Proof.
  subst created. unfold createRoom, newRoomId_of. run_eff.
  destruct (chathub_room db) as [|r0 rows] eqn:Hrooms; simpl;
    repeat match goal with
           | |- context [if ?b then _ else _] => destruct b; simpl
           end; auto.
Qed.

Lemma createRoom_ok (db' : Database) (r : Room) :
  createRoom uuid now o db = (db', Ok r) ->
  r = created
  /\ chathub_room db' = (chathub_room db ++ [created])%list
  /\ In (CreateRoom created) (writes db').
Proof.
  subst created. unfold createRoom, newRoomId_of. run_eff.
  destruct (chathub_room db) as [|r0 rows] eqn:Hrooms; simpl;
    repeat match goal with
           | |- context [if ?b then _ else _] => destruct b; simpl
           end;
    intros H; inversion H; subst; clear H; simpl;
    repeat split; auto;
    repeat (apply in_or_app; simpl; auto; left).
Qed.

End CreateRoomFacts.

(** C10.  Every room [createRoom] adds to the room table, and the room it
    returns, has [autoUpdate = false]. *)
Theorem C10_created_room_has_autoUpdate_off
    (uuid : string) (now : Z) (o : CreateRoomOptions) (db : Database) :
  (forall r, In r (chathub_room (fst (createRoom uuid now o db))) ->
             In r (chathub_room db) \/ autoUpdate r = Some false)
  /\ (forall db' r, createRoom uuid now o db = (db', Ok r) ->
                    autoUpdate r = Some false /\ In r (chathub_room db')).
Proof.
  split.
  - intros r Hin.
    destruct (createRoom_rooms uuid now o db) as [E|E]; rewrite E in Hin.
    + now left.
    + apply in_app_or in Hin. destruct Hin as [Hin|[<-|[]]]; auto.
  - intros db' r H. apply createRoom_ok in H. destruct H as (-> & E & _).
    split; [reflexivity|]. rewrite E. apply in_or_app. right. now left.
Qed.

(** ** Find-or-create *)


Lemma filter_none {A : Type} (l : list A) : filter (fun _ => false) l = [].
Proof. induction l; simpl; auto. Qed.

Lemma selectedRoom_nil (session : Session) (ids : list Z) :
  ChainInterceptor.selectedRoom session ids [] = None.
Proof.
  unfold ChainInterceptor.selectedRoom.
  now destruct (negb (ChainInterceptor.isDirect session)).
Qed.

Section FindOrCreateFacts.

Variables (uuid : string) (now : Z).
Variables (session : Session) (id : string) (botConfig : BotPersonaConfig).

Lemma createBotSpecificRoom_unfold (db : Database) :
  ChainInterceptor.createBotSpecificRoom uuid now session id botConfig db
  = match createRoom uuid now
            (ChainInterceptor.botRoomOptions session id botConfig) db with
    | (db1, Ok r) =>
        (fst (Store.create_user
                (ChainInterceptor.userDefaultRow session r) db1), Ok r)
    | (db1, Throw e) => (db1, Throw e)
    end.
Proof.
  unfold ChainInterceptor.createBotSpecificRoom, bind, try_catch, ret.
  destruct (createRoom uuid now _ db) as [db1 [r|e]]; [|reflexivity].
  unfold Store.create_user.
  destruct (existsb _ (chathub_user db1)); [|reflexivity].
  now destruct (Js.includes _ _).
Qed.

Lemma getOrCreateBotSpecificRoom_unfold (db : Database) :
  ChainInterceptor.getOrCreateBotSpecificRoom uuid now session id botConfig db
  = match existingRoom session id db with
    | Some r => (db, Ok r)
    | None =>
        ChainInterceptor.createBotSpecificRoom uuid now session id
          botConfig db
    end.
Proof.
  unfold ChainInterceptor.getOrCreateBotSpecificRoom, existingRoom,
    candidateRooms, groupRoomIds_of, memberRoomIds.
  run_eff.
  destruct (filter _ (chathub_room_member db)) as [|m ms] eqn:Hm; simpl.
  - rewrite filter_none. simpl. now rewrite selectedRoom_nil.
  - destruct (negb (ChainInterceptor.isDirect session)); simpl;
      now destruct (ChainInterceptor.selectedRoom _ _ _).
Qed.

Lemma create_user_rooms (u : UserRow) (db : Database) :
  chathub_room (fst (Store.create_user u db)) = chathub_room db.
Proof.
  unfold Store.create_user. now destruct (existsb _ (chathub_user db)).
Qed.

Lemma createBotSpecificRoom_rooms (db : Database) :
  chathub_room
    (fst (ChainInterceptor.createBotSpecificRoom uuid now session id
            botConfig db))
  = chathub_room
      (fst (createRoom uuid now
              (ChainInterceptor.botRoomOptions session id botConfig) db)).
Proof.
  rewrite createBotSpecificRoom_unfold.
  destruct (createRoom uuid now _ db) as [db1 [r|e]]; simpl; auto.
  apply create_user_rooms.
Qed.

Lemma getOrCreateBotSpecificRoom_rooms (db : Database) (r : Room) :
  In r (chathub_room
          (fst (ChainInterceptor.getOrCreateBotSpecificRoom uuid now
                  session id botConfig db))) ->
  In r (chathub_room db)
  \/ conversationId r = BotManager.generateConversationId id uuid.
Proof.
  rewrite getOrCreateBotSpecificRoom_unfold.
  destruct (existingRoom session id db) as [x|]; simpl; auto.
  rewrite createBotSpecificRoom_rooms.
  destruct (createRoom_rooms uuid now
              (ChainInterceptor.botRoomOptions session id botConfig) db)
    as [E|E]; rewrite E; auto.
  intros Hin. apply in_app_or in Hin.
  destruct Hin as [Hin|[<-|[]]]; auto.
Qed.

End FindOrCreateFacts.

(** The pre-hook leaves the store alone or runs find-or-create on it for
    the identity of the message. *)
Lemma charon_resolve_bot_room_database
    (uuid : string) (now : Z) (config : list BotPersonaConfig)
    (session : Session) (w : World) :
  let id := BotManager.getBotId (platform session)
              (Js.template (selfId_of session)) in
  database (fst (ChainInterceptor.charon_resolve_bot_room uuid now config
                   session w)) = database w
  \/ exists botConfig,
       database (fst (ChainInterceptor.charon_resolve_bot_room uuid now config
                        session w))
       = fst (ChainInterceptor.getOrCreateBotSpecificRoom uuid now session id
                botConfig (database w)).
Proof.
  intros id. unfold ChainInterceptor.charon_resolve_bot_room. fold id.
  destruct (BotManager.getBotConfig config id) as [bc|]; [|now left].
  destruct (enabled bc); simpl; [|now left].
  destruct (negb (Js.truthy (preset bc)) && negb (Js.truthy (model bc)));
    [now left|].
  destruct (Js.truthy (preset bc)); simpl.
  - destruct (source (BotManager.parsePresetName (preset bc))).
    + unfold ChainInterceptor.findBotSpecificRoom, set_option_room,
        set_option_charonBotConfig. run_eff.
      destruct (Js.truthy_opt (room_resolve_name (options w))); simpl.
      * left.
        destruct (filter _ (chathub_room (database w))) as [|r rs]; simpl;
          [reflexivity|].
        now destruct (Js.includes _ (roomName r)).
      * right. exists bc.
        now destruct (ChainInterceptor.getOrCreateBotSpecificRoom
                        uuid now session id bc (database w)) as [db1 [r|e]].
    + left. unfold ChainInterceptor.configureCharacterPlugin. run_eff.
      destruct (chatluna_character w) as [[[cc|]]|]; reflexivity.
  - unfold ChainInterceptor.findBotSpecificRoom, set_option_room,
      set_option_charonBotConfig. run_eff.
    destruct (Js.truthy_opt (room_resolve_name (options w))); simpl.
    + left.
      destruct (filter _ (chathub_room (database w))) as [|r rs]; simpl;
        [reflexivity|].
      now destruct (Js.includes _ (roomName r)).
    + right. exists bc.
      now destruct (ChainInterceptor.getOrCreateBotSpecificRoom
                      uuid now session id bc (database w)) as [db1 [r|e]].
Qed.

Lemma C10_witness :
  autoUpdate Scenario.created_room = Some false
  /\ In Scenario.created_room
        (chathub_room
           (fst (createRoom "UUID" 100
                   (ChainInterceptor.botRoomOptions Scenario.direct "disc:42"
                      Scenario.helper)
                   Scenario.empty_db))).
Proof.
  apply (proj2 (C10_created_room_has_autoUpdate_off "UUID" 100
                  (ChainInterceptor.botRoomOptions Scenario.direct "disc:42"
                     Scenario.helper)
                  Scenario.empty_db)).
  reflexivity.
Defined.

(** ** Pass-through of the pre-hook *)

(** C9 (as amended).  When the identity of the message has no enabled
    configuration, or its configuration declares an empty preset and an
    empty model, the pre-hook returns [CONTINUE] and leaves the world as it
    was: no room is bound, nothing is stashed, the store sees no write. *)
Theorem C9_unconfigured_identity_is_left_alone
    (uuid : string) (now : Z) (config : list BotPersonaConfig)
    (session : Session) (w : World) :
  let id := BotManager.getBotId (platform session)
              (Js.template (selfId_of session)) in
  (forall bot, In bot config -> botId bot = id -> enabled bot = false)
  \/ (exists bot, BotManager.getBotConfig config id = Some bot
                  /\ preset bot = "" /\ model bot = "") ->
  ChainInterceptor.charon_resolve_bot_room uuid now config session w
  = (w, Ok CONTINUE).
Proof.
  intros id H. unfold ChainInterceptor.charon_resolve_bot_room. fold id.
  destruct (BotManager.getBotConfig config id) as [bc|] eqn:Hcfg;
    [|reflexivity].
  destruct H as [Hoff|(bot & Hbot & Hp & Hm)].
  - unfold BotManager.getBotConfig in Hcfg.
    apply find_some in Hcfg. destruct Hcfg as [Hin Heq].
    apply String.eqb_eq in Heq.
    now rewrite (Hoff bc Hin Heq).
  - inversion Hbot; subst bot. rewrite Hp, Hm. simpl.
    now destruct (enabled bc).
Qed.

Lemma C9_witness :
  ChainInterceptor.charon_resolve_bot_room "UUID" 100
    [mkBotPersonaConfig "disc:42" true "" "" None] Scenario.direct
    Scenario.fresh
  = (Scenario.fresh, Ok CONTINUE).
Proof.
  apply C9_unconfigured_identity_is_left_alone.
  right. eexists. repeat split; reflexivity.
Defined.

(** C9 as stated fails: with no configuration at all the pre-hook answers
    [CONTINUE], the very status it answers after binding a room; [SKIPPED]
    is never returned. *)
Lemma C9_counterexample :
  BotManager.getEnabledBots [] = []
  /\ snd (ChainInterceptor.charon_resolve_bot_room "UUID" 100 []
            Scenario.direct Scenario.fresh) = Ok CONTINUE
  /\ snd (ChainInterceptor.charon_resolve_bot_room "UUID" 100 []
            Scenario.direct Scenario.fresh) <> Ok SKIPPED.
Proof. repeat split; discriminate. Qed.

(** ** Store failures during creation *)

Lemma fold_max_init (l : list Z) (a : Z) : a <= fold_left Z.max l a.
Proof.
  revert a. induction l as [|y l IH]; simpl; intros a; [lia|].
  specialize (IH (Z.max a y)). lia.
Qed.

Lemma fold_max_ge (l : list Z) (a x : Z) :
  In x (a :: l) -> x <= fold_left Z.max l a.
Proof.
  revert a. induction l as [|y l IH]; simpl; intros a H.
  - destruct H as [->|[]]. lia.
  - destruct H as [->|[->|H]].
    + pose proof (fold_max_init l (Z.max x y)). lia.
    + pose proof (fold_max_init l (Z.max a x)). lia.
    + apply IH. now right.
Qed.

(** Below [2^53] the addition is exact. *)
Lemma add_exact (a b : Z) :
  Z.abs (a + b) < Js.two53 -> Js.add a b = a + b.
Proof.
  intros H. unfold Js.add, Js.to_number.
  destruct (Z.ltb_spec (Z.abs (a + b)) Js.two53); [reflexivity|lia].
Qed.

Lemma fold_max_bounds (l : list Z) (a lo hi : Z) :
  lo <= a < hi -> (forall y, In y l -> lo <= y < hi) ->
  lo <= fold_left Z.max l a < hi.
Proof.
  revert a. induction l as [|y l IH]; simpl; intros a Ha Hl; [exact Ha|].
  apply IH.
  - pose proof (Hl y (or_introl eq_refl)). lia.
  - intros z Hz. apply Hl. now right.
Qed.

Lemma top_roomId_bounds (db : Database) :
  safe_roomIds db ->
  0 <= match chathub_room db with
       | [] => 0
       | r :: rows => fold_left Z.max (map roomId rows) (roomId r)
       end < Js.two53 - 1.
Proof.
  unfold safe_roomIds. destruct (chathub_room db) as [|r0 rows].
  - intros _. unfold Js.two53. lia.
  - intros H. apply fold_max_bounds.
    + apply H. now left.
    + intros y Hy. apply in_map_iff in Hy. destruct Hy as [x [<- Hx]].
      apply H. now right.
Qed.

(** On a table of safe ids the new id is one more than the largest. *)
Lemma newRoomId_exact (db : Database) :
  safe_roomIds db ->
  newRoomId_of db
  = match chathub_room db with
    | [] => 0
    | r :: rows => fold_left Z.max (map roomId rows) (roomId r)
    end + 1.
Proof.
  intros H. unfold newRoomId_of. apply add_exact.
  pose proof (top_roomId_bounds db H). lia.
Qed.

(** On a table of safe ids, the id allotted to a new room is not in the
    room table, so the create of the conversation record does not clash in
    a sequential run. *)
Lemma newRoomId_fresh (db : Database) (r : Room) :
  safe_roomIds db ->
  roomId r = newRoomId_of db ->
  existsb (Store.same_room r) (chathub_room db) = false.
Proof.
  intros Hsafe Hr. apply not_true_is_false. intros H.
  apply existsb_exists in H. destruct H as (x & Hin & Hx).
  unfold Store.same_room in Hx. apply Z.eqb_eq in Hx.
  rewrite (newRoomId_exact db Hsafe) in Hr.
  destruct (chathub_room db) as [|r0 rows]; [easy|].
  assert (roomId x <= fold_left Z.max (map roomId rows) (roomId r0)).
  { apply fold_max_ge. change (In (roomId x) (map roomId (r0 :: rows))).
    now apply in_map. }
  lia.
Qed.

Lemma newRoom_fresh (uuid : string) (now : Z) (o : CreateRoomOptions)
    (db : Database) :
  safe_roomIds db ->
  existsb (Store.same_room (newRoom uuid now (newRoomId_of db) o))
    (chathub_room db) = false.
Proof. intros H. now apply newRoomId_fresh. Qed.

Section CreateRoomOutcome.

Variables (uuid : string) (now : Z) (o : CreateRoomOptions) (db : Database).

(** [createRoom], create by create. *)
Lemma createRoom_cases :
  let n := newRoomId_of db in
  let r := newRoom uuid now n o in
  let m := mkRoomMember (opt_roomMasterId o) n (Some "owner") in
  let g := mkRoomGroupMember (Js.template (opt_guildId o)) n
             (Some (opt_visibility o)) in
  let db1 := Store.set_rooms (chathub_room db ++ [r])
               (Store.journal (CreateRoom r) db) in
  let db2 := Store.set_members (chathub_room_member db ++ [m])
               (Store.journal (CreateRoomMember m) db1) in
  createRoom uuid now o db
  = if existsb (Store.same_room r) (chathub_room db)
    then (Store.journal (CreateRoom r) db,
          Throw (UniqueConstraint "chathub_room"))
    else if existsb (Store.same_member m) (chathub_room_member db)
    then (Store.journal (CreateRoomMember m) db1,
          Throw (UniqueConstraint "chathub_room_member"))
    else if Js.truthy_opt (opt_guildId o)
            && negb (String.eqb (opt_visibility o) "private")
    then if existsb (Store.same_group_member g)
                    (chathub_room_group_member db)
         then (Store.journal (CreateRoomGroupMember g) db2,
               Throw (UniqueConstraint "chathub_room_group_member"))
         else (Store.set_group_members (chathub_room_group_member db ++ [g])
                 (Store.journal (CreateRoomGroupMember g) db2), Ok r)
    else (db2, Ok r).
Proof.
  intros n r m g db1 db2.
  assert (Hn : Js.add match Store.max_roomId db with
                      | (_, Ok (Some top)) => top
                      | _ => 0
                      end 1 = n).
  { unfold n, newRoomId_of, Store.max_roomId, gets.
    now destruct (chathub_room db). }
  unfold createRoom, bind at 1.
  unfold Store.max_roomId, gets in *. cbn beta iota in Hn |- *.
  rewrite Hn.
  fold r. fold m. fold g.
  unfold bind, try_catch, throw, ret, Store.create_room.
  destruct (existsb (Store.same_room r) (chathub_room db)); [reflexivity|].
  fold db1. unfold Store.create_room_member.
  replace (chathub_room_member db1) with (chathub_room_member db)
    by reflexivity.
  destruct (existsb (Store.same_member m) (chathub_room_member db));
    [reflexivity|].
  fold db2.
  destruct (Js.truthy_opt (opt_guildId o)
            && negb (String.eqb (opt_visibility o) "private"));
    [|reflexivity].
  unfold Store.create_room_group_member.
  replace (chathub_room_group_member db2)
    with (chathub_room_group_member db) by reflexivity.
  now destruct (existsb (Store.same_group_member g)
                  (chathub_room_group_member db)).
Qed.

(** The room table after [createRoom]: as before, or with the new room
    at the end, whose id was not in the table. *)
Lemma createRoom_rooms_fresh :
  chathub_room (fst (createRoom uuid now o db)) = chathub_room db
  \/ (chathub_room (fst (createRoom uuid now o db))
      = (chathub_room db ++ [newRoom uuid now (newRoomId_of db) o])%list
      /\ existsb (Store.same_room (newRoom uuid now (newRoomId_of db) o))
           (chathub_room db) = false).
Proof.
  rewrite createRoom_cases. cbv zeta.
  destruct (existsb (Store.same_room _) (chathub_room db)) eqn:E;
    [now left|].
  right. split; [|reflexivity].
  repeat match goal with
         | |- context [if ?b then _ else _] => destruct b
         end; reflexivity.
Qed.

(** A returned room had a free id. *)
Lemma createRoom_ok_fresh (db' : Database) (r : Room) :
  createRoom uuid now o db = (db', Ok r) ->
  forall y, In y (chathub_room db) -> roomId y <> newRoomId_of db.
Proof.
  rewrite createRoom_cases. cbv zeta.
  destruct (existsb (Store.same_room _) (chathub_room db)) eqn:E;
    [discriminate|].
  intros _ y Hy Hid.
  assert (Ht : existsb (Store.same_room
                          (newRoom uuid now (newRoomId_of db) o))
                 (chathub_room db) = true).
  { apply existsb_exists. exists y. split; [exact Hy|].
    unfold Store.same_room. simpl. rewrite Hid. apply Z.eqb_refl. }
  congruence.
Qed.

End CreateRoomOutcome.

(** ** The post-hook, phase by phase *)

Section PostHook.

Variables (uuid : string) (now : Z) (config : list BotPersonaConfig).
Variables (fixTime : Z) (session : Session).

Local Abbreviation post_hook :=
  (ChainInterceptor.charon_fix_room_auto_update uuid now config fixTime
     session).

Lemma repair_phase (stash : CharonBotConfig) (r : Room) (w : World) :
  charonBotConfig (options w) = Some stash ->
  room (options w) = Some r ->
  (let (fixed, needsFix) := ChainInterceptor.fixedRoom stash r in
   if needsFix
   then bind (on_database
                (Store.upsert_room
                   (ChainInterceptor.set_updatedTime fixTime fixed)))
          (fun _ =>
             bind (set_option_room
                     (ChainInterceptor.set_updatedTime fixTime fixed))
               (fun _ => ret CONTINUE))
   else ret CONTINUE) w
  = (repaired fixTime stash r (database w) w, Ok CONTINUE).
Proof.
  intros Hs Hr. unfold repaired.
  destruct (ChainInterceptor.fixedRoom stash r) as [fixed [|]].
  - unfold set_option_room, with_room. run_eff.
    now destruct (existsb _ (chathub_room (database w))).
  - unfold ret, with_room. destruct w as [db [s0 r0 n0] chr].
    simpl in *. now subst.
Qed.

Lemma post_hook_inert (w : World) :
  charonBotConfig (options w) = None \/ room (options w) = None ->
  post_hook w = (w, Ok CONTINUE).
Proof.
  intros H. unfold ChainInterceptor.charon_fix_room_auto_update.
  unfold bind at 1, gets. simpl.
  destruct (charonBotConfig (options w)) as [stash|];
    destruct (room (options w)) as [r|]; try reflexivity.
  destruct H; discriminate.
Qed.

Lemma post_hook_stays (w : World) (stash : CharonBotConfig) (bound : Room) :
  charonBotConfig (options w) = Some stash ->
  room (options w) = Some bound ->
  ChainInterceptor.isRoomForBot (stash_botId stash) bound = true
  \/ BotManager.getBotConfig config (stash_botId stash) = None ->
  post_hook w = (repaired fixTime stash bound (database w) w, Ok CONTINUE).
Proof.
  intros Hs Hr H. unfold ChainInterceptor.charon_fix_room_auto_update.
  unfold bind at 1, gets. simpl. rewrite Hs, Hr.
  assert (E : (if negb (ChainInterceptor.isRoomForBot (stash_botId stash)
                          bound)
               then match BotManager.getBotConfig config (stash_botId stash)
                    with
                    | Some botConfig =>
                        bind (on_database
                                (ChainInterceptor.getOrCreateBotSpecificRoom
                                   uuid now session (stash_botId stash)
                                   botConfig))
                          (fun correctRoom => set_option_room correctRoom)
                    | None => ret tt
                    end
               else ret tt) = @ret World unit tt).
  { destruct H as [-> | ->]; [reflexivity|].
    now destruct (negb _). }
  rewrite E. unfold bind at 1, ret at 1. unfold bind at 1, gets.
  simpl. rewrite Hr. now apply repair_phase.
Qed.

Lemma post_hook_rebinds (w : World) (stash : CharonBotConfig) (bound : Room)
    (botConfig : BotPersonaConfig) :
  charonBotConfig (options w) = Some stash ->
  room (options w) = Some bound ->
  ChainInterceptor.isRoomForBot (stash_botId stash) bound = false ->
  BotManager.getBotConfig config (stash_botId stash) = Some botConfig ->
  post_hook w
  = match ChainInterceptor.getOrCreateBotSpecificRoom uuid now session
            (stash_botId stash) botConfig (database w) with
    | (db1, Ok correctRoom) =>
        (repaired fixTime stash correctRoom db1 w, Ok CONTINUE)
    | (db1, Throw e) =>
        (mkWorld db1 (options w) (chatluna_character w), Throw e)
    end.
Proof.
  intros Hs Hr Hforeign Hcfg.
  unfold ChainInterceptor.charon_fix_room_auto_update.
  unfold bind at 1, gets. simpl. rewrite Hs, Hr, Hforeign, Hcfg. simpl.
  unfold bind at 1. unfold bind at 1. unfold on_database at 1.
  destruct (ChainInterceptor.getOrCreateBotSpecificRoom uuid now session
              (stash_botId stash) botConfig (database w))
    as [db1 [correctRoom|e]]; [|reflexivity].
  unfold set_option_room at 1, modify. unfold bind at 1, gets. simpl.
  change (mkOptions (charonBotConfig (options w)) (Some correctRoom)
            (room_resolve_name (options w)))
    with (with_room correctRoom (options w)).
  rewrite (repair_phase stash correctRoom
             (mkWorld db1 (with_room correctRoom (options w))
                (chatluna_character w)));
    [|simpl; assumption|reflexivity].
  unfold repaired. simpl.
  destruct (ChainInterceptor.fixedRoom stash correctRoom) as [fixed [|]];
    reflexivity.
Qed.

End PostHook.

(** ** The repair phase *)

Lemma overwritten_only_if_declared_holds (declared : string)
    (current : option string) :
  overwritten_only_if_declared declared current
    (if Js.truthy declared && negb (Js.opt_eqb current (Some declared))
     then Some declared else current).
Proof.
  unfold overwritten_only_if_declared.
  destruct (Js.truthy declared) eqn:Ht; simpl.
  - apply truthy_true_iff in Ht.
    destruct (Js.opt_eqb current (Some declared)) eqn:He; simpl.
    + apply opt_eqb_eq in He. repeat split; congruence.
    + assert (current <> Some declared).
      { intros E. apply opt_eqb_eq in E. congruence. }
      repeat split; congruence.
  - apply truthy_false_iff in Ht. repeat split; congruence.
Qed.

Lemma overwritten_whenever_different_holds (declared : string)
    (current : option string) :
  overwritten_whenever_different declared current
    (if negb (Js.opt_eqb current (Some declared))
     then Some declared else current).
Proof.
  unfold overwritten_whenever_different.
  destruct (Js.opt_eqb current (Some declared)) eqn:He; simpl.
  - apply opt_eqb_eq in He. split; congruence.
  - split; [reflexivity|].
    intros E. apply opt_eqb_eq in E. congruence.
Qed.

Ltac fixed_cases stash r :=
  unfold final_room, ChainInterceptor.fixedRoom;
  destruct (Js.truthy (stash_preset stash)
            && negb (Js.opt_eqb (room_preset r) (Some (stash_preset stash))));
  destruct (Js.truthy (stash_model stash)
            && negb (Js.opt_eqb (room_model r) (Some (stash_model stash))));
  destruct (negb (Js.opt_eqb (room_chatMode r)
                             (Some (stash_chatMode stash))));
  simpl.

Lemma final_room_fields (fixTime : Z) (stash : CharonBotConfig) (r : Room) :
  let final := final_room fixTime stash r in
  room_preset final
  = (if Js.truthy (stash_preset stash)
        && negb (Js.opt_eqb (room_preset r) (Some (stash_preset stash)))
     then Some (stash_preset stash) else room_preset r)
  /\ room_model final
     = (if Js.truthy (stash_model stash)
           && negb (Js.opt_eqb (room_model r) (Some (stash_model stash)))
        then Some (stash_model stash) else room_model r)
  /\ room_chatMode final
     = (if negb (Js.opt_eqb (room_chatMode r) (Some (stash_chatMode stash)))
        then Some (stash_chatMode stash) else room_chatMode r).
Proof. fixed_cases stash r; repeat split. Qed.

Lemma final_room_identity (fixTime : Z) (stash : CharonBotConfig) (r : Room) :
  let final := final_room fixTime stash r in
  roomId final = roomId r
  /\ roomName final = roomName r
  /\ conversationId final = conversationId r
  /\ visibility final = visibility r
  /\ roomMasterId final = roomMasterId r
  /\ autoUpdate final = autoUpdate r.
Proof. fixed_cases stash r; repeat split. Qed.

Lemma repaired_room (fixTime : Z) (stash : CharonBotConfig) (r : Room)
    (db : Database) (w : World) :
  room (options (repaired fixTime stash r db w))
  = Some (final_room fixTime stash r).
Proof.
  unfold repaired, final_room.
  now destruct (ChainInterceptor.fixedRoom stash r) as [fixed [|]].
Qed.

(** C1.  In every run of the post-hook that has a stashed context and a
    bound room, the room left bound differs from the current room (the
    bound one, or the one find-or-create put in its place) in [preset]
    only if the stashed preset is not empty and differs, in [model] only
    if the stashed model is not empty and differs, and carries the stashed
    [chatMode] whenever the current one differs; an empty stashed preset
    or model leaves the field as it is. *)
Theorem C1_repair_overwrites_only_declared_fields
    (uuid : string) (now : Z) (config : list BotPersonaConfig) (fixTime : Z)
    (session : Session) (w w' : World) (status : ChainMiddlewareRunStatus)
    (stash : CharonBotConfig) (bound : Room) :
  charonBotConfig (options w) = Some stash ->
  room (options w) = Some bound ->
  ChainInterceptor.charon_fix_room_auto_update uuid now config fixTime
    session w = (w', Ok status) ->
  exists currentRoom final,
    (currentRoom = bound
     \/ exists botConfig,
          snd (ChainInterceptor.getOrCreateBotSpecificRoom uuid now session
                 (stash_botId stash) botConfig (database w))
          = Ok currentRoom)
    /\ room (options w') = Some final
    /\ final = final_room fixTime stash currentRoom
    /\ overwritten_only_if_declared (stash_preset stash)
         (room_preset currentRoom) (room_preset final)
    /\ overwritten_only_if_declared (stash_model stash)
         (room_model currentRoom) (room_model final)
    /\ overwritten_whenever_different (stash_chatMode stash)
         (room_chatMode currentRoom) (room_chatMode final).
Proof.
  intros Hs Hr Hrun.
  assert (Hfields : forall r,
    overwritten_only_if_declared (stash_preset stash) (room_preset r)
      (room_preset (final_room fixTime stash r))
    /\ overwritten_only_if_declared (stash_model stash) (room_model r)
         (room_model (final_room fixTime stash r))
    /\ overwritten_whenever_different (stash_chatMode stash)
         (room_chatMode r) (room_chatMode (final_room fixTime stash r))).
  { intros r.
    destruct (final_room_fields fixTime stash r) as (-> & -> & ->).
    auto using overwritten_only_if_declared_holds,
      overwritten_whenever_different_holds. }
  destruct (ChainInterceptor.isRoomForBot (stash_botId stash) bound)
    eqn:Hown.
  - rewrite (post_hook_stays uuid now config fixTime session w stash bound)
      in Hrun by auto.
    inversion Hrun; subst w' status; clear Hrun.
    exists bound, (final_room fixTime stash bound).
    rewrite repaired_room.
    split; [now left|split; [reflexivity|split; [reflexivity|]]].
    apply Hfields.
  - destruct (BotManager.getBotConfig config (stash_botId stash))
      as [bc|] eqn:Hcfg.
    + rewrite (post_hook_rebinds uuid now config fixTime session w stash
                 bound bc) in Hrun by auto.
      destruct (ChainInterceptor.getOrCreateBotSpecificRoom uuid now session
                  (stash_botId stash) bc (database w))
        as [db1 [r|e]] eqn:Hfind; [|discriminate].
      inversion Hrun; subst w' status; clear Hrun.
      exists r, (final_room fixTime stash r).
      rewrite repaired_room.
      split; [|split; [reflexivity|split; [reflexivity|apply Hfields]]].
      right. exists bc. now rewrite Hfind.
    + rewrite (post_hook_stays uuid now config fixTime session w stash bound)
        in Hrun by auto.
      inversion Hrun; subst w' status; clear Hrun.
      exists bound, (final_room fixTime stash bound).
      rewrite repaired_room.
      split; [now left|split; [reflexivity|split; [reflexivity|]]].
      apply Hfields.
Qed.

Lemma C1_witness :
  exists currentRoom final,
    (currentRoom = Scenario.host_room
     \/ exists botConfig,
          snd (ChainInterceptor.getOrCreateBotSpecificRoom "UUID" 100
                 Scenario.direct (stash_botId Scenario.stash) botConfig
                 (database Scenario.drifted))
          = Ok currentRoom)
    /\ room (options
               (fst (ChainInterceptor.charon_fix_room_auto_update "UUID" 100
                       Scenario.config 200 Scenario.direct
                       Scenario.drifted)))
       = Some final
    /\ final = final_room 200 Scenario.stash currentRoom
    /\ overwritten_only_if_declared (stash_preset Scenario.stash)
         (room_preset currentRoom) (room_preset final)
    /\ overwritten_only_if_declared (stash_model Scenario.stash)
         (room_model currentRoom) (room_model final)
    /\ overwritten_whenever_different (stash_chatMode Scenario.stash)
         (room_chatMode currentRoom) (room_chatMode final).
Proof.
  apply (C1_repair_overwrites_only_declared_fields "UUID" 100
           Scenario.config 200 Scenario.direct Scenario.drifted _ CONTINUE
           Scenario.stash Scenario.host_room); reflexivity.
Defined.

(** ** Stability of the find phase under the repair *)

Lemma find_filter {A : Type} (keep test : A -> bool) (l : list A) :
  find test (filter keep l) = find (fun x => keep x && test x) l.
Proof.
  induction l as [|x l IH]; simpl; [reflexivity|].
  destruct (keep x); simpl; [|exact IH].
  now destruct (test x).
Qed.

Lemma hd_error_filter {A : Type} (keep : A -> bool) (l : list A) :
  hd_error (filter keep l) = find keep l.
Proof.
  induction l as [|x l IH]; simpl; [reflexivity|].
  now destruct (keep x).
Qed.

Lemma filter_filter {A : Type} (f g : A -> bool) (l : list A) :
  filter g (filter f l) = filter (fun x => f x && g x) l.
Proof.
  induction l as [|x l IH]; simpl; [reflexivity|].
  destruct (f x); simpl; [|exact IH].
  destruct (g x); now rewrite IH.
Qed.

Lemma selectedRoom_first_match (session : Session) (ids : list Z)
    (keep : Room -> bool) (rows : list Room) :
  ChainInterceptor.selectedRoom session ids (filter keep rows)
  = first_match (selection_tests session ids keep) rows.
Proof.
  unfold ChainInterceptor.selectedRoom, selection_tests.
  destruct (negb (ChainInterceptor.isDirect session)); simpl;
    rewrite ?find_filter, ?hd_error_filter;
    repeat match goal with
           | |- context [find ?f rows] => destruct (find f rows)
           end; reflexivity.
Qed.

Lemma first_match_In (tests : list (Room -> bool)) (rows : list Room)
    (r : Room) :
  first_match tests rows = Some r -> In r rows.
Proof.
  induction tests as [|test tests IH]; simpl; [discriminate|].
  destruct (find test rows) as [x|] eqn:Hf; simpl.
  - intros E. inversion E; subst. now apply find_some in Hf.
  - exact IH.
Qed.

Section Replace.

Variables (r f : Room).
Hypothesis Hkeys : same_keys r f.

Variable test : Room -> bool.
Hypothesis test_keys : forall a b, same_keys a b -> test a = test b.

Lemma find_replace_some (rows : list Room) :
  find test rows = Some r ->
  find test (Store.replace_room f rows) = Some f.
Proof.
  assert (Hid : roomId f = roomId r) by (symmetry; apply Hkeys).
  induction rows as [|x rows IH]; simpl; [discriminate|].
  unfold Store.same_room. intros H.
  destruct (test x) eqn:Hx.
  - inversion H; subst x. rewrite Hid, Z.eqb_refl.
    now rewrite <- (test_keys r f Hkeys), Hx.
  - destruct (roomId f =? roomId x).
    + rewrite <- (test_keys r f Hkeys).
      apply find_some in H. now rewrite (proj2 H).
    + rewrite Hx. now apply IH.
Qed.

Lemma find_replace_none (rows : list Room) :
  In r rows ->
  find test rows = None ->
  find test (Store.replace_room f rows) = None.
Proof.
  intros Hin Hnone.
  assert (Hr : test f = false).
  { rewrite <- (test_keys r f Hkeys). now apply (find_none _ _ Hnone). }
  clear Hin. induction rows as [|x rows IH]; simpl; [reflexivity|].
  simpl in Hnone. destruct (test x) eqn:Hx; [discriminate|].
  destruct (Store.same_room f x); [rewrite Hr|rewrite Hx]; now apply IH.
Qed.

End Replace.

Lemma first_match_replace (r f : Room) (tests : list (Room -> bool))
    (rows : list Room) :
  same_keys r f ->
  (forall test, In test tests ->
                forall a b, same_keys a b -> test a = test b) ->
  first_match tests rows = Some r ->
  first_match tests (Store.replace_room f rows) = Some f.
Proof.
  intros Hkeys. induction tests as [|test tests IH]; simpl;
    [discriminate|].
  intros Htests H.
  assert (Htest : forall a b, same_keys a b -> test a = test b).
  { apply Htests. now left. }
  destruct (find test rows) as [x|] eqn:Hf; simpl in H.
  - inversion H; subst x.
    now rewrite (find_replace_some r f Hkeys test Htest rows Hf).
  - rewrite (find_replace_none r f Hkeys test Htest rows); simpl.
    + apply IH; [|exact H]. intros t Ht. apply Htests. now right.
    + now apply first_match_In in H.
    + exact Hf.
Qed.

Lemma selection_tests_keys (session : Session) (ids : list Z)
    (keep : Room -> bool) :
  (forall a b, same_keys a b -> keep a = keep b) ->
  forall test, In test (selection_tests session ids keep) ->
               forall a b, same_keys a b -> test a = test b.
Proof.
  intros Hkeep test Hin a b Hab.
  pose proof (Hkeep a b Hab) as Hk.
  destruct Hab as (Hi & Hn & Hv & Hm).
  unfold selection_tests in Hin.
  destruct (negb (ChainInterceptor.isDirect session)); simpl in Hin;
    repeat (destruct Hin as [<-|Hin]; [now rewrite ?Hk, ?Hi, ?Hv, ?Hm|]);
    destruct Hin.
Qed.

(** The find phase, as one pass over the room table. *)
Lemma existingRoom_first_match (session : Session) (id : string)
    (db : Database) :
  existingRoom session id db
  = first_match
      (selection_tests session
         (if negb (ChainInterceptor.isDirect session)
          then groupRoomIds_of session db else [])
         (fun r => existsb (Z.eqb (roomId r)) (memberRoomIds session db)
                   && Js.includes (ChainInterceptor.name_marker id)
                        (roomName r)))
      (chathub_room db).
Proof.
  unfold existingRoom, candidateRooms.
  now rewrite filter_filter, selectedRoom_first_match.
Qed.

(** Persisting a row that agrees with the found room on the columns the
    find phase reads makes the find phase return that row. *)
Lemma existingRoom_after_upsert (session : Session) (id : string)
    (db : Database) (r f : Room) :
  same_keys r f ->
  existingRoom session id db = Some r ->
  existingRoom session id (fst (Store.upsert_room f db)) = Some f.
Proof.
  intros Hkeys Hfound.
  rewrite existingRoom_first_match in *.
  pose proof (first_match_In _ _ _ Hfound) as Hin.
  assert (Hex : existsb (Store.same_room f) (chathub_room db) = true).
  { apply existsb_exists. exists r. split; [exact Hin|].
    unfold Store.same_room. apply Z.eqb_eq. symmetry. apply Hkeys. }
  unfold Store.upsert_room. rewrite Hex. simpl.
  change (memberRoomIds session
            (Store.set_rooms (Store.replace_room f (chathub_room db))
               (Store.journal (UpsertRoom f) db)))
    with (memberRoomIds session db).
  change (groupRoomIds_of session
            (Store.set_rooms (Store.replace_room f (chathub_room db))
               (Store.journal (UpsertRoom f) db)))
    with (groupRoomIds_of session db).
  apply (first_match_replace r f); [exact Hkeys| |exact Hfound].
  apply selection_tests_keys.
  intros a b (Hi & Hn & _). now rewrite Hi, Hn.
Qed.

(** ** Idempotence of the post-hook *)

Lemma repaired_condition (declared : string) (current : option string) :
  Js.truthy declared
  && negb (Js.opt_eqb
             (if Js.truthy declared
                 && negb (Js.opt_eqb current (Some declared))
              then Some declared else current)
             (Some declared)) = false.
Proof.
  destruct (Js.truthy declared
            && negb (Js.opt_eqb current (Some declared))) eqn:E.
  - rewrite opt_eqb_refl. apply andb_false_r.
  - exact E.
Qed.

Lemma enforced_condition (declared : string) (current : option string) :
  negb (Js.opt_eqb
          (if negb (Js.opt_eqb current (Some declared))
           then Some declared else current)
          (Some declared)) = false.
Proof.
  destruct (negb (Js.opt_eqb current (Some declared))) eqn:E.
  - now rewrite opt_eqb_refl.
  - exact E.
Qed.

(** A repaired room needs no repair. *)
Lemma fixedRoom_final_room (fixTime : Z) (stash : CharonBotConfig)
    (r : Room) :
  ChainInterceptor.fixedRoom stash (final_room fixTime stash r)
  = (final_room fixTime stash r, false).
Proof.
  destruct (final_room_fields fixTime stash r) as (Hp & Hm & Hc).
  unfold ChainInterceptor.fixedRoom. rewrite Hp, Hm, Hc.
  now rewrite !repaired_condition, enforced_condition.
Qed.

Lemma final_room_same_keys (fixTime : Z) (stash : CharonBotConfig)
    (r : Room) :
  same_keys r (final_room fixTime stash r).
Proof.
  destruct (final_room_identity fixTime stash r) as (Hi & Hn & _ & Hv & Hm & _).
  unfold same_keys. now rewrite Hi, Hn, Hv, Hm.
Qed.

Lemma repaired_settled (fixTime : Z) (stash : CharonBotConfig) (r : Room)
    (w : World) :
  room (options w) = Some r ->
  ChainInterceptor.fixedRoom stash r = (r, false) ->
  repaired fixTime stash r (database w) w = w.
Proof.
  intros Hr Hfix. unfold repaired, with_room. rewrite Hfix.
  destruct w as [db [s0 r0 n0] chr]. simpl in *. now subst.
Qed.

Lemma repaired_options (fixTime : Z) (stash : CharonBotConfig) (r : Room)
    (db : Database) (w : World) :
  charonBotConfig (options (repaired fixTime stash r db w))
  = charonBotConfig (options w).
Proof.
  unfold repaired.
  now destruct (ChainInterceptor.fixedRoom stash r) as [fixed [|]].
Qed.

Lemma repaired_database (fixTime : Z) (stash : CharonBotConfig) (r : Room)
    (db : Database) (w : World) :
  database (repaired fixTime stash r db w) = db
  \/ database (repaired fixTime stash r db w)
     = fst (Store.upsert_room (final_room fixTime stash r) db).
Proof.
  unfold repaired, final_room.
  destruct (ChainInterceptor.fixedRoom stash r) as [fixed [|]]; simpl; auto.
Qed.

Lemma append_assoc (a b c : string) : (a ++ b) ++ c = a ++ b ++ c.
Proof. induction a as [|x a IH]; simpl; congruence. Qed.

Lemma own_key_prefix (id uuid : string) (r : Room) :
  conversationId r = BotManager.generateConversationId id uuid ->
  ChainInterceptor.isRoomForBot id r = true.
Proof.
  intros Hr. unfold ChainInterceptor.isRoomForBot, Js.startsWith.
  rewrite Hr. unfold BotManager.generateConversationId.
  assert (E : "bot_" ++ id ++ "_" ++ uuid = ("bot_" ++ id ++ "_") ++ uuid)
    by now rewrite !append_assoc.
  rewrite E. apply prefix_app.
Qed.

(** A room made by find-or-create carries the prefix of the identity it
    was made for. *)
Lemma created_room_is_own (uuid : string) (now : Z) (session : Session)
    (id : string) (botConfig : BotPersonaConfig) (db db1 : Database)
    (r : Room) :
  existingRoom session id db = None ->
  ChainInterceptor.getOrCreateBotSpecificRoom uuid now session id botConfig db
  = (db1, Ok r) ->
  ChainInterceptor.isRoomForBot id r = true.
Proof.
  intros Hnone. rewrite getOrCreateBotSpecificRoom_unfold, Hnone.
  rewrite createBotSpecificRoom_unfold.
  destruct (createRoom uuid now _ db) as [db' [x|e]] eqn:Hc; [|discriminate].
  intros H. inversion H; subst x. apply createRoom_ok in Hc.
  destruct Hc as (-> & _).
  now apply (own_key_prefix id uuid).
Qed.

(** C3.  A second run of the post-hook on the world the first run left
    (same stashed context, same registry, any new uuid and clock) changes
    nothing: it returns the same status and the same world, so the store's
    journal has no new write and the bound room is the same record with
    the same preset, model and chatMode. *)
Theorem C3_post_hook_is_idempotent
    (uuid uuid' : string) (now now' fixTime fixTime' : Z)
    (config : list BotPersonaConfig) (session : Session) (w w1 : World)
    (status : ChainMiddlewareRunStatus) :
  ChainInterceptor.charon_fix_room_auto_update uuid now config fixTime
    session w = (w1, Ok status) ->
  ChainInterceptor.charon_fix_room_auto_update uuid' now' config fixTime'
    session w1 = (w1, Ok status).
Proof.
  intros Hrun.
  destruct (charonBotConfig (options w)) as [stash|] eqn:Hs.
  2:{ rewrite post_hook_inert in Hrun by auto.
      inversion Hrun; subst. apply post_hook_inert. auto. }
  destruct (room (options w)) as [bound|] eqn:Hr.
  2:{ rewrite post_hook_inert in Hrun by auto.
      inversion Hrun; subst. apply post_hook_inert. auto. }
  (* the second run meets a repaired room *)
  assert (Hsettled : forall r db,
    ChainInterceptor.isRoomForBot (stash_botId stash) r = true
    \/ BotManager.getBotConfig config (stash_botId stash) = None ->
    ChainInterceptor.charon_fix_room_auto_update uuid' now' config fixTime'
      session (repaired fixTime stash r db w)
    = (repaired fixTime stash r db w, Ok CONTINUE)).
  { intros r db Hstay.
    rewrite (post_hook_stays uuid' now' config fixTime' session _ stash
               (final_room fixTime stash r)).
    - rewrite repaired_settled; auto using repaired_room,
        fixedRoom_final_room.
    - now rewrite repaired_options.
    - apply repaired_room.
    - destruct Hstay as [Hown|Hnone]; [left|now right].
      unfold ChainInterceptor.isRoomForBot in *.
      now rewrite (proj1 (proj2 (proj2 (final_room_identity fixTime stash
                                          r)))). }
  destruct (ChainInterceptor.isRoomForBot (stash_botId stash) bound)
    eqn:Hown.
  { rewrite (post_hook_stays uuid now config fixTime session w stash bound)
      in Hrun by auto.
    inversion Hrun; subst w1 status. now apply Hsettled; left. }
  destruct (BotManager.getBotConfig config (stash_botId stash)) as [bc|]
    eqn:Hcfg.
  2:{ rewrite (post_hook_stays uuid now config fixTime session w stash bound)
        in Hrun by auto.
      inversion Hrun; subst w1 status. now apply Hsettled; right. }
  rewrite (post_hook_rebinds uuid now config fixTime session w stash bound bc)
    in Hrun by auto.
  destruct (ChainInterceptor.getOrCreateBotSpecificRoom uuid now session
              (stash_botId stash) bc (database w))
    as [db1 [r|e]] eqn:Hfind; [|discriminate].
  inversion Hrun; subst w1 status. clear Hrun.
  destruct (ChainInterceptor.isRoomForBot (stash_botId stash) r) eqn:Hr_own.
  { now apply Hsettled; left. }
  (* the rebound room was found, not made, and is found again *)
  destruct (existingRoom session (stash_botId stash) (database w))
    as [x|] eqn:Hex.
  2:{ rewrite (created_room_is_own uuid now session (stash_botId stash) bc
                 (database w) db1 r Hex Hfind) in Hr_own. discriminate. }
  rewrite getOrCreateBotSpecificRoom_unfold, Hex in Hfind.
  inversion Hfind; subst db1 x. clear Hfind.
  set (w1 := repaired fixTime stash r (database w) w).
  set (f := final_room fixTime stash r).
  assert (Hfound : existingRoom session (stash_botId stash) (database w1)
                   = Some f).
  { subst w1 f. unfold repaired, final_room.
    destruct (ChainInterceptor.fixedRoom stash r) as [fixed [|]] eqn:Hfix;
      simpl.
    - apply (existingRoom_after_upsert session (stash_botId stash)
               (database w) r); [|exact Hex].
      pose proof (final_room_same_keys fixTime stash r) as Hk.
      unfold final_room in Hk. now rewrite Hfix in Hk.
    - exact Hex. }
  rewrite (post_hook_rebinds uuid' now' config fixTime' session w1 stash f
             bc).
  - rewrite getOrCreateBotSpecificRoom_unfold, Hfound.
    rewrite repaired_settled; [reflexivity| |apply fixedRoom_final_room].
    apply repaired_room.
  - subst w1. now rewrite repaired_options.
  - apply repaired_room.
  - unfold ChainInterceptor.isRoomForBot in *. subst f.
    now rewrite (proj1 (proj2 (proj2 (final_room_identity fixTime stash r)))).
  - exact Hcfg.
Qed.

(** ** The choice made by find-or-create *)

Lemma find_first {A : Type} (test : A -> bool) (l : list A) :
  (exists c, In c l /\ test c = true) ->
  exists r, find test l = Some r /\ In r l /\ test r = true.
Proof.
  intros (c & Hin & Hc).
  destruct (find test l) as [r|] eqn:Hf.
  - exists r. split; [reflexivity|]. now apply find_some in Hf.
  - rewrite (find_none _ _ Hf c Hin) in Hc. discriminate.
Qed.

Lemma find_nothing {A : Type} (test : A -> bool) (l : list A) :
  (forall c, In c l -> test c = false) -> find test l = None.
Proof.
  intros H. destruct (find test l) as [r|] eqn:Hf; [|reflexivity].
  apply find_some in Hf. destruct Hf as [Hin Hr].
  rewrite (H r Hin) in Hr. discriminate.
Qed.

Lemma memberRoomIds_spec (session : Session) (db : Database) (n : Z) :
  existsb (Z.eqb n) (memberRoomIds session db) = true
  <-> exists m, In m (chathub_room_member db)
                /\ member_userId m = userId session
                /\ member_roomId m = n.
Proof.
  unfold memberRoomIds. rewrite existsb_exists. split.
  - intros (k & Hin & Hk). apply Z.eqb_eq in Hk. subst k.
    apply in_map_iff in Hin. destruct Hin as (m & Hm & Hin).
    apply filter_In in Hin. destruct Hin as [Hin Hu].
    apply String.eqb_eq in Hu. now exists m.
  - intros (m & Hin & Hu & Hm). exists n. split; [|apply Z.eqb_refl].
    apply in_map_iff. exists m. split; [exact Hm|].
    apply filter_In. split; [exact Hin|]. now apply String.eqb_eq.
Qed.

Lemma candidateRooms_spec (session : Session) (id : string) (db : Database)
    (r : Room) :
  In r (candidateRooms session id db)
  <-> In r (chathub_room db)
      /\ (exists m, In m (chathub_room_member db)
                    /\ member_userId m = userId session
                    /\ member_roomId m = roomId r)
      /\ Js.includes ("(" ++ id ++ ")") (roomName r) = true.
Proof.
  unfold candidateRooms. rewrite !filter_In, memberRoomIds_spec.
  unfold ChainInterceptor.name_marker. tauto.
Qed.

Lemma groupRoomIds_of_spec (session : Session) (id : string) (db : Database)
    (r : Room) :
  In r (candidateRooms session id db) ->
  existsb (Z.eqb (roomId r)) (groupRoomIds_of session db) = true
  <-> exists g, In g (chathub_room_group_member db)
                /\ group_groupId g = Js.template (guildId session)
                /\ group_roomId g = roomId r.
Proof.
  intros Hc. apply candidateRooms_spec in Hc. destruct Hc as (_ & Hm & _).
  apply memberRoomIds_spec in Hm.
  unfold groupRoomIds_of. rewrite existsb_exists. split.
  - intros (k & Hin & Hk). apply Z.eqb_eq in Hk. subst k.
    apply in_map_iff in Hin. destruct Hin as (g & Hg & Hin).
    apply filter_In in Hin. destruct Hin as [Hin Ht].
    apply andb_true_iff in Ht. destruct Ht as [Ht _].
    apply String.eqb_eq in Ht. now exists g.
  - intros (g & Hin & Hg & Hk). exists (roomId r).
    split; [|apply Z.eqb_refl].
    apply in_map_iff. exists g. split; [exact Hk|].
    apply filter_In. split; [exact Hin|].
    apply andb_true_iff. split; [now apply String.eqb_eq|].
    now rewrite Hk.
Qed.

Lemma filter_true_keeps {A : Type} (l : list A) :
  filter (fun _ => true) l = l.
Proof. induction l as [|x l IH]; simpl; congruence. Qed.

(** C5 (as amended).  The candidates of find-or-create are the rooms the
    user is a member of whose room name contains [(<botId>)].  In a group
    scope the choice is the first candidate associated with the group and
    of visibility [template_clone], else the first candidate associated
    with the group; in a direct scope the first [private] candidate
    mastered by the user, else the first [private] candidate, else the
    first candidate.  A chosen room is returned with the store untouched.
    When no choice is left, a room is created: [private] in a direct
    scope, [template_clone] in a group scope. *)
Theorem C5_find_or_create_chooses_among_rooms_named_for_the_bot
    (uuid : string) (now : Z) (session : Session) (id : string)
    (botConfig : BotPersonaConfig) (db : Database) :
  let candidates := candidateRooms session id db in
  let chosen := existingRoom session id db in
  let in_group r :=
    existsb (Z.eqb (roomId r)) (groupRoomIds_of session db) in
  let is_private r := Js.opt_eqb (visibility r) (Some "private") in
  let is_template r := Js.opt_eqb (visibility r) (Some "template_clone") in
  let mastered r := Js.opt_eqb (roomMasterId r) (Some (userId session)) in
  let find_or_create :=
    ChainInterceptor.getOrCreateBotSpecificRoom uuid now session id botConfig
      db in
  (forall r,
      In r candidates
      <-> In r (chathub_room db)
          /\ (exists m, In m (chathub_room_member db)
                        /\ member_userId m = userId session
                        /\ member_roomId m = roomId r)
          /\ Js.includes ("(" ++ id ++ ")") (roomName r) = true)
  /\ (forall r,
         In r candidates ->
         in_group r = true
         <-> exists g, In g (chathub_room_group_member db)
                       /\ group_groupId g = Js.template (guildId session)
                       /\ group_roomId g = roomId r)
  /\ (forall r, chosen = Some r ->
                In r candidates /\ find_or_create = (db, Ok r))
  /\ (ChainInterceptor.isDirect session = false ->
      ((exists c, In c candidates /\ in_group c && is_template c = true) ->
       exists r, chosen = Some r /\ in_group r && is_template r = true)
      /\ ((exists c, In c candidates /\ in_group c = true) ->
          exists r, chosen = Some r /\ in_group r = true)
      /\ ((forall c, In c candidates -> in_group c = false) ->
          chosen = None))
  /\ (ChainInterceptor.isDirect session = true ->
      ((exists c, In c candidates /\ is_private c && mastered c = true) ->
       exists r, chosen = Some r /\ is_private r && mastered r = true)
      /\ ((exists c, In c candidates /\ is_private c = true) ->
          exists r, chosen = Some r /\ is_private r = true)
      /\ ((forall c, In c candidates -> is_private c = false) ->
          chosen = hd_error candidates))
  /\ (chosen = None ->
      find_or_create
      = ChainInterceptor.createBotSpecificRoom uuid now session id botConfig
          db
      /\ forall db' r,
           find_or_create = (db', Ok r) ->
           visibility r
           = Some (if ChainInterceptor.isDirect session
                   then "private" else "template_clone")
           /\ In r (chathub_room db')).
Proof.
  intros candidates chosen in_group is_private is_template mastered
    find_or_create.
  subst in_group is_private is_template mastered. cbv beta.
  assert (Hchosen_in : forall r, chosen = Some r -> In r candidates).
  { intros r. subst chosen candidates. unfold existingRoom.
    rewrite <- (filter_true_keeps (candidateRooms session id db)) at 1.
    rewrite selectedRoom_first_match. intros H.
    now apply first_match_In in H. }
  split; [intros r; apply candidateRooms_spec|].
  split; [intros r; apply (groupRoomIds_of_spec session id db r)|].
  split.
  { intros r Hr. split; [now apply Hchosen_in|].
    subst find_or_create. rewrite getOrCreateBotSpecificRoom_unfold.
    fold chosen. now rewrite Hr. }
  split.
  { intros Hd. subst chosen. unfold existingRoom, ChainInterceptor.selectedRoom.
    rewrite Hd. simpl. fold candidates.
    split; [|split].
    - intros Hex. apply find_first in Hex. destruct Hex as (r & Hf & _ & Hr).
      exists r. now rewrite Hf.
    - intros Hex. apply find_first in Hex. destruct Hex as (r & Hf & _ & Hr).
      destruct (find (fun r0 => existsb (Z.eqb (roomId r0))
                                  (groupRoomIds_of session db)
                                && Js.opt_eqb (visibility r0)
                                     (Some "template_clone")) candidates)
        as [x|] eqn:Hx; simpl.
      + exists x. split; [reflexivity|]. apply find_some in Hx.
        destruct Hx as [_ Hx]. apply andb_true_iff in Hx. apply Hx.
      + exists r. now split.
    - intros Hnone.
      rewrite (find_nothing _ candidates).
      + simpl. now apply find_nothing.
      + intros c Hc. now rewrite (Hnone c Hc). }
  split.
  { intros Hd. subst chosen. unfold existingRoom, ChainInterceptor.selectedRoom.
    rewrite Hd. simpl. fold candidates.
    split; [|split].
    - intros Hex. apply find_first in Hex. destruct Hex as (r & Hf & _ & Hr).
      exists r. now rewrite Hf.
    - intros Hex. apply find_first in Hex. destruct Hex as (r & Hf & _ & Hr).
      destruct (find (fun r0 => Js.opt_eqb (visibility r0) (Some "private")
                                && Js.opt_eqb (roomMasterId r0)
                                     (Some (userId session))) candidates)
        as [x|] eqn:Hx; simpl.
      + exists x. split; [reflexivity|]. apply find_some in Hx.
        destruct Hx as [_ Hx]. apply andb_true_iff in Hx. apply Hx.
      + exists r. rewrite Hf. now split.
    - intros Hnone.
      rewrite (find_nothing _ candidates).
      + simpl. now rewrite (find_nothing _ candidates).
      + intros c Hc. now rewrite (Hnone c Hc). }
  intros Hnone. subst find_or_create.
  rewrite getOrCreateBotSpecificRoom_unfold. fold chosen. rewrite Hnone.
  split; [reflexivity|].
  intros db' r Hc. rewrite createBotSpecificRoom_unfold in Hc.
  destruct (createRoom uuid now _ db) as [db1 [x|e]] eqn:Hcreate;
    [|discriminate].
  inversion Hc; subst db' x. clear Hc.
  apply createRoom_ok in Hcreate. destruct Hcreate as (-> & Hrooms & _).
  split.
  - simpl. now destruct (ChainInterceptor.isDirect session).
  - rewrite create_user_rooms, Hrooms. apply in_or_app. right. now left.
Qed.

Lemma C5_witness :
  In Scenario.named_room
     (candidateRooms Scenario.direct "disc:42" Scenario.named_db)
  /\ ChainInterceptor.getOrCreateBotSpecificRoom "UUID" 100 Scenario.direct
       "disc:42" Scenario.helper Scenario.named_db
     = (Scenario.named_db, Ok Scenario.named_room).
Proof.
  apply (proj1 (proj2 (proj2
           (C5_find_or_create_chooses_among_rooms_named_for_the_bot
              "UUID" 100 Scenario.direct "disc:42" Scenario.helper
              Scenario.named_db)))).
  reflexivity.
Defined.

(** C5 as stated fails: the candidates are picked by room name, not by
    key.  A room of the user named [Una (disc:42)] is chosen although its
    key [legacy-key] does not mention the identity; a room of the user
    whose key is [bot_disc:42_0001] but whose name lost the marker is
    passed over and a new room is created. *)
Lemma C5_counterexample :
  Js.includes "disc:42" (conversationId Scenario.named_room) = false
  /\ snd (ChainInterceptor.getOrCreateBotSpecificRoom "UUID" 100
            Scenario.direct "disc:42" Scenario.helper Scenario.named_db)
     = Ok Scenario.named_room
  /\ Js.startsWith "bot_disc:42_" (conversationId Scenario.renamed_room)
     = true
  /\ candidateRooms Scenario.direct "disc:42" Scenario.renamed_db = []
  /\ snd (ChainInterceptor.getOrCreateBotSpecificRoom "UUID" 100
            Scenario.direct "disc:42" Scenario.helper Scenario.renamed_db)
     <> Ok Scenario.renamed_room
  /\ map roomId
       (chathub_room
          (fst (ChainInterceptor.getOrCreateBotSpecificRoom "UUID" 100
                  Scenario.direct "disc:42" Scenario.helper
                  Scenario.renamed_db)))
     = [4; 5].
Proof. repeat split; discriminate. Qed.

Lemma C3_witness :
  let first := ChainInterceptor.charon_fix_room_auto_update "UUID" 100
                 Scenario.config 200 Scenario.direct Scenario.drifted in
  ChainInterceptor.charon_fix_room_auto_update "UUID2" 300 Scenario.config
    400 Scenario.direct (fst first)
  = (fst first, Ok CONTINUE).
Proof.
  apply (C3_post_hook_is_idempotent "UUID" "UUID2" 100 300 200 400
           Scenario.config Scenario.direct Scenario.drifted).
  reflexivity.
Defined.

Example drifted_room_is_repaired :
  let first := ChainInterceptor.charon_fix_room_auto_update "UUID" 100
                 Scenario.config 200 Scenario.direct Scenario.drifted in
  room (options (fst first))
  = Some (mkRoom 3 "Una (disc:42)" "legacy-key" (Some "helper")
            (Some "vendorA/modelX") (Some "chat") (Some "private") 200
            (Some "u1") (Some true) (Some ""))
  /\ writes (database (fst first))
     = [UpsertRoom (final_room 200 Scenario.stash Scenario.drifted_room)].
Proof. split; reflexivity. Qed.

(** ** Keys of the room table *)

Lemma upsert_room_rooms (f : Room) (db : Database) (x : Room) :
  In x (chathub_room (fst (Store.upsert_room f db))) ->
  x = f \/ In x (chathub_room db).
Proof.
  unfold Store.upsert_room.
  destruct (existsb (Store.same_room f) (chathub_room db)); simpl.
  - unfold Store.replace_room. rewrite in_map_iff.
    intros (y & Hy & Hin). destruct (Store.same_room f y); subst; auto.
  - intros Hin. apply in_app_or in Hin.
    destruct Hin as [Hin|[<-|[]]]; auto.
Qed.

Lemma repaired_rooms (fixTime : Z) (stash : CharonBotConfig) (cur : Room)
    (db : Database) (w : World) (x : Room) :
  In x (chathub_room (database (repaired fixTime stash cur db w))) ->
  In x (chathub_room db) \/ conversationId x = conversationId cur.
Proof.
  destruct (repaired_database fixTime stash cur db w) as [-> | ->]; auto.
  intros Hin. apply upsert_room_rooms in Hin. destruct Hin as [-> | Hin]; auto.
  right. apply final_room_identity.
Qed.

(** The post-hook brings no key into the room table other than the key of
    the stashed identity, provided the bound room is a row of the table. *)
Lemma charon_fix_room_auto_update_keys
    (uuid : string) (now : Z) (config : list BotPersonaConfig) (fixTime : Z)
    (session : Session) (w : World) (stash : CharonBotConfig) (bound r : Room) :
  charonBotConfig (options w) = Some stash ->
  room (options w) = Some bound ->
  In bound (chathub_room (database w)) ->
  In r (chathub_room
          (database
             (fst (ChainInterceptor.charon_fix_room_auto_update uuid now
                     config fixTime session w)))) ->
  conversationId r
  = BotManager.generateConversationId (stash_botId stash) uuid
  \/ exists old, In old (chathub_room (database w))
                 /\ conversationId old = conversationId r.
Proof.
  intros Hs Hr Hbound.
  assert (Hstays :
    In r (chathub_room (database (repaired fixTime stash bound (database w)
                                    w))) ->
    conversationId r
    = BotManager.generateConversationId (stash_botId stash) uuid
    \/ exists old, In old (chathub_room (database w))
                   /\ conversationId old = conversationId r).
  { intros Hin. right. apply repaired_rooms in Hin.
    destruct Hin as [Hin|Hk]; [now exists r|now exists bound]. }
  destruct (ChainInterceptor.isRoomForBot (stash_botId stash) bound)
    eqn:Hown.
  { rewrite (post_hook_stays uuid now config fixTime session w stash bound)
      by auto. exact Hstays. }
  destruct (BotManager.getBotConfig config (stash_botId stash)) as [bc|]
    eqn:Hcfg.
  2:{ rewrite (post_hook_stays uuid now config fixTime session w stash bound)
        by auto. exact Hstays. }
  rewrite (post_hook_rebinds uuid now config fixTime session w stash bound bc)
    by auto.
  pose proof (getOrCreateBotSpecificRoom_rooms uuid now session
                (stash_botId stash) bc (database w)) as Hrooms.
  destruct (ChainInterceptor.getOrCreateBotSpecificRoom uuid now session
              (stash_botId stash) bc (database w))
    as [db1 [cur|e]] eqn:Hfind; simpl in *.
  - intros Hin. apply repaired_rooms in Hin. destruct Hin as [Hin|Hk].
    + destruct (Hrooms r Hin) as [Hold|Hnew]; [right; now exists r|now left].
    + rewrite Hk.
      rewrite getOrCreateBotSpecificRoom_unfold in Hfind.
      destruct (existingRoom session (stash_botId stash) (database w))
        as [x|] eqn:Hex.
      * inversion Hfind; subst db1 x. right. exists cur. split; [|easy].
        rewrite existingRoom_first_match in Hex.
        now apply first_match_In in Hex.
      * left. rewrite createBotSpecificRoom_unfold in Hfind.
        destruct (createRoom uuid now _ (database w)) as [db' [x|e]] eqn:Hc;
          [|discriminate].
        inversion Hfind; subst x. apply createRoom_ok in Hc.
        now destruct Hc as (-> & _).
  - intros Hin. destruct (Hrooms r Hin) as [Hold|Hnew];
      [right; now exists r|now left].
Qed.

(** C4.  Every room that [createRoom] adds to the room table has the key
    [bot_<botId>_<uuid>]; so has every room that find-or-create adds, and
    every room the pre-hook adds, where the bot id is the
    [platform:selfId] pair of the message.  The post-hook, which persists
    with an upsert, brings no other key into the table than the key of the
    stashed identity. *)
Theorem C4_created_rooms_carry_the_identity_key (uuid : string) (now : Z) :
  (forall o db r,
      In r (chathub_room (fst (createRoom uuid now o db))) ->
      In r (chathub_room db)
      \/ conversationId r = "bot_" ++ opt_botId o ++ "_" ++ uuid)
  /\ (forall session id botConfig db r,
         In r (chathub_room
                 (fst (ChainInterceptor.getOrCreateBotSpecificRoom uuid now
                         session id botConfig db))) ->
         In r (chathub_room db)
         \/ conversationId r = "bot_" ++ id ++ "_" ++ uuid)
  /\ (forall config session w r,
         In r (chathub_room
                 (database
                    (fst (ChainInterceptor.charon_resolve_bot_room uuid now
                            config session w)))) ->
         In r (chathub_room (database w))
         \/ conversationId r
            = "bot_" ++ (platform session ++ ":"
                         ++ Js.template (selfId_of session)) ++ "_" ++ uuid)
  /\ (forall config fixTime session w stash bound r,
         charonBotConfig (options w) = Some stash ->
         room (options w) = Some bound ->
         In bound (chathub_room (database w)) ->
         In r (chathub_room
                 (database
                    (fst (ChainInterceptor.charon_fix_room_auto_update uuid
                            now config fixTime session w)))) ->
         conversationId r = "bot_" ++ stash_botId stash ++ "_" ++ uuid
         \/ exists old, In old (chathub_room (database w))
                        /\ conversationId old = conversationId r).
Proof.
  split; [|split; [|split]].
  - intros o db r Hin.
    destruct (createRoom_rooms uuid now o db) as [E|E]; rewrite E in Hin;
      auto.
    apply in_app_or in Hin. destruct Hin as [Hin|[<-|[]]]; auto.
  - intros session id botConfig db r.
    apply getOrCreateBotSpecificRoom_rooms.
  - intros config session w r Hin.
    destruct (charon_resolve_bot_room_database uuid now config session w)
      as [E|[bc E]]; rewrite E in Hin; auto.
    now apply getOrCreateBotSpecificRoom_rooms in Hin.
  - intros config fixTime session w stash bound r.
    apply charon_fix_room_auto_update_keys.
Qed.

Lemma C4_witness :
  In Scenario.created_room (chathub_room Scenario.empty_db)
  \/ conversationId Scenario.created_room
     = "bot_" ++ ("disc" ++ ":" ++ "42") ++ "_" ++ "UUID".
Proof.
  apply (proj1 (proj2 (proj2 (C4_created_rooms_carry_the_identity_key
                                "UUID" 100)))
           Scenario.config Scenario.direct Scenario.fresh
           Scenario.created_room).
  vm_compute. left. reflexivity.
Defined.

(** ** The pre-hook never answers [SKIPPED] *)

Lemma charon_resolve_bot_room_status
    (uuid : string) (now : Z) (config : list BotPersonaConfig)
    (session : Session) (w : World) :
  snd (ChainInterceptor.charon_resolve_bot_room uuid now config session w)
  <> Ok SKIPPED.
Proof.
  unfold ChainInterceptor.charon_resolve_bot_room.
  set (id := BotManager.getBotId (platform session)
               (Js.template (selfId_of session))).
  destruct (BotManager.getBotConfig config id) as [bc|]; [|discriminate].
  destruct (enabled bc); simpl; [|discriminate].
  destruct (negb (Js.truthy (preset bc)) && negb (Js.truthy (model bc)));
    [discriminate|].
  assert (Hrest : forall presetName,
    snd ((bind (set_option_charonBotConfig
                  (mkCharonBotConfig id presetName (model bc)
                     (Js.or_else (chatMode bc) "chat")))
            (fun _ =>
               bind (gets options)
                 (fun opts =>
                    if Js.truthy_opt (room_resolve_name opts)
                    then bind (on_database
                                 (ChainInterceptor.findBotSpecificRoom
                                    (Js.template (room_resolve_name opts))
                                    id))
                           (fun botSpecificRoom =>
                              bind match botSpecificRoom with
                                   | Some r => set_option_room r
                                   | None => ret tt
                                   end
                                (fun _ => ret CONTINUE))
                    else bind (on_database
                                 (ChainInterceptor.getOrCreateBotSpecificRoom
                                    uuid now session id bc))
                           (fun botRoom =>
                              bind (set_option_room botRoom)
                                (fun _ => ret CONTINUE))))) w)
    <> Ok SKIPPED).
  { intros presetName.
    unfold ChainInterceptor.findBotSpecificRoom, set_option_room,
      set_option_charonBotConfig. run_eff.
    destruct (Js.truthy_opt (room_resolve_name (options w))); simpl.
    - destruct (filter _ (chathub_room (database w))) as [|r rs]; simpl;
        [discriminate|].
      destruct (Js.includes _ (roomName r)); discriminate.
    - destruct (ChainInterceptor.getOrCreateBotSpecificRoom
                  uuid now session id bc (database w)) as [db1 [r|e]];
        discriminate. }
  destruct (Js.truthy (preset bc)); simpl; [|apply Hrest].
  destruct (source (BotManager.parsePresetName (preset bc)));
    [apply Hrest|].
  unfold ChainInterceptor.configureCharacterPlugin. run_eff. discriminate.
Qed.

(** ** The memory hook in general *)

(** With isolation on and a non-empty self id, a present identifier gets
    the self id and an underscore in front; an absent or empty one is left
    as it is. *)
Lemma init_layer_prefixes (session : Session) (selfId : string)
    (user guild : option string) :
  selfId_of session = Some selfId ->
  selfId <> "" ->
  MemoryInterceptor.init_layer true (mkLayerConfig (Some session) user guild)
  = mkLayerConfig (Some session)
      (match user with
       | Some u => if Js.truthy u then Some (selfId ++ "_" ++ u) else user
       | None => None
       end)
      (match guild with
       | Some g => if Js.truthy g then Some (selfId ++ "_" ++ g) else guild
       | None => None
       end).
Proof.
  intros Hself Hne. unfold MemoryInterceptor.init_layer. simpl.
  rewrite Hself. apply truthy_true_iff in Hne. rewrite Hne. simpl.
  destruct user as [u|], guild as [g|]; simpl; try reflexivity;
    try destruct (Js.truthy u); try destruct (Js.truthy g); reflexivity.
Qed.

Lemma init_layer_off (layerConfig : LayerConfig) :
  MemoryInterceptor.init_layer false layerConfig = layerConfig.
Proof. reflexivity. Qed.

(** * Properties of the rest of the plugin *)

(** ** The registry *)

Lemma findIndex_Some {A : Type} (test : A -> bool) (l : list A) (i : nat) :
  Registry.findIndex test l = Some i ->
  exists before x after,
    l = (before ++ x :: after)%list
    /\ length before = i
    /\ test x = true
    /\ forall y, In y before -> test y = false.
Proof.
  revert i. induction l as [|a l IH]; simpl; intros i H; [discriminate|].
  destruct (test a) eqn:Ha.
  - inversion H; subst. exists [], a, l. repeat split; auto.
    intros y [].
  - destruct (Registry.findIndex test l) as [j|]; [|discriminate].
    inversion H; subst.
    destruct (IH j eq_refl) as (before & x & after & -> & Hlen & Hx & Hb).
    exists (a :: before), x, after. simpl. repeat split; auto.
    intros y [<-|Hy]; auto.
Qed.

Lemma findIndex_None {A : Type} (test : A -> bool) (l : list A) :
  Registry.findIndex test l = None -> forall y, In y l -> test y = false.
Proof.
  induction l as [|a l IH]; simpl; intros H y Hy; [easy|].
  destruct (test a) eqn:Ha; [discriminate|].
  destruct (Registry.findIndex test l); [discriminate|].
  destruct Hy as [<-|Hy]; auto.
Qed.

Lemma assign_at_middle {A : Type} (before after : list A) (x v : A) :
  Registry.assign_at (length before) v (before ++ x :: after)
  = (before ++ v :: after)%list.
Proof. induction before as [|b before IH]; simpl; congruence. Qed.

Lemma find_skip {A : Type} (test : A -> bool) (before after : list A) :
  (forall y, In y before -> test y = false) ->
  find test (before ++ after) = find test after.
Proof.
  induction before as [|b before IH]; simpl; intros H; [reflexivity|].
  rewrite (H b (or_introl eq_refl)). apply IH.
  intros y Hy. apply H. now right.
Qed.

Lemma findIndex_skip {A : Type} (test : A -> bool) (before after : list A)
    (x : A) :
  (forall y, In y before -> test y = false) ->
  test x = true ->
  Registry.findIndex test (before ++ x :: after) = Some (length before).
Proof.
  intros Hb Hx. induction before as [|b before IH]; simpl.
  - now rewrite Hx.
  - rewrite (Hb b (or_introl eq_refl)).
    rewrite IH; [reflexivity|].
    intros y Hy. apply Hb. now right.
Qed.

(** How [updateBotConfig] changes the list. *)
Lemma updateBotConfig_shape (config : list BotPersonaConfig)
    (c : BotPersonaConfig) :
  (exists before old after,
      config = (before ++ old :: after)%list
      /\ botId old = botId c
      /\ (forall y, In y before -> botId y <> botId c)
      /\ Registry.updateBotConfig config c = (before ++ c :: after)%list)
  \/ ((forall y, In y config -> botId y <> botId c)
      /\ Registry.updateBotConfig config c = (config ++ [c])%list).
Proof.
  unfold Registry.updateBotConfig.
  destruct (Registry.findIndex _ config) as [i|] eqn:Hi.
  - left. apply findIndex_Some in Hi.
    destruct Hi as (before & old & after & -> & <- & Hold & Hb).
    exists before, old, after. repeat split.
    + now apply String.eqb_eq.
    + intros y Hy E. apply String.eqb_eq in E. rewrite (Hb y Hy) in E.
      discriminate.
    + apply assign_at_middle.
  - right. split; [|reflexivity].
    intros y Hy E. apply String.eqb_eq in E.
    rewrite (findIndex_None _ _ Hi y Hy) in E. discriminate.
Qed.

(** X1.  The registry answers a lookup of a bot id with the configuration
    last stored for it by [updateBotConfig], and the lookup of any other
    bot id is what it was before. *)
Theorem X1_updateBotConfig_then_getBotConfig
    (config : list BotPersonaConfig) (c : BotPersonaConfig) :
  BotManager.getBotConfig (Registry.updateBotConfig config c) (botId c)
  = Some c
  /\ forall id, id <> botId c ->
       BotManager.getBotConfig (Registry.updateBotConfig config c) id
       = BotManager.getBotConfig config id.
Proof.
  unfold BotManager.getBotConfig.
  destruct (updateBotConfig_shape config c)
    as [(before & old & after & -> & Hold & Hb & ->)|[Hnone ->]].
  - split.
    + rewrite find_skip.
      * simpl. now rewrite String.eqb_refl.
      * intros y Hy. apply String.eqb_neq. now apply Hb.
    + intros id Hid.
      assert (Eo : String.eqb (botId old) id = false).
      { apply String.eqb_neq. congruence. }
      assert (Ec : String.eqb (botId c) id = false).
      { apply String.eqb_neq. congruence. }
      induction before as [|b before IH]; simpl.
      * now rewrite Eo, Ec.
      * destruct (String.eqb (botId b) id); [reflexivity|].
        apply IH. intros y Hy. apply Hb. now right.
  - split.
    + rewrite find_skip.
      * simpl. now rewrite String.eqb_refl.
      * intros y Hy. apply String.eqb_neq. now apply Hnone.
    + intros id Hid.
      assert (Ec : String.eqb (botId c) id = false).
      { apply String.eqb_neq. congruence. }
      clear Hnone. induction config as [|b config IH]; simpl.
      * now rewrite Ec.
      * destruct (String.eqb (botId b) id); [reflexivity|]. exact IH.
Qed.

(** X2.  [updateBotConfig] keeps the length of the registry when the bot
    id is known and appends the configuration at the end when it is not;
    storing the same configuration a second time changes nothing. *)
Theorem X2_updateBotConfig_keeps_the_registry
    (config : list BotPersonaConfig) (c : BotPersonaConfig) :
  (BotManager.getBotConfig config (botId c) <> None ->
   length (Registry.updateBotConfig config c) = length config)
  /\ (BotManager.getBotConfig config (botId c) = None ->
      Registry.updateBotConfig config c = (config ++ [c])%list)
  /\ Registry.updateBotConfig (Registry.updateBotConfig config c) c
     = Registry.updateBotConfig config c.
Proof.
  assert (Hagain : forall before after,
             (forall y, In y before -> botId y <> botId c) ->
             Registry.updateBotConfig (before ++ c :: after) c
             = (before ++ c :: after)%list).
  { intros before after Hb. unfold Registry.updateBotConfig.
    rewrite findIndex_skip.
    - apply assign_at_middle.
    - intros y Hy. apply String.eqb_neq. now apply Hb.
    - apply String.eqb_refl. }
  unfold BotManager.getBotConfig.
  destruct (updateBotConfig_shape config c)
    as [(before & old & after & -> & Hold & Hb & E)|[Hnone E]].
  - split; [|split].
    + intros _. rewrite E, !length_app. reflexivity.
    + rewrite find_skip.
      * simpl. apply String.eqb_eq in Hold. rewrite Hold. discriminate.
      * intros y Hy. apply String.eqb_neq. now apply Hb.
    + rewrite E. now apply Hagain.
  - split; [|split].
    + intros H. exfalso. apply H. apply find_nothing.
      intros y Hy. apply String.eqb_neq. now apply Hnone.
    + intros _. exact E.
    + rewrite E. now apply Hagain.
Qed.

Lemma X2_witness :
  Registry.updateBotConfig [] Scenario.helper = ([] ++ [Scenario.helper])%list.
Proof.
  apply (proj1 (proj2 (X2_updateBotConfig_keeps_the_registry []
                         Scenario.helper))).
  reflexivity.
Defined.

Lemma X1_witness :
  BotManager.getBotConfig
    (Registry.updateBotConfig Scenario.config Scenario.helper) "tele:7"
  = BotManager.getBotConfig Scenario.config "tele:7".
Proof.
  apply (proj2 (X1_updateBotConfig_then_getBotConfig Scenario.config
                  Scenario.helper)).
  discriminate.
Defined.

(** ** The runtime status map *)

Lemma status_get_set_same (m : StatusMap) (id : string) (v : BotStatus) :
  Status.get (Status.set m id v) id = Some v.
Proof.
  induction m as [|[k old] m IH]; simpl.
  - now rewrite String.eqb_refl.
  - destruct (String.eqb k id) eqn:E; simpl; rewrite E; auto.
Qed.

Lemma status_get_set_other (m : StatusMap) (id id' : string) (v : BotStatus) :
  id' <> id ->
  Status.get (Status.set m id v) id' = Status.get m id'.
Proof.
  intros Hne. induction m as [|[k old] m IH]; simpl.
  - apply String.eqb_neq in Hne. rewrite String.eqb_sym in Hne.
    now rewrite Hne.
  - destruct (String.eqb k id) eqn:E; simpl.
    + apply String.eqb_eq in E. subst k.
      assert (E' : String.eqb id id' = false).
      { apply String.eqb_neq. congruence. }
      now rewrite E'.
    + destruct (String.eqb k id'); auto.
Qed.

Lemma status_set_keys (m : StatusMap) (id : string) (v : BotStatus) :
  map fst (Status.set m id v)
  = if existsb (String.eqb id) (map fst m) then map fst m
    else (map fst m ++ [id])%list.
Proof.
  induction m as [|[k old] m IH]; simpl; [reflexivity|].
  rewrite (String.eqb_sym id k).
  destruct (String.eqb k id) eqn:E; simpl; [reflexivity|].
  rewrite IH. now destruct (existsb (String.eqb id) (map fst m)).
Qed.

(** X3.  After [setBotStatus] every field of the bot's status is the
    given one where the update sets it and the previous one where it does
    not (for a bot without status: the bot id, the platform cut out of
    it, not initialized, nothing else set); the status of every other bot
    is what it was. *)
Theorem X3_setBotStatus_then_getBotStatus
    (m : StatusMap) (id : string) (status : PartialBotStatus) :
  let previous :=
    match Status.getBotStatus m id with
    | Some previous => previous
    | None =>
        mkBotStatus id (parsed_platform (Registry.parseBotId id)) false None
          None None None
    end in
  (exists s,
      Status.getBotStatus (Status.setBotStatus m id status) id = Some s
      /\ status_botId s
         = match part_botId status with
           | Some v => v
           | None => status_botId previous
           end
      /\ status_platform s
         = match part_platform status with
           | Some v => Some v
           | None => status_platform previous
           end
      /\ status_initialized s
         = match part_initialized status with
           | Some v => v
           | None => status_initialized previous
           end
      /\ status_templateRoomId s
         = match part_templateRoomId status with
           | Some v => Some v
           | None => status_templateRoomId previous
           end
      /\ status_currentPreset s
         = match part_currentPreset status with
           | Some v => Some v
           | None => status_currentPreset previous
           end
      /\ status_currentModel s
         = match part_currentModel status with
           | Some v => Some v
           | None => status_currentModel previous
           end
      /\ status_error s
         = match part_error status with
           | Some v => Some v
           | None => status_error previous
           end)
  /\ forall id', id' <> id ->
       Status.getBotStatus (Status.setBotStatus m id status) id'
       = Status.getBotStatus m id'.
Proof.
  intros previous. unfold Status.getBotStatus, Status.setBotStatus. split.
  - rewrite status_get_set_same. eexists. split; [reflexivity|].
    unfold Status.getBotStatus in previous. fold previous.
    unfold Status.initial. repeat split.
  - intros id' Hne. now apply status_get_set_other.
Qed.

Lemma X3_witness :
  Status.getBotStatus
    (Status.setBotStatus [] "disc:42" (Status.set_initialized true)) "tele:7"
  = Status.getBotStatus [] "tele:7".
Proof.
  apply (proj2 (X3_setBotStatus_then_getBotStatus [] "disc:42"
                  (Status.set_initialized true))).
  discriminate.
Defined.

Lemma NoDup_snoc {A : Type} (l : list A) (x : A) :
  NoDup l -> ~ In x l -> NoDup (l ++ [x]).
Proof.
  induction l as [|a l IH]; simpl; intros Hnd Hx.
  - constructor; [easy|constructor].
  - inversion Hnd; subst. constructor.
    + intros Hin. apply in_app_or in Hin. destruct Hin as [Hin|[<-|[]]]; auto.
    + apply IH; auto.
Qed.

(** X4.  The status map keeps at most one entry per bot id:
    [setBotStatus] on a map without duplicate keys gives a map without
    duplicate keys, with the same keys in the same order when the bot had
    an entry and with the bot id added at the end when it had none. *)
Theorem X4_setBotStatus_keeps_one_entry_per_bot
    (m : StatusMap) (id : string) (status : PartialBotStatus) :
  NoDup (map fst m) ->
  NoDup (map fst (Status.setBotStatus m id status))
  /\ (Status.getBotStatus m id <> None ->
      map fst (Status.setBotStatus m id status) = map fst m)
  /\ (Status.getBotStatus m id = None ->
      map fst (Status.setBotStatus m id status) = (map fst m ++ [id])%list).
Proof.
  intros Hnd. unfold Status.setBotStatus, Status.getBotStatus.
  rewrite status_set_keys.
  assert (Hkey : existsb (String.eqb id) (map fst m) = true
                 <-> Status.get m id <> None).
  { clear Hnd. induction m as [|[k v] m IH]; simpl.
    - split; [discriminate|congruence].
    - rewrite (String.eqb_sym id k).
      destruct (String.eqb k id); simpl; [|exact IH].
      split; [discriminate|reflexivity]. }
  destruct (existsb (String.eqb id) (map fst m)) eqn:E.
  - split; [exact Hnd|]. split; [reflexivity|].
    intros Hnone. exfalso. now apply (proj1 Hkey).
  - split.
    + apply NoDup_snoc; [exact Hnd|].
      intros Hin. assert (existsb (String.eqb id) (map fst m) = true).
      { apply existsb_exists. exists id. split; [exact Hin|].
        apply String.eqb_refl. }
      congruence.
    + split; [|reflexivity].
      intros Hsome. apply Hkey in Hsome. discriminate.
Qed.

Lemma X4_witness :
  NoDup (map fst (Status.setBotStatus [] "disc:42"
                    (Status.set_initialized true))).
Proof.
  apply (X4_setBotStatus_keeps_one_entry_per_bot [] "disc:42"
           (Status.set_initialized true)).
  constructor.
Defined.

(** ** Bot ids *)

Lemma split_nonempty (sep : ascii) (s : string) : Js.split sep s <> [].
Proof.
  destruct s as [|c s]; simpl; [discriminate|].
  destruct (Ascii.eqb c sep); [discriminate|].
  destruct (Js.split sep s); discriminate.
Qed.

Lemma split_app_separator (a b : string) :
  Js.includes ":" a = false ->
  Js.split ":"%char (a ++ String ":"%char b) = a :: Js.split ":"%char b.
Proof.
  induction a as [|c a IH]; simpl; intros H; [reflexivity|].
  destruct (Ascii.eqb_spec c ":"%char) as [->|Hc].
  - simpl in H. now destruct a.
  - assert (Ha : Js.includes ":" a = false).
    { apply orb_false_iff in H. tauto. }
    now rewrite (IH Ha).
Qed.

Lemma split_separator_length (a b : string) :
  (2 <= length (Js.split ":"%char (a ++ String ":"%char b)))%nat.
Proof.
  induction a as [|c a IH]; simpl.
  - pose proof (split_nonempty ":"%char b).
    destruct (Js.split ":"%char b); simpl; [congruence|lia].
  - destruct (Ascii.eqb c ":"%char); simpl.
    + lia.
    + destruct (Js.split ":"%char (a ++ String ":"%char b)); simpl in *; lia.
Qed.

(** X5.  [parseBotId] undoes [getBotId] when neither the platform nor the
    self id contains a colon; for any platform and self id it finds a
    self id in the bot id that [getBotId] built. *)
Theorem X5_parseBotId_of_getBotId (platform selfId : string) :
  (Js.includes ":" platform = false ->
   Js.includes ":" selfId = false ->
   Registry.parseBotId (BotManager.getBotId platform selfId)
   = mkParsedBotId (Some platform) (Some selfId))
  /\ parsed_selfId (Registry.parseBotId (BotManager.getBotId platform selfId))
     <> None
  /\ parsed_platform
       (Registry.parseBotId (BotManager.getBotId platform selfId))
     <> None.
Proof.
  unfold Registry.parseBotId, BotManager.getBotId, Js.split_limit.
  change (platform ++ ":" ++ selfId) with (platform ++ String ":"%char selfId).
  split; [|split].
  - intros Hp Hs. rewrite (split_app_separator _ _ Hp).
    now rewrite (split_no_separator _ Hs).
  - pose proof (split_separator_length platform selfId) as H.
    destruct (Js.split ":"%char (platform ++ String ":"%char selfId))
      as [|p [|s rest]]; simpl in *; try lia. discriminate.
  - pose proof (split_separator_length platform selfId) as H.
    destruct (Js.split ":"%char (platform ++ String ":"%char selfId))
      as [|p [|s rest]]; simpl in *; try lia. discriminate.
Qed.

Lemma X5_witness :
  Registry.parseBotId (BotManager.getBotId "disc" "42")
  = mkParsedBotId (Some "disc") (Some "42").
Proof.
  apply (proj1 (X5_parseBotId_of_getBotId "disc" "42")); reflexivity.
Defined.

(** ** Memory keys *)

Lemma append_cancel_l (a x y : string) : a ++ x = a ++ y -> x = y.
Proof. induction a as [|c a IH]; simpl; intros H; [exact H|]. inversion H; auto. Qed.

Lemma length_append (a b : string) :
  String.length (a ++ b) = (String.length a + String.length b)%nat.
Proof. induction a as [|c a IH]; simpl; congruence. Qed.

Lemma append_cancel_r (a b c : string) : a ++ c = b ++ c -> a = b.
Proof.
  revert b. induction a as [|x a IH]; intros b H.
  - destruct b as [|y b]; [reflexivity|].
    apply (f_equal String.length) in H. simpl in H.
    rewrite length_append in H. lia.
  - destruct b as [|y b].
    + apply (f_equal String.length) in H. simpl in H.
      rewrite length_append in H. lia.
    + simpl in H. inversion H; subst. f_equal. now apply IH.
Qed.

(** X6.  With isolation on, the memory hook keeps the users of one bot
    apart and keeps one user apart between two bots: for non-empty
    identifiers, the rewritten user id (and group id) of two layers is
    different when the self ids are equal and the original ids differ,
    and when the original ids are equal and the self ids differ. *)
Theorem X6_memory_keys_are_kept_apart
    (session1 session2 : Session) (self1 self2 id1 id2 : string)
    (other1 other2 : option string) :
  selfId_of session1 = Some self1 -> self1 <> "" ->
  selfId_of session2 = Some self2 -> self2 <> "" ->
  id1 <> "" -> id2 <> "" ->
  (self1 = self2 /\ id1 <> id2) \/ (self1 <> self2 /\ id1 = id2) ->
  layer_userId
    (MemoryInterceptor.init_layer true
       (mkLayerConfig (Some session1) (Some id1) other1))
  <> layer_userId
       (MemoryInterceptor.init_layer true
          (mkLayerConfig (Some session2) (Some id2) other2))
  /\ layer_guildId
       (MemoryInterceptor.init_layer true
          (mkLayerConfig (Some session1) other1 (Some id1)))
     <> layer_guildId
          (MemoryInterceptor.init_layer true
             (mkLayerConfig (Some session2) other2 (Some id2))).
Proof.
  intros H1 Hs1 H2 Hs2 Hi1 Hi2 Hdiff.
  rewrite !(init_layer_prefixes session1 self1) by assumption.
  rewrite !(init_layer_prefixes session2 self2) by assumption.
  simpl. apply truthy_true_iff in Hi1, Hi2. rewrite Hi1, Hi2.
  assert (Hne : self1 ++ "_" ++ id1 <> self2 ++ "_" ++ id2).
  { destruct Hdiff as [[<- Hd]|[Hd <-]]; intros E.
    - apply append_cancel_l in E. inversion E. contradiction.
    - rewrite <- !append_assoc in E. apply append_cancel_r in E.
      apply append_cancel_r in E. contradiction. }
  split; intros E; apply Hne; injection E; intros E'; exact E'.
Qed.

Lemma X6_witness :
  layer_userId
    (MemoryInterceptor.init_layer true
       (mkLayerConfig (Some Scenario.direct) (Some "u1") None))
  <> layer_userId
       (MemoryInterceptor.init_layer true
          (mkLayerConfig (Some Scenario.direct) (Some "u2") None)).
Proof.
  apply (X6_memory_keys_are_kept_apart Scenario.direct Scenario.direct
           "42" "42" "u1" "u2" None None); try reflexivity;
    try discriminate.
  left. split; [reflexivity|discriminate].
Defined.

(** X7.  The memory keys of different bots can coincide: the key of user
    [u] under a bot whose self id is [s_t] is the key of user [t_u] under
    the bot whose self id is [s]. *)
Theorem X7_memory_keys_of_two_bots_can_coincide
    (session1 session2 : Session) (s t u : string) :
  selfId_of session1 = Some (s ++ "_" ++ t) ->
  selfId_of session2 = Some s ->
  s <> "" -> u <> "" ->
  layer_userId
    (MemoryInterceptor.init_layer true
       (mkLayerConfig (Some session1) (Some u) None))
  = layer_userId
      (MemoryInterceptor.init_layer true
         (mkLayerConfig (Some session2) (Some (t ++ "_" ++ u)) None)).
Proof.
  intros H1 H2 Hs Hu.
  rewrite (init_layer_prefixes session1 (s ++ "_" ++ t)); [|assumption|].
  - rewrite (init_layer_prefixes session2 s) by assumption. simpl.
    apply truthy_true_iff in Hu. rewrite Hu.
    assert (Ht : Js.truthy (t ++ String "_" u) = true).
    { destruct t; reflexivity. }
    rewrite Ht. f_equal.
    change (String "_" t) with ("_" ++ t).
    change (String "_" u) with ("_" ++ u).
    change (String "_" (t ++ "_" ++ u)) with ("_" ++ t ++ "_" ++ u).
    now rewrite !append_assoc.
  - destruct s; [congruence|discriminate].
Qed.

Lemma X7_witness :
  layer_userId
    (MemoryInterceptor.init_layer true
       (mkLayerConfig
          (Some (mkSession "disc" (Some "4_2") None "u" None None None None))
          (Some "u1") None))
  = layer_userId
      (MemoryInterceptor.init_layer true
         (mkLayerConfig
            (Some (mkSession "disc" (Some "4") None "u" None None None None))
            (Some "2_u1") None)).
Proof.
  apply (X7_memory_keys_of_two_bots_can_coincide
           (mkSession "disc" (Some "4_2") None "u" None None None None)
           (mkSession "disc" (Some "4") None "u" None None None None)
           "4" "2" "u1"); try reflexivity; discriminate.
Defined.

(** ** The character plugin and the other paths of the pre-hook *)

Lemma group_preset_set_same (g p : string)
    (cfgs : list (string * option string)) :
  group_preset g (ChainInterceptor.set_group_preset g p cfgs) = Some (Some p).
Proof.
  induction cfgs as [|[k v] cfgs IH]; simpl.
  - now rewrite String.eqb_refl.
  - destruct (String.eqb k g) eqn:E; simpl; rewrite E; auto.
Qed.

Lemma group_preset_set_other (g h p : string)
    (cfgs : list (string * option string)) :
  h <> g ->
  group_preset h (ChainInterceptor.set_group_preset g p cfgs)
  = group_preset h cfgs.
Proof.
  intros Hne. induction cfgs as [|[k v] cfgs IH]; simpl.
  - apply String.eqb_neq in Hne. rewrite String.eqb_sym in Hne.
    now rewrite Hne.
  - destruct (String.eqb k g) eqn:E; simpl.
    + apply String.eqb_eq in E. subst k.
      assert (E' : String.eqb g h = false).
      { apply String.eqb_neq. congruence. }
      now rewrite E'.
    + destruct (String.eqb k h); auto.
Qed.

Lemma set_group_preset_twice (g p : string)
    (cfgs : list (string * option string)) :
  ChainInterceptor.set_group_preset g p
    (ChainInterceptor.set_group_preset g p cfgs)
  = ChainInterceptor.set_group_preset g p cfgs.
Proof.
  induction cfgs as [|[k v] cfgs IH]; simpl.
  - now rewrite String.eqb_refl.
  - destruct (String.eqb k g) eqn:E; simpl; rewrite E; congruence.
Qed.

Lemma configureCharacterPlugin_frame (session : Session)
    (presetName : string) (w : World) :
  database (fst (ChainInterceptor.configureCharacterPlugin session presetName
                   w)) = database w
  /\ options (fst (ChainInterceptor.configureCharacterPlugin session
                     presetName w)) = options w.
Proof.
  unfold ChainInterceptor.configureCharacterPlugin, modify. simpl.
  destruct (chatluna_character w) as [[[cc|]]|]; split; reflexivity.
Qed.

(** X8.  [configureCharacterPlugin] puts the scope of the message on the
    plugin's allow-list (once: a listed scope is not listed again) and
    sets the preset of that scope, leaving the other scopes, the store
    and the message context alone; doing it twice is the same as doing it
    once, and without the plugin or its configuration nothing changes. *)
Theorem X8_configureCharacterPlugin_sets_the_scope
    (session : Session) (presetName : string) (w : World) :
  let g := character_scope session in
  let w' := fst (ChainInterceptor.configureCharacterPlugin session presetName
                   w) in
  (forall cc,
      chatluna_character w = Some (mkCharacterPlugin (Some cc)) ->
      exists groups' cfgs',
        chatluna_character w'
        = Some (mkCharacterPlugin
                  (Some (mkCharacterConfig (Some groups') (Some cfgs'))))
        /\ In g groups'
        /\ (In g (or_empty (applyGroup cc)) ->
            groups' = or_empty (applyGroup cc))
        /\ (~ In g (or_empty (applyGroup cc)) ->
            groups' = (or_empty (applyGroup cc) ++ [g])%list)
        /\ group_preset g cfgs' = Some (Some presetName)
        /\ (forall h, h <> g ->
              group_preset h cfgs' = group_preset h (or_empty (configs cc)))
        /\ ChainInterceptor.configureCharacterPlugin session presetName w'
           = (w', Ok tt))
  /\ (chatluna_character w = None
      \/ chatluna_character w = Some (mkCharacterPlugin None) ->
      w' = w)
  /\ database w' = database w
  /\ options w' = options w.
Proof.
  intros g w'. subst w'.
  unfold ChainInterceptor.configureCharacterPlugin, modify. simpl.
  fold (character_scope session). fold g.
  split; [|split; [|split]].
  - intros cc Hcc. rewrite Hcc. simpl.
    fold (or_empty (applyGroup cc)). fold (or_empty (configs cc)).
    set (groups := or_empty (applyGroup cc)).
    set (groups' := if existsb (String.eqb g) groups then groups
                    else (groups ++ [g])%list).
    assert (Hlisted : existsb (String.eqb g) groups = true <-> In g groups).
    { rewrite existsb_exists. split.
      - intros (x & Hx & E). apply String.eqb_eq in E. now subst.
      - intros Hin. exists g. split; [exact Hin|apply String.eqb_refl]. }
    assert (Hin' : In g groups').
    { subst groups'. destruct (existsb (String.eqb g) groups) eqn:E.
      - now apply Hlisted.
      - apply in_or_app. right. now left. }
    exists groups', (ChainInterceptor.set_group_preset g presetName
                       (or_empty (configs cc))).
    split; [reflexivity|]. split; [exact Hin'|].
    split; [|split; [|split; [|split]]].
    + intros Hin. subst groups'. apply Hlisted in Hin. now rewrite Hin.
    + intros Hnot. subst groups'.
      destruct (existsb (String.eqb g) groups) eqn:E; [|reflexivity].
      exfalso. apply Hnot. now apply Hlisted.
    + apply group_preset_set_same.
    + intros h Hne. now apply group_preset_set_other.
    + simpl. rewrite set_group_preset_twice.
      assert (E : existsb (String.eqb g) groups' = true).
      { apply existsb_exists. exists g. split; [exact Hin'|].
        apply String.eqb_refl. }
      now rewrite E.
  - intros [-> | ->]; destruct w; reflexivity.
  - apply (configureCharacterPlugin_frame session presetName w).
  - apply (configureCharacterPlugin_frame session presetName w).
Qed.

Lemma X8_witness :
  fst (ChainInterceptor.configureCharacterPlugin Scenario.grouped "alice"
         Scenario.fresh)
  = Scenario.fresh.
Proof.
  apply (proj1 (proj2 (X8_configureCharacterPlugin_sets_the_scope
                         Scenario.grouped "alice" Scenario.fresh))).
  left. reflexivity.
Defined.

(** X9.  For an enabled identity whose preset names the character
    source, the pre-hook answers [STOP], configures the character plugin
    for the scope with the bare preset name, and touches neither the store
    nor the message context: nothing is stashed and no room is bound. *)
Theorem X9_character_preset_stops_the_chain
    (uuid : string) (now : Z) (config : list BotPersonaConfig)
    (session : Session) (w : World) (botConfig : BotPersonaConfig) :
  BotManager.getBotConfig config
    (BotManager.getBotId (platform session) (Js.template (selfId_of session)))
  = Some botConfig ->
  enabled botConfig = true ->
  preset botConfig <> "" ->
  source (BotManager.parsePresetName (preset botConfig)) = Character ->
  let out := ChainInterceptor.charon_resolve_bot_room uuid now config session
               w in
  out = (fst (ChainInterceptor.configureCharacterPlugin session
                (name (BotManager.parsePresetName (preset botConfig))) w),
         Ok STOP)
  /\ database (fst out) = database w
  /\ options (fst out) = options w.
Proof.
  intros Hcfg Hen Hp Hsrc out.
  assert (E : out
              = (fst (ChainInterceptor.configureCharacterPlugin session
                        (name (BotManager.parsePresetName (preset botConfig)))
                        w), Ok STOP)).
  { subst out. unfold ChainInterceptor.charon_resolve_bot_room.
    rewrite Hcfg, Hen. simpl.
    apply truthy_true_iff in Hp. rewrite Hp. simpl. rewrite Hsrc.
    unfold bind, ret.
    now destruct (ChainInterceptor.configureCharacterPlugin session _ w)
      as [w' [[]|e]] eqn:Ec;
      unfold ChainInterceptor.configureCharacterPlugin, modify in Ec;
      inversion Ec. }
  rewrite E. simpl. split; [reflexivity|].
  apply configureCharacterPlugin_frame.
Qed.

Lemma X9_witness :
  let out := ChainInterceptor.charon_resolve_bot_room "UUID" 100
               [Examples.alice] Scenario.grouped Examples.with_character in
  out = (fst (ChainInterceptor.configureCharacterPlugin Scenario.grouped
                (name (BotManager.parsePresetName (preset Examples.alice)))
                Examples.with_character),
         Ok STOP)
  /\ database (fst out) = database Examples.with_character
  /\ options (fst out) = options Examples.with_character.
Proof.
  apply (X9_character_preset_stops_the_chain "UUID" 100 [Examples.alice]
           Scenario.grouped Examples.with_character Examples.alice);
    try reflexivity.
  discriminate.
Defined.

Lemma findBotSpecificRoom_spec (n id : string) (db : Database) :
  exists found,
    ChainInterceptor.findBotSpecificRoom n id db = (db, Ok found)
    /\ forall r, found = Some r ->
         In r (chathub_room db)
         /\ roomName r = n
         /\ Js.includes ("(" ++ id ++ ")") (roomName r) = true.
Proof.
  unfold ChainInterceptor.findBotSpecificRoom. run_eff.
  destruct (filter (fun r => String.eqb (roomName r) n) (chathub_room db))
    as [|r rs] eqn:Hf; simpl.
  - exists None. split; [reflexivity|discriminate].
  - assert (Hin : In r (filter (fun r => String.eqb (roomName r) n)
                          (chathub_room db))) by (rewrite Hf; now left).
    apply filter_In in Hin. destruct Hin as [Hin Hn].
    apply String.eqb_eq in Hn.
    destruct (Js.includes (ChainInterceptor.name_marker id) (roomName r))
      eqn:Hm.
    + exists (Some r). split; [reflexivity|].
      intros x Hx. inversion Hx; subst x. auto.
    + exists None. split; [reflexivity|discriminate].
Qed.

(** X10.  When the message names its target room, the pre-hook never
    writes to the store and never raises; the bound room is left as it
    was, or becomes a room of the table that has exactly that name and
    carries the marker [(<botId>)] in it. *)
Theorem X10_named_target_room_is_looked_up_only
    (uuid : string) (now : Z) (config : list BotPersonaConfig)
    (session : Session) (w : World) (target : string) :
  room_resolve_name (options w) = Some target ->
  target <> "" ->
  let id := BotManager.getBotId (platform session)
              (Js.template (selfId_of session)) in
  let out := ChainInterceptor.charon_resolve_bot_room uuid now config session
               w in
  database (fst out) = database w
  /\ (snd out = Ok CONTINUE \/ snd out = Ok STOP)
  /\ (room (options (fst out)) = room (options w)
      \/ exists r, room (options (fst out)) = Some r
                   /\ In r (chathub_room (database w))
                   /\ roomName r = target
                   /\ Js.includes ("(" ++ id ++ ")") (roomName r) = true).
Proof.
  intros Htarget Hne id out. subst out.
  unfold ChainInterceptor.charon_resolve_bot_room. fold id.
  destruct (BotManager.getBotConfig config id) as [bc|]; simpl; [|auto].
  destruct (enabled bc); simpl; [|auto].
  destruct (negb (Js.truthy (preset bc)) && negb (Js.truthy (model bc)));
    simpl; [auto|].
  assert (Hrest : forall presetName,
    let out :=
      bind (set_option_charonBotConfig
              (mkCharonBotConfig id presetName (model bc)
                 (Js.or_else (chatMode bc) "chat")))
        (fun _ =>
           bind (gets options)
             (fun opts =>
                if Js.truthy_opt (room_resolve_name opts)
                then bind (on_database
                             (ChainInterceptor.findBotSpecificRoom
                                (Js.template (room_resolve_name opts)) id))
                       (fun botSpecificRoom =>
                          bind match botSpecificRoom with
                               | Some r => set_option_room r
                               | None => ret tt
                               end
                            (fun _ => ret CONTINUE))
                else bind (on_database
                             (ChainInterceptor.getOrCreateBotSpecificRoom
                                uuid now session id bc))
                       (fun botRoom =>
                          bind (set_option_room botRoom)
                            (fun _ => ret CONTINUE)))) w in
    database (fst out) = database w
    /\ (snd out = Ok CONTINUE \/ snd out = Ok STOP)
    /\ (room (options (fst out)) = room (options w)
        \/ exists r, room (options (fst out)) = Some r
                     /\ In r (chathub_room (database w))
                     /\ roomName r = target
                     /\ Js.includes ("(" ++ id ++ ")") (roomName r) = true)).
  { intros presetName out. subst out.
    unfold set_option_room, set_option_charonBotConfig, bind, modify, gets,
      on_database, ret.
    cbn -[ChainInterceptor.findBotSpecificRoom]. rewrite Htarget.
    cbn -[ChainInterceptor.findBotSpecificRoom].
    apply truthy_true_iff in Hne. rewrite Hne.
    cbn [database options].
    destruct (findBotSpecificRoom_spec target id (database w))
      as (found & -> & Hfound).
    destruct found as [r|]; simpl.
    - split; [reflexivity|]. split; [now left|]. right. exists r.
      split; [reflexivity|]. now apply Hfound.
    - split; [reflexivity|]. split; [now left|]. now left. }
  destruct (Js.truthy (preset bc)); simpl; [|apply Hrest].
  destruct (source (BotManager.parsePresetName (preset bc)));
    [apply Hrest|].
  unfold bind, ret.
  pose proof (configureCharacterPlugin_frame session
                (name (BotManager.parsePresetName (preset bc))) w)
    as [Hdb Hopt].
  destruct (ChainInterceptor.configureCharacterPlugin session _ w)
    as [w' [[]|e]] eqn:Ec; simpl in *.
  - rewrite Hdb, Hopt. auto.
  - unfold ChainInterceptor.configureCharacterPlugin, modify in Ec.
    inversion Ec.
Qed.

Lemma X10_witness :
  let w := mkWorld Scenario.named_db (mkOptions None None (Some "lobby"))
             None in
  let out := ChainInterceptor.charon_resolve_bot_room "UUID" 100
               Scenario.config Scenario.direct w in
  database (fst out) = database w
  /\ (snd out = Ok CONTINUE \/ snd out = Ok STOP)
  /\ (room (options (fst out)) = room (options w)
      \/ exists r, room (options (fst out)) = Some r
                   /\ In r (chathub_room (database w))
                   /\ roomName r = "lobby"
                   /\ Js.includes
                        ("(" ++ BotManager.getBotId "disc" "42" ++ ")")
                        (roomName r) = true).
Proof.
  apply (X10_named_target_room_is_looked_up_only "UUID" 100 Scenario.config
           Scenario.direct
           (mkWorld Scenario.named_db (mkOptions None None (Some "lobby"))
              None)
           "lobby"); [reflexivity|discriminate].
Defined.

(** ** What find-or-create writes, and running it again *)

Lemma includes_suffix (sub a : string) : Js.includes sub (a ++ sub) = true.
Proof.
  induction a as [|c a IH]; simpl.
  - destruct sub as [|x sub]; [reflexivity|]. simpl.
    destruct (ascii_dec x x) as [_|Hx]; [|now elim Hx].
    assert (H : String.prefix sub sub = true).
    { rewrite <- (prefix_app sub "") at 1. f_equal.
      clear. induction sub as [|y s IH]; simpl; congruence. }
    now rewrite H.
  - rewrite IH. apply orb_true_r.
Qed.

Lemma botRoomOptions_name_marked (session : Session) (id : string)
    (botConfig : BotPersonaConfig) :
  Js.includes (ChainInterceptor.name_marker id)
    (opt_roomName (ChainInterceptor.botRoomOptions session id botConfig))
  = true.
Proof.
  unfold ChainInterceptor.botRoomOptions. cbn [opt_roomName].
  destruct (ChainInterceptor.isDirect session);
    rewrite <- append_assoc; apply includes_suffix.
Qed.

Lemma botRoomOptions_scope (session : Session) (id : string)
    (botConfig : BotPersonaConfig) :
  let o := ChainInterceptor.botRoomOptions session id botConfig in
  Js.truthy_opt (opt_guildId o)
  && negb (String.eqb (opt_visibility o) "private")
  = negb (ChainInterceptor.isDirect session).
Proof.
  unfold ChainInterceptor.botRoomOptions, ChainInterceptor.isDirect. simpl.
  now destruct (Js.truthy_opt (guildId session)).
Qed.

(** The rows a successful [createBotSpecificRoom] leaves in the store. *)
Lemma createBotSpecificRoom_ok (uuid : string) (now : Z) (session : Session)
    (id : string) (botConfig : BotPersonaConfig) (db db1 : Database)
    (r : Room) :
  ChainInterceptor.createBotSpecificRoom uuid now session id botConfig db
  = (db1, Ok r) ->
  let n := newRoomId_of db in
  let m := mkRoomMember (userId session) n (Some "owner") in
  let g := mkRoomGroupMember (Js.template (guildId session)) n
             (Some "template_clone") in
  r = newRoom uuid now n
        (ChainInterceptor.botRoomOptions session id botConfig)
  /\ chathub_room db1 = (chathub_room db ++ [r])%list
  /\ chathub_room_member db1 = (chathub_room_member db ++ [m])%list
  /\ existsb (Store.same_member m) (chathub_room_member db) = false
  /\ (ChainInterceptor.isDirect session = true ->
      chathub_room_group_member db1 = chathub_room_group_member db)
  /\ (ChainInterceptor.isDirect session = false ->
      chathub_room_group_member db1
      = (chathub_room_group_member db ++ [g])%list
      /\ existsb (Store.same_group_member g) (chathub_room_group_member db)
         = false).
Proof.
  intros H n m g. rewrite createBotSpecificRoom_unfold in H.
  pose proof (createRoom_cases uuid now
                (ChainInterceptor.botRoomOptions session id botConfig) db)
    as Hc.
  cbv zeta in Hc. rewrite botRoomOptions_scope in Hc.
  change (opt_roomMasterId
            (ChainInterceptor.botRoomOptions session id botConfig))
    with (userId session) in Hc.
  change (opt_guildId (ChainInterceptor.botRoomOptions session id botConfig))
    with (guildId session) in Hc.
  fold n in Hc. fold m in Hc.
  destruct (existsb (Store.same_room _) (chathub_room db)).
  { rewrite Hc in H. discriminate. }
  destruct (existsb (Store.same_member m) (chathub_room_member db)) eqn:Em.
  { rewrite Hc in H. discriminate. }
  destruct (ChainInterceptor.isDirect session) eqn:Hd; cbn [negb] in Hc.
  - rewrite Hc in H. inversion H; subst db1 r. clear H.
    rewrite !create_user_rooms.
    assert (Hu : forall u d, chathub_room_member (fst (Store.create_user u d))
                             = chathub_room_member d
                             /\ chathub_room_group_member
                                  (fst (Store.create_user u d))
                                = chathub_room_group_member d).
    { intros u d. unfold Store.create_user.
      now destruct (existsb _ (chathub_user d)). }
    rewrite (proj1 (Hu _ _)), (proj2 (Hu _ _)). simpl.
    repeat split; auto; discriminate.
  - assert (Hv : opt_visibility
                   (ChainInterceptor.botRoomOptions session id botConfig)
                 = "template_clone").
    { unfold ChainInterceptor.botRoomOptions. simpl. now rewrite Hd. }
    rewrite Hv in Hc. fold g in Hc.
    destruct (existsb (Store.same_group_member g)
                (chathub_room_group_member db)) eqn:Eg.
    { rewrite Hc in H. discriminate. }
    rewrite Hc in H. inversion H; subst db1 r. clear H.
    rewrite !create_user_rooms.
    assert (Hu : forall u d, chathub_room_member (fst (Store.create_user u d))
                             = chathub_room_member d
                             /\ chathub_room_group_member
                                  (fst (Store.create_user u d))
                                = chathub_room_group_member d).
    { intros u d. unfold Store.create_user.
      now destruct (existsb _ (chathub_user d)). }
    rewrite (proj1 (Hu _ _)), (proj2 (Hu _ _)). simpl.
    repeat split; auto; discriminate.
Qed.

Lemma first_match_None (tests : list (Room -> bool)) (rows : list Room) :
  first_match tests rows = None ->
  forall test y, In test tests -> In y rows -> test y = false.
Proof.
  induction tests as [|t tests IH]; simpl; intros H test y Ht Hy; [easy|].
  destruct (find t rows) as [x|] eqn:Hf; [discriminate|].
  destruct Ht as [<-|Ht].
  - now apply (find_none _ _ Hf).
  - now apply IH.
Qed.

Lemma first_match_new_row (tests : list (Room -> bool)) (rows : list Room)
    (r : Room) :
  (forall test y, In test tests -> In y rows -> test y = false) ->
  first_match tests (rows ++ [r]) = first_match tests [r].
Proof.
  induction tests as [|t tests IH]; simpl; intros H; [reflexivity|].
  rewrite find_skip by (intros y Hy; apply H; auto).
  simpl. rewrite IH; [reflexivity|].
  intros test y Ht Hy. apply H; auto.
Qed.

Lemma existsb_snoc_other (l : list Z) (n x : Z) :
  x <> n -> existsb (Z.eqb x) (l ++ [n]) = existsb (Z.eqb x) l.
Proof.
  intros Hne. rewrite existsb_app. simpl.
  apply Z.eqb_neq in Hne. rewrite Hne. now rewrite !orb_false_r.
Qed.

Lemma existsb_snoc_same (l : list Z) (n : Z) :
  existsb (Z.eqb n) (l ++ [n]) = true.
Proof.
  rewrite existsb_app. simpl. rewrite Z.eqb_refl.
  now rewrite orb_true_r.
Qed.

Lemma createBotSpecificRoom_ok_fresh (uuid : string) (now : Z)
    (session : Session) (id : string) (botConfig : BotPersonaConfig)
    (db db1 : Database) (r : Room) :
  ChainInterceptor.createBotSpecificRoom uuid now session id botConfig db
  = (db1, Ok r) ->
  forall y, In y (chathub_room db) -> roomId y <> newRoomId_of db.
Proof.
  rewrite createBotSpecificRoom_unfold.
  destruct (createRoom uuid now _ db) as [db0 [r0|e]] eqn:Hc;
    [|discriminate].
  intros _. exact (createRoom_ok_fresh uuid now _ db db0 r0 Hc).
Qed.

(** The tests of the second find phase agree with the tests of the first
    on a row on which member rooms and group rooms agree. *)
Lemma selection_tests_false (session : Session) (ids0 ids1 : list Z)
    (keep0 keep1 : Room -> bool) (y : Room) :
  keep1 y = keep0 y ->
  existsb (Z.eqb (roomId y)) ids1 = existsb (Z.eqb (roomId y)) ids0 ->
  (forall test, In test (selection_tests session ids0 keep0) ->
                test y = false) ->
  forall test, In test (selection_tests session ids1 keep1) ->
               test y = false.
Proof.
  intros Hk Hg H0 test Hin. unfold selection_tests in *.
  destruct (negb (ChainInterceptor.isDirect session)); simpl in *.
  - destruct Hin as [<-|[<-|[]]]; rewrite Hk, Hg.
    + apply (H0 _ (or_introl eq_refl)).
    + apply (H0 _ (or_intror (or_introl eq_refl))).
  - destruct Hin as [<-|[<-|[<-|[]]]]; rewrite Hk.
    + apply (H0 _ (or_introl eq_refl)).
    + apply (H0 _ (or_intror (or_introl eq_refl))).
    + apply (H0 _ (or_intror (or_intror (or_introl eq_refl)))).
Qed.

Lemma getOrCreateBotSpecificRoom_again
    (uuid uuid' : string) (now now' : Z) (session : Session) (id : string)
    (botConfig : BotPersonaConfig) (db db1 : Database) (r : Room) :
  ChainInterceptor.getOrCreateBotSpecificRoom uuid now session id botConfig
    db = (db1, Ok r) ->
  ChainInterceptor.getOrCreateBotSpecificRoom uuid' now' session id botConfig
    db1 = (db1, Ok r).
Proof.
  intros H. rewrite getOrCreateBotSpecificRoom_unfold in H.
  destruct (existingRoom session id db) as [x|] eqn:Hex.
  { inversion H; subst db1 x.
    now rewrite getOrCreateBotSpecificRoom_unfold, Hex. }
  pose proof (createBotSpecificRoom_ok_fresh uuid now session id botConfig
                db db1 r H) as Hbelow.
  apply createBotSpecificRoom_ok in H.
  destruct H as (Hr & Hrooms & Hmembers & Hfresh_m & Hdirect & Hgroup).
  set (n := newRoomId_of db) in *.
  assert (Hmids : memberRoomIds session db1
                  = (memberRoomIds session db ++ [n])%list).
  { unfold memberRoomIds. rewrite Hmembers, filter_app, map_app. simpl.
    now rewrite String.eqb_refl. }
  assert (Hrid : roomId r = n) by now rewrite Hr.
  assert (Hfound : existingRoom session id db1 = Some r).
  { rewrite existingRoom_first_match in *. rewrite Hrooms.
    rewrite first_match_new_row.
    - (* the new room passes the first test *)
      assert (Hkeep : existsb (Z.eqb (roomId r)) (memberRoomIds session db1)
                      && Js.includes (ChainInterceptor.name_marker id)
                           (roomName r) = true).
      { rewrite Hmids, Hrid, existsb_snoc_same. simpl.
        rewrite Hr. apply botRoomOptions_name_marked. }
      unfold selection_tests.
      destruct (ChainInterceptor.isDirect session) eqn:Hd; simpl.
      + rewrite Hkeep. rewrite Hr at 1 2. simpl. rewrite Hd. simpl.
        now rewrite String.eqb_refl.
      + destruct (Hgroup eq_refl) as [Hgm _].
        assert (Hin : existsb (Z.eqb (roomId r)) (groupRoomIds_of session db1)
                      = true).
        { unfold groupRoomIds_of. rewrite Hgm, filter_app, map_app. simpl.
          rewrite String.eqb_refl, Hmids, existsb_snoc_same. simpl.
          rewrite Hrid. apply existsb_snoc_same. }
        rewrite Hkeep, Hin. rewrite Hr at 1. simpl. rewrite Hd. reflexivity.
    - (* no old row passes any test *)
      intros test y Htest Hy.
      pose proof (Hbelow y Hy) as Hold. fold n in Hold.
      revert test Htest.
      apply (selection_tests_false session
               (if negb (ChainInterceptor.isDirect session)
                then groupRoomIds_of session db else [])
               _
               (fun r0 => existsb (Z.eqb (roomId r0))
                            (memberRoomIds session db)
                          && Js.includes (ChainInterceptor.name_marker id)
                               (roomName r0))).
      + now rewrite Hmids, existsb_snoc_other.
      + destruct (ChainInterceptor.isDirect session) eqn:Hd; simpl;
          [reflexivity|].
        destruct (Hgroup eq_refl) as [Hgm Hfresh_g].
        unfold groupRoomIds_of. rewrite Hgm, filter_app, map_app. simpl.
        rewrite String.eqb_refl, Hmids, existsb_snoc_same. simpl.
        rewrite existsb_snoc_other by exact Hold.
        f_equal. f_equal. apply filter_ext_in.
        intros gm Hgm_in.
        destruct (String.eqb (group_groupId gm)
                    (Js.template (guildId session))) eqn:Eg; simpl;
          [|reflexivity].
        apply existsb_snoc_other. intros En.
        assert (Ht : existsb
                       (Store.same_group_member
                          (mkRoomGroupMember (Js.template (guildId session))
                             n (Some "template_clone")))
                       (chathub_room_group_member db) = true).
        { apply existsb_exists. exists gm. split; [exact Hgm_in|].
          unfold Store.same_group_member. simpl.
          rewrite String.eqb_sym, Eg, En. simpl. apply Z.eqb_refl. }
        congruence.
      + intros test Htest. now apply (first_match_None _ _ Hex). }
  now rewrite getOrCreateBotSpecificRoom_unfold, Hfound.
Qed.

(** X11.  Find-or-create finds what it created: when it has returned a
    room, running it again on the store it left (with any new uuid and
    clock) returns the same room and leaves the store as it is, so no
    second room is created for the same user, bot and scope. *)
Theorem X11_find_or_create_finds_what_it_created
    (uuid uuid' : string) (now now' : Z) (session : Session) (id : string)
    (botConfig : BotPersonaConfig) (db db1 : Database) (r : Room) :
  ChainInterceptor.getOrCreateBotSpecificRoom uuid now session id botConfig
    db = (db1, Ok r) ->
  ChainInterceptor.getOrCreateBotSpecificRoom uuid' now' session id botConfig
    db1 = (db1, Ok r).
Proof. apply getOrCreateBotSpecificRoom_again. Qed.

Lemma X11_witness :
  ChainInterceptor.getOrCreateBotSpecificRoom "UUID2" 300 Scenario.grouped
    "disc:42" Scenario.helper
    (fst (ChainInterceptor.getOrCreateBotSpecificRoom "UUID" 100
            Scenario.grouped "disc:42" Scenario.helper Scenario.named_db))
  = (fst (ChainInterceptor.getOrCreateBotSpecificRoom "UUID" 100
            Scenario.grouped "disc:42" Scenario.helper Scenario.named_db),
     Ok (mkRoom 4 "Guild (disc:42)" "bot_disc:42_UUID" (Some "helper")
           (Some "vendorA/modelX") (Some "chat") (Some "template_clone") 100
           (Some "u1") (Some false) (Some ""))).
Proof.
  apply (X11_find_or_create_finds_what_it_created "UUID" "UUID2" 100 300
           Scenario.grouped "disc:42" Scenario.helper Scenario.named_db).
  reflexivity.
Defined.

(** ** The pre-hook, path by path *)

Section PreHook.

Variables (uuid : string) (now : Z) (config : list BotPersonaConfig).
Variables (session : Session) (w : World).

Let id : string :=
  BotManager.getBotId (platform session) (Js.template (selfId_of session)).

Local Abbreviation pre_hook :=
  (ChainInterceptor.charon_resolve_bot_room uuid now config session).

Lemma pre_hook_left_alone :
  interception (BotManager.getBotConfig config id) = LeftAlone ->
  pre_hook w = (w, Ok CONTINUE).
Proof.
  unfold ChainInterceptor.charon_resolve_bot_room, interception. fold id.
  destruct (BotManager.getBotConfig config id) as [bc|]; [|reflexivity].
  destruct (negb (enabled bc)); [reflexivity|].
  destruct (negb (Js.truthy (preset bc)) && negb (Js.truthy (model bc)));
    [reflexivity|].
  destruct (Js.truthy (preset bc)); [|discriminate].
  destruct (source (BotManager.parsePresetName (preset bc))); discriminate.
Qed.

Lemma pre_hook_character (presetName : string) :
  interception (BotManager.getBotConfig config id)
  = HandedToCharacter presetName ->
  pre_hook w
  = (fst (ChainInterceptor.configureCharacterPlugin session presetName w),
     Ok STOP).
Proof.
  unfold ChainInterceptor.charon_resolve_bot_room, interception. fold id.
  destruct (BotManager.getBotConfig config id) as [bc|]; [|discriminate].
  destruct (negb (enabled bc)); [discriminate|].
  destruct (negb (Js.truthy (preset bc)) && negb (Js.truthy (model bc)));
    [discriminate|].
  destruct (Js.truthy (preset bc)); [|discriminate]. simpl.
  destruct (source (BotManager.parsePresetName (preset bc)));
    [discriminate|].
  intros E. inversion E; subst presetName. reflexivity.
Qed.

Lemma pre_hook_resolved (botConfig : BotPersonaConfig) :
  BotManager.getBotConfig config id = Some botConfig ->
  interception (Some botConfig) = Resolved ->
  let stashed := with_stash (stash_of id botConfig) (options w) in
  pre_hook w
  = if Js.truthy_opt (room_resolve_name (options w))
    then match ChainInterceptor.findBotSpecificRoom
                 (Js.template (room_resolve_name (options w))) id
                 (database w) with
         | (db1, Ok (Some r)) =>
             (mkWorld db1 (with_room r stashed) (chatluna_character w),
              Ok CONTINUE)
         | (db1, Ok None) =>
             (mkWorld db1 stashed (chatluna_character w), Ok CONTINUE)
         | (db1, Throw e) =>
             (mkWorld db1 stashed (chatluna_character w), Throw e)
         end
    else match ChainInterceptor.getOrCreateBotSpecificRoom uuid now session
                 id botConfig (database w) with
         | (db1, Ok r) =>
             (mkWorld db1 (with_room r stashed) (chatluna_character w),
              Ok CONTINUE)
         | (db1, Throw e) =>
             (mkWorld db1 stashed (chatluna_character w), Throw e)
         end.
Proof.
  intros Hcfg Hint stashed.
  unfold ChainInterceptor.charon_resolve_bot_room. fold id. rewrite Hcfg.
  unfold interception in Hint.
  destruct (negb (enabled botConfig)); [discriminate|].
  destruct (negb (Js.truthy (preset botConfig))
            && negb (Js.truthy (model botConfig))); [discriminate|].
  assert (Hrest : forall presetName,
    presetName = stash_preset (stash_of id botConfig) ->
    bind (set_option_charonBotConfig
            (mkCharonBotConfig id presetName (model botConfig)
               (Js.or_else (chatMode botConfig) "chat")))
      (fun _ =>
         bind (gets options)
           (fun opts =>
              if Js.truthy_opt (room_resolve_name opts)
              then bind (on_database
                           (ChainInterceptor.findBotSpecificRoom
                              (Js.template (room_resolve_name opts)) id))
                     (fun botSpecificRoom =>
                        bind match botSpecificRoom with
                             | Some r => set_option_room r
                             | None => ret tt
                             end
                          (fun _ => ret CONTINUE))
              else bind (on_database
                           (ChainInterceptor.getOrCreateBotSpecificRoom
                              uuid now session id botConfig))
                     (fun botRoom =>
                        bind (set_option_room botRoom)
                          (fun _ => ret CONTINUE)))) w
    = if Js.truthy_opt (room_resolve_name (options w))
      then match ChainInterceptor.findBotSpecificRoom
                   (Js.template (room_resolve_name (options w))) id
                   (database w) with
           | (db1, Ok (Some r)) =>
               (mkWorld db1 (with_room r stashed) (chatluna_character w),
                Ok CONTINUE)
           | (db1, Ok None) =>
               (mkWorld db1 stashed (chatluna_character w), Ok CONTINUE)
           | (db1, Throw e) =>
               (mkWorld db1 stashed (chatluna_character w), Throw e)
           end
      else match ChainInterceptor.getOrCreateBotSpecificRoom uuid now session
                   id botConfig (database w) with
           | (db1, Ok r) =>
               (mkWorld db1 (with_room r stashed) (chatluna_character w),
                Ok CONTINUE)
           | (db1, Throw e) =>
               (mkWorld db1 stashed (chatluna_character w), Throw e)
           end).
  { intros presetName ->.
    unfold set_option_room, set_option_charonBotConfig, bind, modify, gets,
      on_database, ret.
    cbn -[ChainInterceptor.findBotSpecificRoom
          ChainInterceptor.getOrCreateBotSpecificRoom stash_of].
    cbn [database options room room_resolve_name chatluna_character].
    destruct (Js.truthy_opt (room_resolve_name (options w)));
      cbn beta;
      cbn [database options room room_resolve_name chatluna_character].
    - destruct (ChainInterceptor.findBotSpecificRoom _ id (database w))
        as [db1 [[r|]|e]]; reflexivity.
    - destruct (ChainInterceptor.getOrCreateBotSpecificRoom uuid now session
                  id botConfig (database w)) as [db1 [r|e]]; reflexivity. }
  destruct (Js.truthy (preset botConfig)) eqn:Hp; simpl.
  - destruct (source (BotManager.parsePresetName (preset botConfig)));
      [|discriminate].
    apply Hrest. unfold stash_of. simpl. now rewrite Hp.
  - apply Hrest. unfold stash_of. simpl. now rewrite Hp.
Qed.

End PreHook.

Lemma configureCharacterPlugin_twice (session : Session) (presetName : string)
    (w : World) :
  ChainInterceptor.configureCharacterPlugin session presetName
    (fst (ChainInterceptor.configureCharacterPlugin session presetName w))
  = (fst (ChainInterceptor.configureCharacterPlugin session presetName w),
     Ok tt).
Proof.
  unfold ChainInterceptor.configureCharacterPlugin, modify. simpl.
  destruct (chatluna_character w) as [[[cc|]]|] eqn:Hc; simpl;
    rewrite ?Hc; try reflexivity.
  rewrite set_group_preset_twice.
  set (g := Js.or_else (guildId session)
              (Js.or_else (channelId session) "private")).
  set (groups := match applyGroup cc with Some l => l | None => [] end).
  destruct (existsb (String.eqb g) groups) eqn:E.
  - now rewrite E.
  - rewrite existsb_app. simpl. rewrite String.eqb_refl.
    now rewrite orb_true_r.
Qed.

Lemma findBotSpecificRoom_pure (n id : string) (db : Database) :
  exists found, ChainInterceptor.findBotSpecificRoom n id db = (db, Ok found).
Proof.
  destruct (findBotSpecificRoom_spec n id db) as (found & H & _).
  now exists found.
Qed.

(** X12.  The pre-hook is idempotent: when it has returned normally,
    running it again on the world it left (same registry and message, any
    new uuid and clock) returns the same status and leaves that world as
    it is; in particular it binds the same room and creates no second
    one. *)
Theorem X12_pre_hook_is_idempotent
    (uuid uuid' : string) (now now' : Z) (config : list BotPersonaConfig)
    (session : Session) (w w1 : World) (status : ChainMiddlewareRunStatus) :
  ChainInterceptor.charon_resolve_bot_room uuid now config session w
  = (w1, Ok status) ->
  ChainInterceptor.charon_resolve_bot_room uuid' now' config session w1
  = (w1, Ok status).
Proof.
  set (id := BotManager.getBotId (platform session)
               (Js.template (selfId_of session))).
  destruct (interception (BotManager.getBotConfig config id)) as [|p|]
    eqn:Hint.
  - rewrite (pre_hook_left_alone uuid now config session w Hint).
    intros E. inversion E; subst.
    exact (pre_hook_left_alone uuid' now' config session w1 Hint).
  - rewrite (pre_hook_character uuid now config session w p Hint).
    intros E. apply pair_equal_spec in E. destruct E as [<- E].
    injection E as <-.
    rewrite (pre_hook_character uuid' now' config session _ p Hint).
    now rewrite configureCharacterPlugin_twice.
  - destruct (BotManager.getBotConfig config id) as [bc|] eqn:Hcfg;
      [|discriminate].
    rewrite (pre_hook_resolved uuid now config session w bc Hcfg Hint).
    cbv zeta. intros E.
    rewrite (pre_hook_resolved uuid' now' config session w1 bc Hcfg Hint).
    cbv zeta.
    destruct (Js.truthy_opt (room_resolve_name (options w))) eqn:Hname.
    + destruct (findBotSpecificRoom_pure
                  (Js.template (room_resolve_name (options w))) id
                  (database w)) as (found & Hf).
      fold id in E. rewrite Hf in E.
      destruct found as [r|]; inversion E; subst w1 status; clear E;
        simpl; rewrite Hname; fold id; rewrite Hf; reflexivity.
    + fold id in E.
      destruct (ChainInterceptor.getOrCreateBotSpecificRoom uuid now session
                  id bc (database w)) as [db1 [r|e]] eqn:Hg;
        [|discriminate].
      inversion E; subst w1 status; clear E. simpl. rewrite Hname.
      fold id.
      now rewrite (getOrCreateBotSpecificRoom_again uuid uuid' now now'
                     session id bc (database w) db1 r Hg).
Qed.

Lemma X12_witness :
  let first := ChainInterceptor.charon_resolve_bot_room "UUID" 100
                 Scenario.config Scenario.direct Scenario.fresh in
  ChainInterceptor.charon_resolve_bot_room "UUID2" 300 Scenario.config
    Scenario.direct (fst first)
  = (fst first, Ok CONTINUE).
Proof.
  apply (X12_pre_hook_is_idempotent "UUID" "UUID2" 100 300 Scenario.config
           Scenario.direct Scenario.fresh).
  reflexivity.
Defined.

(** ** Pre-hook and post-hook together *)

Lemma or_else_chat_truthy (o : option string) :
  Js.truthy (Js.or_else o "chat") = true.
Proof. destruct o as [s|]; simpl; [|reflexivity]. now destruct (Js.truthy s) eqn:E. Qed.

Lemma or_else_same (s : string) : Js.or_else (Some s) "" = s.
Proof. now destruct s. Qed.

(** A room made for a configuration already carries the persona stashed
    for that configuration. *)
Lemma fixedRoom_of_new_room (uuid : string) (now n : Z) (session : Session)
    (id : string) (botConfig : BotPersonaConfig) :
  let r := newRoom uuid now n
             (ChainInterceptor.botRoomOptions session id botConfig) in
  ChainInterceptor.fixedRoom (stash_of id botConfig) r = (r, false).
Proof.
  intros r. unfold ChainInterceptor.fixedRoom, stash_of. subst r.
  cbn [stash_preset stash_model stash_chatMode room_preset room_model
       room_chatMode newRoom ChainInterceptor.botRoomOptions opt_preset
       opt_model opt_chatMode].
  rewrite or_else_same.
  assert (Hc : Js.or_else (Some (Js.or_else (chatMode botConfig) "chat"))
                 "chat" = Js.or_else (chatMode botConfig) "chat").
  { simpl. now rewrite or_else_chat_truthy. }
  rewrite Hc, !opt_eqb_refl. simpl. now rewrite !andb_false_r.
Qed.

(** X13.  A room the pre-hook has just created needs no repair: the
    post-hook that follows, with the same registry, returns [CONTINUE] and
    leaves the world as the pre-hook left it, without any store write. *)
Theorem X13_a_fresh_room_needs_no_repair
    (uuid uuid' : string) (now now' fixTime : Z)
    (config : list BotPersonaConfig) (session : Session) (w w1 : World)
    (status : ChainMiddlewareRunStatus) (botConfig : BotPersonaConfig) :
  let id := BotManager.getBotId (platform session)
              (Js.template (selfId_of session)) in
  BotManager.getBotConfig config id = Some botConfig ->
  interception (Some botConfig) = Resolved ->
  Js.truthy_opt (room_resolve_name (options w)) = false ->
  existingRoom session id (database w) = None ->
  ChainInterceptor.charon_resolve_bot_room uuid now config session w
  = (w1, Ok status) ->
  ChainInterceptor.charon_fix_room_auto_update uuid' now' config fixTime
    session w1 = (w1, Ok CONTINUE).
Proof.
  intros id Hcfg Hint Hname Hnone.
  rewrite (pre_hook_resolved uuid now config session w botConfig Hcfg Hint).
  cbv zeta. rewrite Hname. fold id.
  destruct (ChainInterceptor.getOrCreateBotSpecificRoom uuid now session id
              botConfig (database w)) as [db1 [r|e]] eqn:Hg; [|discriminate].
  intros E. inversion E; subst w1 status; clear E.
  pose proof (created_room_is_own uuid now session id botConfig (database w)
                db1 r Hnone Hg) as Hown.
  rewrite getOrCreateBotSpecificRoom_unfold, Hnone in Hg.
  apply createBotSpecificRoom_ok in Hg. destruct Hg as (Hr & _).
  rewrite (post_hook_stays uuid' now' config fixTime session _
             (stash_of id botConfig) r); try reflexivity.
  - rewrite repaired_settled; [reflexivity|reflexivity|].
    rewrite Hr. apply fixedRoom_of_new_room.
  - now left.
Qed.

Lemma X13_witness :
  ChainInterceptor.charon_fix_room_auto_update "UUID2" 300 Scenario.config
    200 Scenario.direct
    (fst (ChainInterceptor.charon_resolve_bot_room "UUID" 100 Scenario.config
            Scenario.direct Scenario.fresh))
  = (fst (ChainInterceptor.charon_resolve_bot_room "UUID" 100 Scenario.config
            Scenario.direct Scenario.fresh), Ok CONTINUE).
Proof.
  apply (X13_a_fresh_room_needs_no_repair "UUID" "UUID2" 100 300 200
           Scenario.config Scenario.direct Scenario.fresh _ CONTINUE
           Scenario.helper); reflexivity.
Defined.

(** X14.  The declared persona reaches the bound room whatever the host
    does in between: after a pre-hook that resolved the message and a
    post-hook that returned normally on any world that still carries the
    stash and has some room bound, the bound room has the declared preset
    name (when the declaration gives a non-empty one), the declared model
    (when it is not empty) and the declared chat mode ([chat] when none is
    declared). *)
Theorem X14_the_declared_persona_reaches_the_bound_room
    (uuid uuid' : string) (now now' fixTime : Z)
    (config config' : list BotPersonaConfig) (session session' : Session)
    (w w1 w2 w3 : World) (status status' : ChainMiddlewareRunStatus)
    (botConfig : BotPersonaConfig) (bound : Room) :
  let id := BotManager.getBotId (platform session)
              (Js.template (selfId_of session)) in
  BotManager.getBotConfig config id = Some botConfig ->
  interception (Some botConfig) = Resolved ->
  ChainInterceptor.charon_resolve_bot_room uuid now config session w
  = (w1, Ok status) ->
  charonBotConfig (options w2) = charonBotConfig (options w1) ->
  room (options w2) = Some bound ->
  ChainInterceptor.charon_fix_room_auto_update uuid' now' config' fixTime
    session' w2 = (w3, Ok status') ->
  exists final,
    room (options w3) = Some final
    /\ (name (BotManager.parsePresetName (preset botConfig)) <> "" ->
        preset botConfig <> "" ->
        room_preset final
        = Some (name (BotManager.parsePresetName (preset botConfig))))
    /\ (model botConfig <> "" -> room_model final = Some (model botConfig))
    /\ room_chatMode final = Some (Js.or_else (chatMode botConfig) "chat").
Proof.
  intros id Hcfg Hint Hpre Hkeep Hbound Hpost.
  assert (Hstash : charonBotConfig (options w1)
                   = Some (stash_of id botConfig)).
  { rewrite (pre_hook_resolved uuid now config session w botConfig Hcfg Hint)
      in Hpre. cbv zeta in Hpre. fold id in Hpre.
    destruct (Js.truthy_opt (room_resolve_name (options w))).
    - destruct (ChainInterceptor.findBotSpecificRoom _ id (database w))
        as [db1 [[r|]|e]]; inversion Hpre; reflexivity.
    - destruct (ChainInterceptor.getOrCreateBotSpecificRoom uuid now session
                  id botConfig (database w)) as [db1 [r|e]];
        inversion Hpre; reflexivity. }
  rewrite Hstash in Hkeep.
  assert (Hfinal : exists cur,
             room (options w3)
             = Some (final_room fixTime (stash_of id botConfig) cur)).
  { set (stash := stash_of id botConfig) in *.
    destruct (ChainInterceptor.isRoomForBot (stash_botId stash) bound)
      eqn:Hown.
    - rewrite (post_hook_stays uuid' now' config' fixTime session' w2 stash
                 bound) in Hpost by auto.
      inversion Hpost; subst. exists bound. apply repaired_room.
    - destruct (BotManager.getBotConfig config' (stash_botId stash))
        as [bc|] eqn:Hc.
      + rewrite (post_hook_rebinds uuid' now' config' fixTime session' w2
                   stash bound bc) in Hpost by auto.
        destruct (ChainInterceptor.getOrCreateBotSpecificRoom uuid' now'
                    session' (stash_botId stash) bc (database w2))
          as [db1 [r|e]]; [|discriminate].
        inversion Hpost; subst. exists r. apply repaired_room.
      + rewrite (post_hook_stays uuid' now' config' fixTime session' w2 stash
                   bound) in Hpost by auto.
        inversion Hpost; subst. exists bound. apply repaired_room. }
  destruct Hfinal as (cur & Hfinal).
  exists (final_room fixTime (stash_of id botConfig) cur).
  split; [exact Hfinal|].
  destruct (final_room_fields fixTime (stash_of id botConfig) cur)
    as (Hp & Hm & Hc).
  split; [|split].
  - intros Hname Hdecl.
    apply truthy_true_iff in Hdecl. apply truthy_true_iff in Hname.
    assert (Es : stash_preset (stash_of id botConfig)
                 = name (BotManager.parsePresetName (preset botConfig))).
    { unfold stash_of. simpl. now rewrite Hdecl. }
    rewrite Hp, Es, Hname. simpl.
    destruct (Js.opt_eqb (room_preset cur)
                (Some (name (BotManager.parsePresetName (preset botConfig)))))
      eqn:E; simpl; [|reflexivity].
    now apply opt_eqb_eq in E.
  - intros Hmodel. apply truthy_true_iff in Hmodel.
    change (stash_model (stash_of id botConfig)) with (model botConfig) in Hm.
    rewrite Hm, Hmodel. simpl.
    destruct (Js.opt_eqb (room_model cur) (Some (model botConfig))) eqn:E;
      simpl; [|reflexivity].
    now apply opt_eqb_eq in E.
  - change (stash_chatMode (stash_of id botConfig))
      with (Js.or_else (chatMode botConfig) "chat") in Hc.
    rewrite Hc.
    destruct (Js.opt_eqb (room_chatMode cur)
                (Some (Js.or_else (chatMode botConfig) "chat"))) eqn:E;
      simpl; [|reflexivity].
    now apply opt_eqb_eq in E.
Qed.

Lemma X14_witness :
  exists final,
    room (options
            (fst (ChainInterceptor.charon_fix_room_auto_update "UUID2" 300
                    Scenario.config 200 Scenario.direct Scenario.drifted)))
    = Some final
    /\ (name (BotManager.parsePresetName (preset Scenario.helper)) <> "" ->
        preset Scenario.helper <> "" ->
        room_preset final
        = Some (name (BotManager.parsePresetName (preset Scenario.helper))))
    /\ (model Scenario.helper <> "" ->
        room_model final = Some (model Scenario.helper))
    /\ room_chatMode final
       = Some (Js.or_else (chatMode Scenario.helper) "chat").
Proof.
  apply (X14_the_declared_persona_reaches_the_bound_room "UUID" "UUID2" 100
           300 200 Scenario.config Scenario.config Scenario.direct
           Scenario.direct Scenario.fresh
           (fst (ChainInterceptor.charon_resolve_bot_room "UUID" 100
                   Scenario.config Scenario.direct Scenario.fresh))
           Scenario.drifted _ CONTINUE CONTINUE Scenario.helper
           Scenario.host_room); reflexivity.
Defined.

(** ** The bound room is a row of the room table *)

Lemma upsert_room_In (f : Room) (db : Database) :
  In f (chathub_room (fst (Store.upsert_room f db))).
Proof.
  unfold Store.upsert_room.
  destruct (existsb (Store.same_room f) (chathub_room db)) eqn:E; simpl.
  - apply existsb_exists in E. destruct E as (x & Hx & Hs).
    unfold Store.replace_room. apply in_map_iff. exists x.
    now rewrite Hs.
  - apply in_or_app. right. now left.
Qed.

Lemma getOrCreateBotSpecificRoom_keeps_rows (uuid : string) (now : Z)
    (session : Session) (id : string) (botConfig : BotPersonaConfig)
    (db : Database) (x : Room) :
  In x (chathub_room db) ->
  In x (chathub_room
          (fst (ChainInterceptor.getOrCreateBotSpecificRoom uuid now session
                  id botConfig db))).
Proof.
  intros Hx. rewrite getOrCreateBotSpecificRoom_unfold.
  destruct (existingRoom session id db); [exact Hx|].
  rewrite createBotSpecificRoom_rooms.
  destruct (createRoom_rooms uuid now
              (ChainInterceptor.botRoomOptions session id botConfig) db)
    as [-> | ->]; [exact Hx|].
  apply in_or_app. now left.
Qed.

Lemma getOrCreateBotSpecificRoom_returns_a_row (uuid : string) (now : Z)
    (session : Session) (id : string) (botConfig : BotPersonaConfig)
    (db db1 : Database) (r : Room) :
  ChainInterceptor.getOrCreateBotSpecificRoom uuid now session id botConfig
    db = (db1, Ok r) ->
  In r (chathub_room db1).
Proof.
  rewrite getOrCreateBotSpecificRoom_unfold.
  destruct (existingRoom session id db) as [x|] eqn:Hex.
  - intros E. inversion E; subst.
    rewrite existingRoom_first_match in Hex.
    now apply first_match_In in Hex.
  - intros E. apply createBotSpecificRoom_ok in E.
    destruct E as (_ & -> & _). apply in_or_app. right. now left.
Qed.

(** X15.  Both hooks keep the bound room a row of the room table: if the
    room bound in the message context (when there is one) is a row of
    [chathub_room] before a hook runs, so is the room bound after it,
    whether the hook returns or raises. *)
Theorem X15_the_bound_room_stays_a_row_of_the_table
    (uuid : string) (now fixTime : Z) (config : list BotPersonaConfig)
    (session : Session) (w : World) :
  (forall b, room (options w) = Some b -> In b (chathub_room (database w))) ->
  (forall b,
      room (options
              (fst (ChainInterceptor.charon_resolve_bot_room uuid now config
                      session w))) = Some b ->
      In b (chathub_room
              (database
                 (fst (ChainInterceptor.charon_resolve_bot_room uuid now
                         config session w)))))
  /\ (forall b,
         room (options
                 (fst (ChainInterceptor.charon_fix_room_auto_update uuid now
                         config fixTime session w))) = Some b ->
         In b (chathub_room
                 (database
                    (fst (ChainInterceptor.charon_fix_room_auto_update uuid
                            now config fixTime session w))))).
Proof.
  intros Hinv. split.
  - set (id := BotManager.getBotId (platform session)
                 (Js.template (selfId_of session))).
    destruct (interception (BotManager.getBotConfig config id)) as [|p|]
      eqn:Hint.
    + rewrite (pre_hook_left_alone uuid now config session w Hint).
      exact Hinv.
    + rewrite (pre_hook_character uuid now config session w p Hint).
      cbn [fst].
      destruct (configureCharacterPlugin_frame session p w) as [-> ->].
      exact Hinv.
    + destruct (BotManager.getBotConfig config id) as [bc|] eqn:Hcfg;
        [|discriminate].
      rewrite (pre_hook_resolved uuid now config session w bc Hcfg Hint).
      cbv zeta. fold id.
      destruct (Js.truthy_opt (room_resolve_name (options w))).
      * destruct (findBotSpecificRoom_spec
                    (Js.template (room_resolve_name (options w))) id
                    (database w)) as (found & -> & Hfound).
        destruct found as [r|]; simpl.
        -- intros b E. inversion E; subst b. now apply Hfound.
        -- exact Hinv.
      * pose proof (getOrCreateBotSpecificRoom_keeps_rows uuid now session id
                      bc (database w)) as Hkeep.
        pose proof (getOrCreateBotSpecificRoom_returns_a_row uuid now session
                      id bc (database w)) as Hret.
        destruct (ChainInterceptor.getOrCreateBotSpecificRoom uuid now
                    session id bc (database w)) as [db1 [r|e]]; simpl in *.
        -- intros b E. inversion E; subst b. now apply (Hret db1).
        -- intros b E. apply Hkeep. now apply Hinv.
  - assert (Hrep : forall stash cur db1,
               In cur (chathub_room db1) ->
               forall b,
                 room (options (repaired fixTime stash cur db1 w)) = Some b ->
                 In b (chathub_room
                         (database (repaired fixTime stash cur db1 w)))).
    { intros stash cur db1 Hcur b. unfold repaired.
      destruct (ChainInterceptor.fixedRoom stash cur) as [fixed [|]]; simpl;
        intros E; inversion E; subst b.
      - apply upsert_room_In.
      - exact Hcur. }
    destruct (charonBotConfig (options w)) as [stash|] eqn:Hs.
    2:{ rewrite post_hook_inert by auto. exact Hinv. }
    destruct (room (options w)) as [bound|] eqn:Hr.
    2:{ rewrite post_hook_inert by auto. cbn [fst]. rewrite Hr.
        discriminate. }
    destruct (ChainInterceptor.isRoomForBot (stash_botId stash) bound)
      eqn:Hown.
    { rewrite (post_hook_stays uuid now config fixTime session w stash bound)
        by auto. cbn [fst]. apply Hrep. now apply Hinv. }
    destruct (BotManager.getBotConfig config (stash_botId stash)) as [bc|]
      eqn:Hcfg.
    2:{ rewrite (post_hook_stays uuid now config fixTime session w stash
                   bound) by auto. cbn [fst]. apply Hrep. now apply Hinv. }
    rewrite (post_hook_rebinds uuid now config fixTime session w stash bound
               bc) by auto.
    pose proof (getOrCreateBotSpecificRoom_keeps_rows uuid now session
                  (stash_botId stash) bc (database w)) as Hkeep.
    pose proof (getOrCreateBotSpecificRoom_returns_a_row uuid now session
                  (stash_botId stash) bc (database w)) as Hret.
    destruct (ChainInterceptor.getOrCreateBotSpecificRoom uuid now session
                (stash_botId stash) bc (database w)) as [db1 [r|e]];
      cbn [fst] in *.
    + apply Hrep. now apply (Hret db1).
    + cbn [options database]. rewrite Hr. intros b E. inversion E; subst b. apply Hkeep.
      now apply Hinv.
Qed.

Lemma X15_witness :
  (forall b,
      room (options
              (fst (ChainInterceptor.charon_resolve_bot_room "UUID" 100
                      Scenario.config Scenario.direct Scenario.drifted)))
      = Some b ->
      In b (chathub_room
              (database
                 (fst (ChainInterceptor.charon_resolve_bot_room "UUID" 100
                         Scenario.config Scenario.direct
                         Scenario.drifted)))))
  /\ (forall b,
         room (options
                 (fst (ChainInterceptor.charon_fix_room_auto_update "UUID"
                         100 Scenario.config 200 Scenario.direct
                         Scenario.drifted)))
         = Some b ->
         In b (chathub_room
                 (database
                    (fst (ChainInterceptor.charon_fix_room_auto_update
                            "UUID" 100 Scenario.config 200 Scenario.direct
                            Scenario.drifted))))).
Proof.
  apply (X15_the_bound_room_stays_a_row_of_the_table "UUID" 100 200
           Scenario.config Scenario.direct Scenario.drifted).
  intros b E. inversion E. left. reflexivity.
Defined.

(** ** Room ids *)

Lemma replace_room_ids (f : Room) (rows : list Room) :
  map roomId (Store.replace_room f rows) = map roomId rows.
Proof.
  unfold Store.replace_room. rewrite map_map. apply map_ext.
  intros x. unfold Store.same_room.
  destruct (roomId f =? roomId x) eqn:E; [|reflexivity].
  now apply Z.eqb_eq in E.
Qed.

Lemma upsert_room_ids (f : Room) (db : Database) :
  NoDup (map roomId (chathub_room db)) ->
  NoDup (map roomId (chathub_room (fst (Store.upsert_room f db)))).
Proof.
  intros Hnd. unfold Store.upsert_room.
  destruct (existsb (Store.same_room f) (chathub_room db)) eqn:E; simpl.
  - now rewrite replace_room_ids.
  - rewrite map_app. simpl. apply NoDup_snoc; [exact Hnd|].
    intros Hin. apply in_map_iff in Hin. destruct Hin as (x & Hx & Hin).
    assert (existsb (Store.same_room f) (chathub_room db) = true).
    { apply existsb_exists. exists x. split; [exact Hin|].
      unfold Store.same_room. rewrite Hx. apply Z.eqb_refl. }
    congruence.
Qed.

Lemma createRoom_ids (uuid : string) (now : Z) (o : CreateRoomOptions)
    (db : Database) :
  NoDup (map roomId (chathub_room db)) ->
  NoDup (map roomId (chathub_room (fst (createRoom uuid now o db)))).
Proof.
  intros Hnd.
  destruct (createRoom_rooms_fresh uuid now o db) as [-> | [-> Hfresh]];
    [exact Hnd|].
  rewrite map_app. simpl. apply NoDup_snoc; [exact Hnd|].
  intros Hin. apply in_map_iff in Hin. destruct Hin as (x & Hx & Hin).
  assert (Ht : existsb (Store.same_room
                          (newRoom uuid now (newRoomId_of db) o))
                 (chathub_room db) = true).
  { apply existsb_exists. exists x. split; [exact Hin|].
    unfold Store.same_room. simpl. rewrite Hx. apply Z.eqb_refl. }
  congruence.
Qed.

Lemma getOrCreateBotSpecificRoom_ids (uuid : string) (now : Z)
    (session : Session) (id : string) (botConfig : BotPersonaConfig)
    (db : Database) :
  NoDup (map roomId (chathub_room db)) ->
  NoDup (map roomId
           (chathub_room
              (fst (ChainInterceptor.getOrCreateBotSpecificRoom uuid now
                      session id botConfig db)))).
Proof.
  intros Hnd. rewrite getOrCreateBotSpecificRoom_unfold.
  destruct (existingRoom session id db); [exact Hnd|].
  rewrite createBotSpecificRoom_rooms. now apply createRoom_ids.
Qed.

(** X16.  Room ids stay unique: when no two rows of [chathub_room] share
    an id, the same holds after [createRoom], after the pre-hook and
    after the post-hook, whether they return or raise.  A room that
    [createRoom] returns is the last row of the table and has an id that
    no earlier row has; the id is above every earlier id when these are
    natural numbers below [2^53 - 1]. *)
Theorem X16_room_ids_stay_unique
    (uuid : string) (now fixTime : Z) (config : list BotPersonaConfig)
    (session : Session) (o : CreateRoomOptions) (w : World) :
  NoDup (map roomId (chathub_room (database w))) ->
  NoDup (map roomId
           (chathub_room (fst (createRoom uuid now o (database w)))))
  /\ (forall db' r,
         createRoom uuid now o (database w) = (db', Ok r) ->
         ~ In (roomId r) (map roomId (chathub_room (database w)))
         /\ chathub_room db' = (chathub_room (database w) ++ [r])%list
         /\ (safe_roomIds (database w) ->
             forall x, In x (chathub_room (database w)) ->
                       roomId x < roomId r))
  /\ NoDup (map roomId
              (chathub_room
                 (database
                    (fst (ChainInterceptor.charon_resolve_bot_room uuid now
                            config session w)))))
  /\ NoDup (map roomId
              (chathub_room
                 (database
                    (fst (ChainInterceptor.charon_fix_room_auto_update uuid
                            now config fixTime session w))))).
Proof.
  intros Hnd. split; [now apply createRoom_ids|]. split; [|split].
  - intros db' r Hc.
    pose proof (createRoom_ok_fresh uuid now o (database w) db' r Hc)
      as Hfresh.
    apply createRoom_ok in Hc. destruct Hc as (-> & Hrooms & _).
    split; [|split; [exact Hrooms|]].
    + intros Hin. apply in_map_iff in Hin. destruct Hin as (x & Hx & Hin).
      now apply (Hfresh x Hin).
    + intros Hsafe x Hin. cbn [roomId newRoom].
      rewrite (newRoomId_exact (database w) Hsafe).
      destruct (chathub_room (database w)) as [|r0 rows]; [easy|].
      assert (roomId x <= fold_left Z.max (map roomId rows) (roomId r0)).
      { apply fold_max_ge.
        change (In (roomId x) (map roomId (r0 :: rows))).
        now apply in_map. }
      lia.
  - destruct (charon_resolve_bot_room_database uuid now config session w)
      as [-> | [bc ->]]; [exact Hnd|].
    now apply getOrCreateBotSpecificRoom_ids.
  - assert (Hrep : forall stash cur db1,
               NoDup (map roomId (chathub_room db1)) ->
               NoDup (map roomId
                        (chathub_room
                           (database (repaired fixTime stash cur db1 w))))).
    { intros stash cur db1 H1.
      destruct (repaired_database fixTime stash cur db1 w) as [-> | ->];
        [exact H1|]. now apply upsert_room_ids. }
    destruct (charonBotConfig (options w)) as [stash|] eqn:Hs.
    2:{ now rewrite post_hook_inert by auto. }
    destruct (room (options w)) as [bound|] eqn:Hr.
    2:{ now rewrite post_hook_inert by auto. }
    destruct (ChainInterceptor.isRoomForBot (stash_botId stash) bound)
      eqn:Hown.
    { rewrite (post_hook_stays uuid now config fixTime session w stash bound)
        by auto. now apply Hrep. }
    destruct (BotManager.getBotConfig config (stash_botId stash)) as [bc|]
      eqn:Hcfg.
    2:{ rewrite (post_hook_stays uuid now config fixTime session w stash
                   bound) by auto. now apply Hrep. }
    rewrite (post_hook_rebinds uuid now config fixTime session w stash bound
               bc) by auto.
    pose proof (getOrCreateBotSpecificRoom_ids uuid now session
                  (stash_botId stash) bc (database w) Hnd) as H1.
    destruct (ChainInterceptor.getOrCreateBotSpecificRoom uuid now session
                (stash_botId stash) bc (database w)) as [db1 [r|e]];
      cbn [fst] in *.
    + now apply Hrep.
    + exact H1.
Qed.

Lemma X16_witness :
  NoDup (map roomId
           (chathub_room
              (database
                 (fst (ChainInterceptor.charon_fix_room_auto_update "UUID"
                         100 Scenario.config 200 Scenario.direct
                         Scenario.drifted))))).
Proof.
  refine (proj2 (proj2 (proj2 (X16_room_ids_stay_unique "UUID" 100 200
                                 Scenario.config Scenario.direct
                                 (ChainInterceptor.botRoomOptions
                                    Scenario.direct "disc:42"
                                    Scenario.helper)
                                 Scenario.drifted _)))).
  repeat constructor; simpl; intuition discriminate.
Defined.

Lemma top_roomId_snoc (rows : list Room) (r : Room) :
  match (rows ++ [r])%list with
  | [] => 0
  | r0 :: rest => fold_left Z.max (map roomId rest) (roomId r0)
  end
  = match rows with
    | [] => roomId r
    | r0 :: rest =>
        Z.max (fold_left Z.max (map roomId rest) (roomId r0)) (roomId r)
    end.
Proof.
  destruct rows as [|r0 rest]; simpl; [reflexivity|].
  now rewrite map_app, fold_left_app.
Qed.

(** X17.  [createRoom] does not undo the rows it has written when a later
    create fails.  On a table whose ids are natural numbers below
    [2^53 - 1]: if the membership row for the new room id exists already,
    the call raises after the room row was stored, the membership tables
    are as before, and the next call allots the next id (as long as that
    is below [2^53]). *)
Theorem X17_a_failed_createRoom_leaves_its_room_row
    (uuid : string) (now : Z) (o : CreateRoomOptions) (db : Database) :
  let n := newRoomId_of db in
  let db' := fst (createRoom uuid now o db) in
  safe_roomIds db ->
  existsb (Store.same_member (mkRoomMember (opt_roomMasterId o) n
                                (Some "owner")))
    (chathub_room_member db) = true ->
  snd (createRoom uuid now o db)
  = Throw (UniqueConstraint "chathub_room_member")
  /\ chathub_room db' = (chathub_room db ++ [newRoom uuid now n o])%list
  /\ chathub_room_member db' = chathub_room_member db
  /\ chathub_room_group_member db' = chathub_room_group_member db
  /\ (n < Js.two53 - 1 -> newRoomId_of db' = n + 1).
Proof.
  intros n db' Hsafe Hm. subst db'. rewrite createRoom_cases.
  rewrite (newRoom_fresh uuid now o db Hsafe). fold n.
  rewrite Hm. cbn [fst snd].
  split; [reflexivity|]. split; [reflexivity|]. split; [reflexivity|].
  split; [reflexivity|].
  intros Hn. unfold newRoomId_of at 1.
  cbn [chathub_room Store.journal Store.set_rooms].
  rewrite top_roomId_snoc. cbn [roomId newRoom].
  pose proof (newRoomId_exact db Hsafe) as Hex. fold n in Hex.
  pose proof (top_roomId_bounds db Hsafe) as Hb.
  destruct (chathub_room db) as [|r0 rows].
  - apply add_exact. unfold Js.two53 in *. lia.
  - rewrite Z.max_r by lia. apply add_exact. unfold Js.two53 in *. lia.
Qed.

Lemma X17_witness :
  snd (createRoom "UUID" 100
         (ChainInterceptor.botRoomOptions Scenario.direct "disc:42"
            Scenario.helper) Scenario.stale_member_db)
  = Throw (UniqueConstraint "chathub_room_member")
  /\ chathub_room
       (fst (createRoom "UUID" 100
               (ChainInterceptor.botRoomOptions Scenario.direct "disc:42"
                  Scenario.helper) Scenario.stale_member_db))
     = (chathub_room Scenario.stale_member_db
        ++ [newRoom "UUID" 100 (newRoomId_of Scenario.stale_member_db)
              (ChainInterceptor.botRoomOptions Scenario.direct "disc:42"
                 Scenario.helper)])%list
  /\ chathub_room_member
       (fst (createRoom "UUID" 100
               (ChainInterceptor.botRoomOptions Scenario.direct "disc:42"
                  Scenario.helper) Scenario.stale_member_db))
     = chathub_room_member Scenario.stale_member_db
  /\ chathub_room_group_member
       (fst (createRoom "UUID" 100
               (ChainInterceptor.botRoomOptions Scenario.direct "disc:42"
                  Scenario.helper) Scenario.stale_member_db))
     = chathub_room_group_member Scenario.stale_member_db
  /\ newRoomId_of
       (fst (createRoom "UUID" 100
               (ChainInterceptor.botRoomOptions Scenario.direct "disc:42"
                  Scenario.helper) Scenario.stale_member_db))
     = newRoomId_of Scenario.stale_member_db + 1.
Proof.
  destruct (X17_a_failed_createRoom_leaves_its_room_row "UUID" 100
              (ChainInterceptor.botRoomOptions Scenario.direct "disc:42"
                 Scenario.helper) Scenario.stale_member_db)
    as (H1 & H2 & H3 & H4 & H5).
  - intros r [].
  - reflexivity.
  - split; [exact H1|]. split; [exact H2|]. split; [exact H3|].
    split; [exact H4|]. apply H5. reflexivity.
Defined.

(** ** Template rooms *)

Lemma setBotStatus_get (m : StatusMap) (id : string)
    (status : PartialBotStatus) :
  Status.getBotStatus (Status.setBotStatus m id status) id
  = Some (Status.assign
            (match Status.getBotStatus m id with
             | Some previous => previous
             | None => Status.initial id
             end) status).
Proof. apply status_get_set_same. Qed.

Section TemplateRooms.

Variables (uuid : string) (now : Z) (config : list BotPersonaConfig).
Variables (autoCreate : bool) (error_text : StoreError -> string).

Local Abbreviation create_template :=
  (RoomInterceptor.createTemplateRoomForBot uuid now error_text).

Local Abbreviation handle :=
  (RoomInterceptor.handleBotStatusUpdate uuid now config autoCreate
     error_text).

(** The options [createTemplateRoomForBot] hands to [createRoom]. *)
Let template_options (botConfig : BotPersonaConfig) : CreateRoomOptions :=
  mkCreateRoomOptions (botId botConfig)
    (RoomInterceptor.templateRoomName (botId botConfig))
    (Js.template (parsed_selfId (Registry.parseBotId (botId botConfig))))
    None "template_clone" (Some (preset botConfig)) (Some (model botConfig))
    (Some (Js.or_else (chatMode botConfig) "chat")).

(** [createTemplateRoomForBot], case by case. *)
Lemma createTemplateRoomForBot_cases (botConfig : BotPersonaConfig)
    (w : RoomWorld) :
  let id := botId botConfig in
  let set part db :=
    mkRoomWorld db (Status.setBotStatus (botStatusMap w) id part) in
  create_template botConfig w
  = match filter (fun r => String.eqb (roomName r)
                             (RoomInterceptor.templateRoomName id))
            (chathub_room (room_database w)) with
    | first :: _ =>
        (set (Status.set_templateRoomId (roomId first)) (room_database w),
         Ok tt)
    | [] =>
        match source (BotManager.parsePresetName (preset botConfig)) with
        | Character =>
            (set (Status.set_initialized true) (room_database w), Ok tt)
        | ChatLuna =>
            match createRoom uuid now (template_options botConfig)
                    (room_database w) with
            | (db1, Ok created) =>
                (set (Status.set_templateRoomId (roomId created)) db1, Ok tt)
            | (db1, Throw e) =>
                (set (Status.set_error (error_text e)) db1, Ok tt)
            end
        end
    end.
Proof.
  intros id set. subst set id. unfold template_options.
  unfold RoomInterceptor.createTemplateRoomForBot,
    RoomInterceptor.setBotStatus, RoomInterceptor.on_store, try_catch, bind,
    modify, Store.get_rooms_named, gets.
  cbn [room_database botStatusMap fst snd].
  destruct (filter _ (chathub_room (room_database w))) as [|first rest];
    [|reflexivity].
  destruct (source (BotManager.parsePresetName (preset botConfig)));
    [|reflexivity].
  cbn [room_database botStatusMap].
  destruct (createRoom uuid now _ (room_database w)) as [db1 [created|e]];
    reflexivity.
Qed.

Lemma createTemplateRoomForBot_returns (botConfig : BotPersonaConfig)
    (w : RoomWorld) :
  snd (create_template botConfig w) = Ok tt.
Proof.
  rewrite createTemplateRoomForBot_cases. cbv zeta.
  destruct (filter _ (chathub_room (room_database w))); [|reflexivity].
  destruct (source (BotManager.parsePresetName (preset botConfig)));
    [|reflexivity].
  now destruct (createRoom uuid now _ (room_database w)) as [db1 [r|e]].
Qed.

(** [handleBotStatusUpdate], case by case. *)
Lemma handleBotStatusUpdate_cases (platform selfId : string) (w : RoomWorld) :
  let id := BotManager.getBotId platform selfId in
  handle platform selfId w
  = match BotManager.getBotConfig config id with
    | None => (w, Ok tt)
    | Some botConfig =>
        if negb (enabled botConfig) then (w, Ok tt)
        else if match Status.getBotStatus (botStatusMap w) id with
                | Some s => status_initialized s
                | None => false
                end
        then (w, Ok tt)
        else
          let w1 := if autoCreate then fst (create_template botConfig w)
                    else w in
          (mkRoomWorld (room_database w1)
             (Status.setBotStatus (botStatusMap w1) id
                (Status.set_initialized true)), Ok tt)
    end.
Proof.
  intros id. unfold RoomInterceptor.handleBotStatusUpdate. fold id.
  destruct (BotManager.getBotConfig config id) as [bc|]; [|reflexivity].
  destruct (negb (enabled bc)); [reflexivity|].
  unfold bind at 1, gets. cbn [fst snd].
  destruct (match Status.getBotStatus (botStatusMap w) id with
            | Some s => status_initialized s
            | None => false
            end); [reflexivity|].
  unfold bind, RoomInterceptor.setBotStatus, modify, ret.
  destruct autoCreate; [|reflexivity].
  pose proof (createTemplateRoomForBot_returns bc w) as Hret.
  destruct (create_template bc w) as [w1 [[]|e]]; [reflexivity|].
  discriminate.
Qed.

End TemplateRooms.

Lemma getBotConfig_botId (config : list BotPersonaConfig) (id : string)
    (botConfig : BotPersonaConfig) :
  BotManager.getBotConfig config id = Some botConfig ->
  botId botConfig = id /\ In botConfig config.
Proof.
  unfold BotManager.getBotConfig. intros H. apply find_some in H.
  destruct H as [Hin E]. now apply String.eqb_eq in E.
Qed.

Lemma parseBotId_getBotId (platform selfId : string) :
  Js.includes ":" platform = false ->
  Js.includes ":" selfId = false ->
  Registry.parseBotId (BotManager.getBotId platform selfId)
  = mkParsedBotId (Some platform) (Some selfId).
Proof.
  intros Hp Hs.
  unfold Registry.parseBotId, BotManager.getBotId, Js.split_limit.
  change (platform ++ ":" ++ selfId) with (platform ++ String ":"%char selfId).
  rewrite (split_app_separator _ _ Hp).
  now rewrite (split_no_separator _ Hs).
Qed.

(** X18.  [handleBotStatusUpdate] never raises.  For a bot without an
    enabled configuration it changes nothing; for a bot with one, it
    leaves the bot marked as initialized, whatever happened to the
    template room. *)
Theorem X18_handleBotStatusUpdate_marks_the_bot_initialized
    (uuid : string) (now : Z) (config : list BotPersonaConfig)
    (autoCreate : bool) (error_text : StoreError -> string)
    (platform selfId : string) (w : RoomWorld) :
  let id := BotManager.getBotId platform selfId in
  let out := RoomInterceptor.handleBotStatusUpdate uuid now config autoCreate
               error_text platform selfId w in
  snd out = Ok tt
  /\ ((forall botConfig, BotManager.getBotConfig config id = Some botConfig ->
                         enabled botConfig = false) ->
      fst out = w)
  /\ (forall botConfig,
         BotManager.getBotConfig config id = Some botConfig ->
         enabled botConfig = true ->
         exists s, Status.getBotStatus (botStatusMap (fst out)) id = Some s
                   /\ status_initialized s = true).
Proof.
  intros id out. subst out. rewrite handleBotStatusUpdate_cases. fold id.
  destruct (BotManager.getBotConfig config id) as [bc|] eqn:Hcfg.
  2:{ split; [reflexivity|]. split; [reflexivity|]. discriminate. }
  destruct (enabled bc) eqn:Hen; simpl.
  2:{ split; [reflexivity|]. split; [reflexivity|].
      intros b E. inversion E; subst b. congruence. }
  destruct (Status.getBotStatus (botStatusMap w) id) as [s|] eqn:Hst.
  - destruct (status_initialized s) eqn:Hi.
    + split; [reflexivity|]. split.
      * intros H. specialize (H bc eq_refl). congruence.
      * intros b _ _. exists s. split; [exact Hst|exact Hi].
    + split; [reflexivity|]. split.
      * intros H. specialize (H bc eq_refl). congruence.
      * intros b _ _. cbn [fst botStatusMap]. rewrite setBotStatus_get.
        eexists. split; [reflexivity|]. reflexivity.
  - split; [reflexivity|]. split.
    + intros H. specialize (H bc eq_refl). congruence.
    + intros b _ _. cbn [fst botStatusMap]. rewrite setBotStatus_get.
      eexists. split; [reflexivity|]. reflexivity.
Qed.

(** X19.  [handleBotStatusUpdate] acts once per bot: running it again on
    the world it left (any new uuid and clock) changes nothing, so a
    second status event neither looks for nor creates a template room. *)
Theorem X19_handleBotStatusUpdate_acts_once
    (uuid uuid' : string) (now now' : Z) (config : list BotPersonaConfig)
    (autoCreate : bool) (error_text : StoreError -> string)
    (platform selfId : string) (w : RoomWorld) :
  let w1 := fst (RoomInterceptor.handleBotStatusUpdate uuid now config
                   autoCreate error_text platform selfId w) in
  RoomInterceptor.handleBotStatusUpdate uuid' now' config autoCreate
    error_text platform selfId w1 = (w1, Ok tt).
Proof.
  intros w1. subst w1.
  set (id := BotManager.getBotId platform selfId).
  rewrite (handleBotStatusUpdate_cases uuid now). fold id.
  rewrite (handleBotStatusUpdate_cases uuid' now'). fold id.
  destruct (BotManager.getBotConfig config id) as [bc|] eqn:Hcfg;
    [|reflexivity].
  destruct (enabled bc) eqn:Hen; simpl; [|reflexivity].
  destruct (match Status.getBotStatus (botStatusMap w) id with
            | Some s => status_initialized s
            | None => false
            end) eqn:Hst; cbn [fst].
  - now rewrite Hst.
  - cbn [botStatusMap]. rewrite setBotStatus_get. reflexivity.
Qed.

Lemma X18_witness :
  exists s,
    Status.getBotStatus
      (botStatusMap
         (fst (RoomInterceptor.handleBotStatusUpdate "UUID" 100
                 Scenario.config true message "disc" "42"
                 (mkRoomWorld Scenario.empty_db []))))
      (BotManager.getBotId "disc" "42") = Some s
    /\ status_initialized s = true.
Proof.
  apply (proj2 (proj2 (X18_handleBotStatusUpdate_marks_the_bot_initialized
                         "UUID" 100 Scenario.config true message "disc" "42"
                         (mkRoomWorld Scenario.empty_db [])))
           Scenario.helper); reflexivity.
Defined.

Lemma filter_nothing {A : Type} (test : A -> bool) (l : list A) :
  (forall x, In x l -> test x = false) -> filter test l = [].
Proof.
  induction l as [|a l IH]; simpl; intros H; [reflexivity|].
  rewrite (H a (or_introl eq_refl)). apply IH.
  intros x Hx. apply H. now right.
Qed.

(** X20.  [createTemplateRoomForBot] writes nothing to the store when a
    room with the template name of the bot exists, or when none exists
    and the preset names the character source.  In the first case the
    status records the id of the first such room as the template room. *)
Theorem X20_no_template_room_is_made_twice_or_for_character_presets
    (uuid : string) (now : Z) (error_text : StoreError -> string)
    (botConfig : BotPersonaConfig) (w : RoomWorld) :
  let id := botId botConfig in
  let named :=
    filter (fun r => String.eqb (roomName r)
                       (RoomInterceptor.templateRoomName id))
      (chathub_room (room_database w)) in
  let out := RoomInterceptor.createTemplateRoomForBot uuid now error_text
               botConfig w in
  (forall first rest,
      named = first :: rest ->
      room_database (fst out) = room_database w
      /\ exists s, Status.getBotStatus (botStatusMap (fst out)) id = Some s
                   /\ status_templateRoomId s = Some (roomId first))
  /\ (named = [] ->
      source (BotManager.parsePresetName (preset botConfig)) = Character ->
      room_database (fst out) = room_database w).
Proof.
  intros id named out. subst out named.
  rewrite createTemplateRoomForBot_cases. cbv zeta. fold id. split.
  - intros first rest ->. cbn [fst room_database botStatusMap].
    split; [reflexivity|]. rewrite setBotStatus_get.
    eexists. split; reflexivity.
  - intros -> ->. reflexivity.
Qed.

Lemma X20_witness :
  room_database
    (fst (RoomInterceptor.createTemplateRoomForBot "UUID" 100 message
            Examples.alice (mkRoomWorld Scenario.empty_db [])))
  = room_database (mkRoomWorld Scenario.empty_db []).
Proof.
  apply (proj2 (X20_no_template_room_is_made_twice_or_for_character_presets
                  "UUID" 100 message Examples.alice
                  (mkRoomWorld Scenario.empty_db []))); reflexivity.
Defined.

(** X21.  For an enabled bot whose platform and self id hold no colon
    and that is not yet initialized, with template rooms switched on, a
    room table whose ids are natural numbers below [2^53 - 1] and that
    has no room of the template name, a preset that does not name the
    character source and no stale membership row, the status event
    creates the template room: one row is added to [chathub_room], named
    [模板房间_<botId>], of visibility [template_clone], with the key
    [bot_<botId>_<uuid>], mastered by the bot's self id, with one
    membership row for that self id and no group association; the status
    records its id and keeps the error it had. *)
Theorem X21_the_status_event_creates_the_template_room
    (uuid : string) (now : Z) (config : list BotPersonaConfig)
    (error_text : StoreError -> string) (platform selfId : string)
    (w : RoomWorld) (botConfig : BotPersonaConfig) :
  let id := BotManager.getBotId platform selfId in
  let n := newRoomId_of (room_database w) in
  let w' := fst (RoomInterceptor.handleBotStatusUpdate uuid now config true
                   error_text platform selfId w) in
  Js.includes ":" platform = false ->
  Js.includes ":" selfId = false ->
  BotManager.getBotConfig config id = Some botConfig ->
  enabled botConfig = true ->
  (forall s, Status.getBotStatus (botStatusMap w) id = Some s ->
             status_initialized s = false) ->
  safe_roomIds (room_database w) ->
  (forall r, In r (chathub_room (room_database w)) ->
             roomName r <> "模板房间_" ++ id) ->
  source (BotManager.parsePresetName (preset botConfig)) = ChatLuna ->
  (forall m, In m (chathub_room_member (room_database w)) ->
             member_userId m = selfId -> member_roomId m <> n) ->
  exists r,
    chathub_room (room_database w')
    = (chathub_room (room_database w) ++ [r])%list
    /\ roomId r = n
    /\ (forall x, In x (chathub_room (room_database w)) -> roomId x < n)
    /\ roomName r = "模板房间_" ++ id
    /\ conversationId r = "bot_" ++ id ++ "_" ++ uuid
    /\ visibility r = Some "template_clone"
    /\ roomMasterId r = Some selfId
    /\ autoUpdate r = Some false
    /\ chathub_room_member (room_database w')
       = (chathub_room_member (room_database w)
          ++ [mkRoomMember selfId n (Some "owner")])%list
    /\ chathub_room_group_member (room_database w')
       = chathub_room_group_member (room_database w)
    /\ exists s, Status.getBotStatus (botStatusMap w') id = Some s
                 /\ status_templateRoomId s = Some n
                 /\ status_initialized s = true
                 /\ status_error s
                    = match Status.getBotStatus (botStatusMap w) id with
                      | Some previous => status_error previous
                      | None => None
                      end.
Proof.
  intros id n w' Hp Hs Hcfg Hen Hst Hsafe Hnamed Hsrc Hmember. subst w'.
  rewrite handleBotStatusUpdate_cases. fold id.
  rewrite Hcfg, Hen.
  assert (Hfirst : match Status.getBotStatus (botStatusMap w) id with
                   | Some s => status_initialized s
                   | None => false
                   end = false).
  { destruct (Status.getBotStatus (botStatusMap w) id) as [s|];
      [now apply Hst|reflexivity]. }
  rewrite Hfirst. cbn [negb fst].
  destruct (getBotConfig_botId _ _ _ Hcfg) as [Hid _].
  rewrite createTemplateRoomForBot_cases. cbv zeta. rewrite Hid.
  assert (Hnone : filter (fun r => String.eqb (roomName r)
                                     (RoomInterceptor.templateRoomName id))
                    (chathub_room (room_database w)) = []).
  { apply filter_nothing. intros r Hr. apply String.eqb_neq.
    now apply Hnamed. }
  rewrite Hnone, Hsrc.
  assert (Hparse : parsed_selfId (Registry.parseBotId id) = Some selfId).
  { unfold id. now rewrite (parseBotId_getBotId _ _ Hp Hs). }
  rewrite Hparse. cbn [Js.template].
  rewrite createRoom_cases. cbv zeta.
  cbn [opt_roomMasterId opt_guildId opt_visibility Js.truthy_opt andb].
  rewrite (newRoom_fresh uuid now _ (room_database w) Hsafe).
  fold n.
  assert (Hm : existsb (Store.same_member (mkRoomMember selfId n (Some "owner")))
                 (chathub_room_member (room_database w)) = false).
  { apply not_true_is_false. intros H. apply existsb_exists in H.
    destruct H as (m & Hin & Hsame). unfold Store.same_member in Hsame.
    apply andb_true_iff in Hsame. destruct Hsame as [Hu Hr].
    apply String.eqb_eq in Hu. apply Z.eqb_eq in Hr. simpl in *.
    apply (Hmember m Hin); congruence. }
  rewrite Hm. cbn [fst room_database botStatusMap].
  eexists. split; [reflexivity|]. split; [reflexivity|]. split.
  { intros x Hx. unfold n. rewrite (newRoomId_exact _ Hsafe).
    destruct (chathub_room (room_database w)) as [|r0 rows]; [easy|].
    assert (roomId x <= fold_left Z.max (map roomId rows) (roomId r0)).
    { apply fold_max_ge. change (In (roomId x) (map roomId (r0 :: rows))).
      now apply in_map. }
    lia. }
  repeat (split; [reflexivity|]).
  rewrite setBotStatus_get, setBotStatus_get.
  destruct (Status.getBotStatus (botStatusMap w) id) as [previous|];
    eexists; (split; [reflexivity|]); repeat split.
Qed.

Lemma X21_witness :
  exists r,
    chathub_room
      (room_database
         (fst (RoomInterceptor.handleBotStatusUpdate "UUID" 100
                 Scenario.config true message "disc" "42"
                 (mkRoomWorld (database Scenario.host_bound)
                    [("disc:42", Status.initial "disc:42")]))))
    = (chathub_room (database Scenario.host_bound) ++ [r])%list
    /\ roomId r = 8
    /\ roomName r = "模板房间_disc:42"
    /\ conversationId r = "bot_disc:42_UUID"
    /\ roomMasterId r = Some "42".
Proof.
  destruct (X21_the_status_event_creates_the_template_room "UUID" 100
              Scenario.config message "disc" "42"
              (mkRoomWorld (database Scenario.host_bound)
                 [("disc:42", Status.initial "disc:42")]) Scenario.helper)
    as (r & H1 & H2 & _ & H4 & H5 & _ & H7 & _); try reflexivity.
  - intros s E. inversion E. reflexivity.
  - intros x [<-|[]]. unfold Js.two53. simpl. lia.
  - intros x [<-|[]]. discriminate.
  - intros m [].
  - exists r. repeat split; assumption.
Defined.

(** X22.  A template room that cannot be created is not retried.  On a
    room table whose ids are natural numbers below [2^53 - 1], for a bot
    whose platform and self id hold no colon: when the membership row for
    the new room id exists already, the status event neither raises nor
    undoes the room row it wrote; the bot's status records the text of
    the failure, no new template room id, and the bot is marked
    initialized all the same. *)
Theorem X22_a_failed_template_room_is_recorded_and_not_retried
    (uuid : string) (now : Z) (config : list BotPersonaConfig)
    (error_text : StoreError -> string) (platform selfId : string)
    (w : RoomWorld) (botConfig : BotPersonaConfig) :
  let id := BotManager.getBotId platform selfId in
  let n := newRoomId_of (room_database w) in
  let out := RoomInterceptor.handleBotStatusUpdate uuid now config true
               error_text platform selfId w in
  Js.includes ":" platform = false ->
  Js.includes ":" selfId = false ->
  BotManager.getBotConfig config id = Some botConfig ->
  enabled botConfig = true ->
  (forall s, Status.getBotStatus (botStatusMap w) id = Some s ->
             status_initialized s = false) ->
  safe_roomIds (room_database w) ->
  (forall r, In r (chathub_room (room_database w)) ->
             roomName r <> "模板房间_" ++ id) ->
  source (BotManager.parsePresetName (preset botConfig)) = ChatLuna ->
  (exists m, In m (chathub_room_member (room_database w))
             /\ member_userId m = selfId /\ member_roomId m = n) ->
  snd out = Ok tt
  /\ (exists r, chathub_room (room_database (fst out))
                = (chathub_room (room_database w) ++ [r])%list
                /\ roomId r = n
                /\ roomName r = "模板房间_" ++ id)
  /\ chathub_room_member (room_database (fst out))
     = chathub_room_member (room_database w)
  /\ exists s,
       Status.getBotStatus (botStatusMap (fst out)) id = Some s
       /\ status_error s
          = Some (error_text (UniqueConstraint "chathub_room_member"))
       /\ status_templateRoomId s
          = match Status.getBotStatus (botStatusMap w) id with
            | Some previous => status_templateRoomId previous
            | None => None
            end
       /\ status_initialized s = true.
Proof.
  intros id n out Hp Hs Hcfg Hen Hst Hsafe Hnamed Hsrc Hmember. subst out.
  rewrite handleBotStatusUpdate_cases. fold id.
  rewrite Hcfg, Hen.
  assert (Hfirst : match Status.getBotStatus (botStatusMap w) id with
                   | Some s => status_initialized s
                   | None => false
                   end = false).
  { destruct (Status.getBotStatus (botStatusMap w) id) as [s|];
      [now apply Hst|reflexivity]. }
  rewrite Hfirst. cbn [negb fst snd].
  destruct (getBotConfig_botId _ _ _ Hcfg) as [Hid _].
  rewrite createTemplateRoomForBot_cases. cbv zeta. rewrite Hid.
  assert (Hnone : filter (fun r => String.eqb (roomName r)
                                     (RoomInterceptor.templateRoomName id))
                    (chathub_room (room_database w)) = []).
  { apply filter_nothing. intros r Hr. apply String.eqb_neq.
    now apply Hnamed. }
  rewrite Hnone, Hsrc.
  assert (Hparse : parsed_selfId (Registry.parseBotId id) = Some selfId).
  { unfold id. now rewrite (parseBotId_getBotId _ _ Hp Hs). }
  rewrite Hparse. cbn [Js.template].
  rewrite createRoom_cases. cbv zeta.
  cbn [opt_roomMasterId opt_guildId opt_visibility Js.truthy_opt andb].
  rewrite (newRoom_fresh uuid now _ (room_database w) Hsafe).
  fold n.
  assert (Hm : existsb (Store.same_member (mkRoomMember selfId n (Some "owner")))
                 (chathub_room_member (room_database w)) = true).
  { destruct Hmember as (m & Hin & Hu & Hr).
    apply existsb_exists. exists m. split; [exact Hin|].
    unfold Store.same_member. simpl. rewrite Hu, Hr.
    now rewrite String.eqb_refl, Z.eqb_refl. }
  rewrite Hm. cbn [fst room_database botStatusMap].
  split; [reflexivity|]. split.
  { eexists. split; [reflexivity|]. split; reflexivity. }
  split; [reflexivity|].
  rewrite setBotStatus_get, setBotStatus_get.
  destruct (Status.getBotStatus (botStatusMap w) id) as [previous|];
    eexists; (split; [reflexivity|]); repeat split.
Qed.

Lemma X22_witness :
  let out := RoomInterceptor.handleBotStatusUpdate "UUID" 100 Scenario.config
               true message "disc" "42"
               (mkRoomWorld
                  (mkDatabase [] [mkRoomMember "42" 1 (Some "owner")] [] []
                     []) []) in
  snd out = Ok tt
  /\ (exists r, chathub_room (room_database (fst out)) = ([] ++ [r])%list
                /\ roomId r = 1
                /\ roomName r = "模板房间_disc:42")
  /\ chathub_room_member (room_database (fst out))
     = [mkRoomMember "42" 1 (Some "owner")]
  /\ exists s,
       Status.getBotStatus (botStatusMap (fst out))
         (BotManager.getBotId "disc" "42") = Some s
       /\ status_error s
          = Some (message (UniqueConstraint "chathub_room_member"))
       /\ status_templateRoomId s = None
       /\ status_initialized s = true.
Proof.
  apply (X22_a_failed_template_room_is_recorded_and_not_retried "UUID" 100
           Scenario.config message "disc" "42"
           (mkRoomWorld
              (mkDatabase [] [mkRoomMember "42" 1 (Some "owner")] [] [] [])
              []) Scenario.helper); try reflexivity.
  - discriminate.
  - intros x [].
  - intros x [].
  - eexists. split; [left; reflexivity|]. split; reflexivity.
Defined.

(** ** The preset catalog *)

Lemma parsePresetName_source (src : PresetSource) (raw : string) :
  source (BotManager.parsePresetName (PresetSource_value src ++ ":" ++ raw))
  = src
  /\ (Js.includes ":" raw = false ->
      name (BotManager.parsePresetName (PresetSource_value src ++ ":" ++ raw))
      = raw).
Proof.
  assert (Hsplit :
    Js.split ":"%char (PresetSource_value src ++ String ":"%char raw)
    = PresetSource_value src :: Js.split ":"%char raw).
  { apply split_app_separator. now destruct src. }
  unfold BotManager.parsePresetName, Js.split_limit.
  change (":" ++ raw) with (String ":"%char raw).
  rewrite Hsplit.
  pose proof (split_nonempty ":"%char raw) as Hne.
  split.
  - destruct (Js.split ":"%char raw) as [|first rest]; [congruence|].
    destruct src; reflexivity.
  - intros Hraw. rewrite (split_no_separator raw Hraw).
    destruct src; reflexivity.
Qed.

Lemma loaded_entries (trim : string -> string) (services : PresetServices)
    (p : PresetWithSource) :
  In p (Presets.loaded trim services) ->
  (exists k, p = Presets.chatlunaEntry trim k
             /\ exists value, chatluna_getAllPreset services
                              = Some (Returns value)
                              /\ In k (or_empty value))
  \/ (exists n names, p = Presets.characterEntry n
             /\ character_getAllPreset services = Some (Returns (Some names))
             /\ In n names).
Proof.
  unfold Presets.loaded, Presets.loadCharacterPresets,
    Presets.loadChatLunaPresets.
  intros Hin.
  assert (Hchat : forall q,
    In q match chatluna_getAllPreset services with
         | Some (Returns value) =>
             ([] ++ map (Presets.chatlunaEntry trim) (or_empty value))%list
         | _ => []
         end ->
    exists k, q = Presets.chatlunaEntry trim k
              /\ exists value, chatluna_getAllPreset services
                               = Some (Returns value)
                               /\ In k (or_empty value)).
  { intros q Hq.
    destruct (chatluna_getAllPreset services) as [[value|text]|];
      try contradiction.
    simpl in Hq. apply in_map_iff in Hq. destruct Hq as [k [<- Hk]].
    exists k. split; [reflexivity|]. exists value. now split. }
  destruct (character_getAllPreset services) as [[[names|]|text]|];
    try (left; apply Hchat;
         destruct (chatluna_getAllPreset services) as [[?|?]|]; exact Hin).
  destruct names as [|n0 names'];
    [left; apply Hchat;
     destruct (chatluna_getAllPreset services) as [[?|?]|]; exact Hin|].
  apply in_app_or in Hin. destruct Hin as [Hin|Hin].
  - left. apply Hchat.
    destruct (chatluna_getAllPreset services) as [[?|?]|]; exact Hin.
  - right. apply in_map_iff in Hin. destruct Hin as [n [<- Hn]].
    exists n, (n0 :: names'). repeat split; auto.
Qed.

(** X23.  Every entry of the list that [loadPresets] builds carries its
    source in its name: the name is the source's tag, a colon and a raw
    name; [parsePresetName] finds the entry's source again, and the raw
    name too when that holds no colon. *)
Theorem X23_catalog_names_parse_back_to_their_source
    (trim : string -> string) (services : PresetServices)
    (p : PresetWithSource) :
  In p (Presets.loaded trim services) ->
  source (BotManager.parsePresetName (preset_name p)) = preset_source p
  /\ exists raw,
       preset_name p = PresetSource_value (preset_source p) ++ ":" ++ raw
       /\ (Js.includes ":" raw = false ->
           name (BotManager.parsePresetName (preset_name p)) = raw).
Proof.
  intros Hin. apply loaded_entries in Hin.
  destruct Hin as [[k [-> _]]|[n [names [-> _]]]].
  - split.
    + apply (parsePresetName_source ChatLuna (Presets.firstKeyword trim k)).
    + exists (Presets.firstKeyword trim k). split; [reflexivity|].
      apply (parsePresetName_source ChatLuna).
  - split.
    + apply (parsePresetName_source Character n).
    + exists n. split; [reflexivity|].
      apply (parsePresetName_source Character).
Qed.

Lemma X23_witness :
  let services :=
    mkPresetServices (Some (Returns (Some ["sydney, syd"])))
                     (Some (Returns (Some ["alice"]))) in
  let p := Presets.characterEntry "alice" in
  source (BotManager.parsePresetName (preset_name p)) = preset_source p
  /\ exists raw,
       preset_name p = PresetSource_value (preset_source p) ++ ":" ++ raw
       /\ (Js.includes ":" raw = false ->
           name (BotManager.parsePresetName (preset_name p)) = raw).
Proof.
  apply (X23_catalog_names_parse_back_to_their_source (fun s => s)
           (mkPresetServices (Some (Returns (Some ["sydney, syd"])))
                             (Some (Returns (Some ["alice"]))))
           (Presets.characterEntry "alice")).
  simpl. right. left. reflexivity.
Defined.

Lemma loaded_shape (trim : string -> string) (services : PresetServices) :
  Presets.loaded trim services
  = (Presets.loadChatLunaPresets trim services []
     ++ match character_getAllPreset services with
        | Some (Returns (Some names)) => map Presets.characterEntry names
        | _ => []
        end)%list.
Proof.
  unfold Presets.loaded, Presets.loadCharacterPresets.
  destruct (character_getAllPreset services) as [[[names|]|text]|];
    try (now rewrite app_nil_r).
  destruct names; [now rewrite app_nil_r|reflexivity].
Qed.

(** X24.  The two preset sources do not depend on each other: whatever
    the character service does (absent, failing, empty), every preset
    that the ChatLuna service returned is listed, and the other way
    round; a source that is absent or fails contributes no entry. *)
Theorem X24_a_failing_preset_source_does_not_hide_the_other
    (trim : string -> string) (services : PresetServices) :
  (forall value k,
     chatluna_getAllPreset services = Some (Returns value) ->
     In k (or_empty value) ->
     In (Presets.chatlunaEntry trim k) (Presets.loaded trim services))
  /\ (forall names n,
        character_getAllPreset services = Some (Returns (Some names)) ->
        In n names ->
        In (Presets.characterEntry n) (Presets.loaded trim services))
  /\ ((chatluna_getAllPreset services = None
       \/ exists text, chatluna_getAllPreset services = Some (Raises text)) ->
      forall p, In p (Presets.loaded trim services) ->
                preset_source p = Character)
  /\ ((character_getAllPreset services = None
       \/ exists text, character_getAllPreset services = Some (Raises text)) ->
      forall p, In p (Presets.loaded trim services) ->
                preset_source p = ChatLuna).
Proof.
  split; [|split; [|split]].
  - intros value k Hs Hk. rewrite loaded_shape. apply in_or_app. left.
    unfold Presets.loadChatLunaPresets. rewrite Hs. simpl.
    now apply in_map.
  - intros names n Hs Hn. rewrite loaded_shape. apply in_or_app. right.
    rewrite Hs. now apply in_map.
  - intros Hfail p Hin. apply loaded_entries in Hin.
    destruct Hin as [[k [_ [value [Hs _]]]]|[n [names [-> _]]]];
      [|reflexivity].
    destruct Hfail as [Hf|[text Hf]]; congruence.
  - intros Hfail p Hin. apply loaded_entries in Hin.
    destruct Hin as [[k [-> _]]|[n [names [_ [Hs _]]]]];
      [reflexivity|].
    destruct Hfail as [Hf|[text Hf]]; congruence.
Qed.

Lemma X24_witness :
  let services :=
    mkPresetServices (Some (Raises "not ready"))
                     (Some (Returns (Some ["alice"]))) in
  In (Presets.characterEntry "alice") (Presets.loaded (fun s => s) services).
Proof.
  refine (proj1 (proj2 (X24_a_failing_preset_source_does_not_hide_the_other
            (fun s => s)
            (mkPresetServices (Some (Raises "not ready"))
                              (Some (Returns (Some ["alice"]))))))
            ["alice"] "alice" _ _).
  - reflexivity.
  - simpl. left. reflexivity.
Defined.

Lemma updatePresetOptions_values (presets : list PresetWithSource) :
  map fst (Presets.updatePresetOptions presets)
  = "" :: map preset_name presets.
Proof.
  destruct presets as [|p rest]; simpl; [reflexivity|].
  f_equal. f_equal. now rewrite map_map.
Qed.

(** X25.  A forced [loadPresets] replaces the catalog whatever was cached
    before: [getPresets] then gives the freshly built list, the published
    options are the blank option followed by the listed names in order,
    and [validatePreset] accepts the listed names and no others. *)
Theorem X25_a_forced_load_replaces_the_catalog
    (trim : string -> string) (sort : list string -> list string)
    (silent : bool) (services : PresetServices) (c : Catalog) :
  let c' := Presets.loadPresets trim sort silent true services c in
  Presets.getPresets c' = Presets.loaded trim services
  /\ map fst (preset_schema c')
     = "" :: map preset_name (Presets.loaded trim services)
  /\ forall presetName,
       Presets.validatePreset c' presetName = true
       <-> In presetName (map preset_name (Presets.loaded trim services)).
Proof.
  unfold Presets.loadPresets. simpl.
  split; [reflexivity|]. split; [apply updatePresetOptions_values|].
  intros presetName. unfold Presets.validatePreset, Presets.getPresets.
  simpl. rewrite existsb_exists, in_map_iff.
  split; intros [p [H1 H2]].
  - exists p. apply String.eqb_eq in H2. now split.
  - exists p. split; [exact H2|]. now apply String.eqb_eq.
Qed.

Lemma loadPresets_cases (trim : string -> string)
    (sort : list string -> list string) (silent force : bool)
    (services : PresetServices) (c : Catalog) :
  Presets.loadPresets trim sort silent force services c = c
  \/ Presets.loadPresets trim sort silent force services c
     = mkCatalog (Some (Presets.loaded trim services))
         (Presets.updatePresetOptions (Presets.loaded trim services)).
Proof.
  unfold Presets.loadPresets.
  destruct (negb force && _)%bool; [left|right]; reflexivity.
Qed.

(** X26.  Loading again from services that answer the same changes
    nothing: an unforced [loadPresets] after any [loadPresets] (forced or
    not) on the same services leaves cache and published options as they
    are. *)
Theorem X26_reloading_unchanged_presets_changes_nothing
    (trim : string -> string) (sort : list string -> list string)
    (silent silent' force : bool) (services : PresetServices)
    (c : Catalog) :
  Presets.loadPresets trim sort silent' false services
    (Presets.loadPresets trim sort silent force services c)
  = Presets.loadPresets trim sort silent force services c.
Proof.
  unfold Presets.loadPresets. destruct force; cbn [negb andb].
  - unfold Presets.getPresets. cbn [presetCache or_empty].
    now rewrite String.eqb_refl.
  - destruct (String.eqb
                (Presets.join ","
                   (sort (map preset_name (Presets.getPresets c))))
                (Presets.join ","
                   (sort (map preset_name (Presets.loaded trim services)))))
      eqn:E.
    + now rewrite E.
    + unfold Presets.getPresets. cbn [presetCache or_empty].
      now rewrite String.eqb_refl.
Qed.

(** X27.  An unforced [loadPresets] that finds no preset on a manager
    whose cache is still empty publishes nothing: cache and options stay
    as they were, while the forced load publishes the single blank
    option.  ([sort] of an empty array is empty.) *)
Theorem X27_an_empty_first_load_publishes_nothing
    (trim : string -> string) (sort : list string -> list string)
    (silent : bool) (services : PresetServices) (c : Catalog) :
  sort [] = [] ->
  presetCache c = None ->
  Presets.loaded trim services = [] ->
  Presets.loadPresets trim sort silent false services c = c
  /\ map fst (preset_schema
                (Presets.loadPresets trim sort silent true services c))
     = [""].
Proof.
  intros Hsort Hcache Hloaded.
  unfold Presets.loadPresets, Presets.getPresets.
  rewrite Hcache, Hloaded. cbn [or_empty map negb andb].
  rewrite Hsort. split; reflexivity.
Qed.

Lemma X27_witness :
  let c := mkCatalog None [] in
  let services := mkPresetServices None (Some (Raises "not ready")) in
  Presets.loadPresets (fun s => s) (fun l => l) false false services c = c
  /\ map fst (preset_schema
                (Presets.loadPresets (fun s => s) (fun l => l) false true
                   services c))
     = [""].
Proof.
  apply (X27_an_empty_first_load_publishes_nothing (fun s => s) (fun l => l)
           false (mkPresetServices None (Some (Raises "not ready")))
           (mkCatalog None [])); reflexivity.
Defined.

(** ** The bot-list scan *)

Lemma add_In (s : list string) (x y : string) :
  In y (Scan.add s x) <-> In y s \/ y = x.
Proof.
  unfold Scan.add. destruct (existsb (String.eqb x) s) eqn:E.
  - split; [tauto|]. intros [H| ->]; [exact H|].
    apply existsb_exists in E. destruct E as [z [Hz Ez]].
    apply String.eqb_eq in Ez. now subst z.
  - rewrite in_app_iff. simpl. intuition congruence.
Qed.

Lemma add_NoDup (s : list string) (x : string) :
  NoDup s -> NoDup (Scan.add s x).
Proof.
  intros H. unfold Scan.add. destruct (existsb (String.eqb x) s) eqn:E;
    [exact H|].
  apply NoDup_snoc; [exact H|].
  intros Hin. assert (Ht : existsb (String.eqb x) s = true).
  { apply existsb_exists. exists x. split; [exact Hin|apply String.eqb_refl]. }
  congruence.
Qed.

Lemma fold_add_In (l s : list string) (y : string) :
  In y (fold_left Scan.add l s) <-> In y s \/ In y l.
Proof.
  revert s. induction l as [|x l IH]; intros s; simpl; [tauto|].
  rewrite IH, add_In. intuition congruence.
Qed.

Lemma fold_add_NoDup (l s : list string) :
  NoDup s -> NoDup (fold_left Scan.add l s).
Proof.
  revert s. induction l as [|x l IH]; intros s H; simpl; [exact H|].
  apply IH. now apply add_NoDup.
Qed.

Lemma to_set_In (l : list string) (y : string) :
  In y (Scan.to_set l) <-> In y l.
Proof. unfold Scan.to_set. rewrite fold_add_In. simpl. tauto. Qed.

Lemma to_set_NoDup (l : list string) : NoDup (Scan.to_set l).
Proof. apply fold_add_NoDup. constructor. Qed.

Lemma setsEqual_spec (a b : list string) :
  Scan.setsEqual a b = true <-> length a = length b /\ incl a b.
Proof.
  unfold Scan.setsEqual. rewrite andb_true_iff, Nat.eqb_eq, forallb_forall.
  split; intros [Hlen Hall]; (split; [exact Hlen|]).
  - intros x Hx. specialize (Hall x Hx). apply existsb_exists in Hall.
    destruct Hall as [z [Hz Ez]]. apply String.eqb_eq in Ez. now subst z.
  - intros x Hx. apply existsb_exists. exists x.
    split; [now apply Hall|apply String.eqb_refl].
Qed.

Lemma setsEqual_same_members (a b : list string) :
  NoDup a -> NoDup b ->
  (Scan.setsEqual a b = true <-> forall x, In x a <-> In x b).
Proof.
  intros Ha Hb. rewrite setsEqual_spec. split.
  - intros [Hlen Hincl] x. split; [apply Hincl|].
    apply (NoDup_length_incl Ha); [lia|exact Hincl].
  - intros H.
    assert (Hab : incl a b) by (intros x; apply H).
    assert (Hba : incl b a) by (intros x; apply H).
    split; [|exact Hab].
    pose proof (NoDup_incl_length Ha Hab).
    pose proof (NoDup_incl_length Hb Hba). lia.
Qed.

(** X28.  On sets (lists without repetition) [setsEqual] decides equality
    of membership, whatever the insertion order, and does not depend on
    the order of its two arguments. *)
Theorem X28_setsEqual_decides_equal_membership (a b : list string) :
  NoDup a -> NoDup b ->
  (Scan.setsEqual a b = true <-> forall x, In x a <-> In x b)
  /\ (Scan.setsEqual a b = true -> Scan.setsEqual b a = true).
Proof.
  intros Ha Hb. split; [now apply setsEqual_same_members|].
  intros H. apply (setsEqual_same_members b a Hb Ha).
  intros x. symmetry. revert x. now apply (setsEqual_same_members a b Ha Hb).
Qed.

Lemma X28_witness :
  (Scan.setsEqual ["a:1"; "b:2"] ["b:2"; "a:1"] = true
   <-> forall x, In x ["a:1"; "b:2"] <-> In x ["b:2"; "a:1"])
  /\ (Scan.setsEqual ["a:1"; "b:2"] ["b:2"; "a:1"] = true ->
      Scan.setsEqual ["b:2"; "a:1"] ["a:1"; "b:2"] = true).
Proof.
  apply (X28_setsEqual_decides_equal_membership ["a:1"; "b:2"]
           ["b:2"; "a:1"]).
  - repeat constructor; simpl; intuition discriminate.
  - repeat constructor; simpl; intuition discriminate.
Defined.

Section ScanProperties.

Variable sort : list string -> list string.

Local Abbreviation enabled_ids bots :=
  (map (fun b => mbc_platform b ++ ":" ++ mbc_selfId b)
       (filter mbc_enabled bots)).

Lemma setsEqual_refl (a : list string) : Scan.setsEqual a a = true.
Proof. apply setsEqual_spec. split; [reflexivity|apply incl_refl]. Qed.

(** X29.  A second scan that gets the same answer from the controller
    changes nothing; and when the enabled bots are, as a set, the known
    ones, the scan leaves the known set and the published options as
    they are, in whatever order and however often the controller lists
    them. *)
Theorem X29_a_scan_of_the_same_bots_changes_nothing
    (mbcService : option (Reply (list MbcBotInfo))) (s : BotSchema) :
  Scan.scanFromMBC sort mbcService (Scan.scanFromMBC sort mbcService s)
  = Scan.scanFromMBC sort mbcService s
  /\ forall bots,
       mbcService = Some (Returns bots) ->
       NoDup (knownBots s) ->
       (forall x, In x (sort (enabled_ids bots)) <-> In x (enabled_ids bots)) ->
       (forall x, In x (knownBots s) <-> In x (enabled_ids bots)) ->
       Scan.scanFromMBC sort mbcService s = s.
Proof.
  split.
  - destruct mbcService as [[bots|text]|]; try reflexivity.
    unfold Scan.scanFromMBC.
    destruct (Scan.setsEqual (knownBots s)
                (Scan.to_set (sort (enabled_ids bots)))) eqn:E.
    + now rewrite E.
    + cbn [knownBots]. now rewrite setsEqual_refl.
  - intros bots -> Hs Hsort Hsame. unfold Scan.scanFromMBC.
    assert (E : Scan.setsEqual (knownBots s)
                  (Scan.to_set (sort (enabled_ids bots))) = true).
    { apply setsEqual_same_members; [exact Hs|apply to_set_NoDup|].
      intros x. rewrite to_set_In, Hsort. apply Hsame. }
    now rewrite E.
Qed.

(** X30.  After a scan that reached the controller, the known bots are
    exactly the ids [platform:selfId] of the enabled bots, each once: a
    disabled bot is never a known bot.  ([sort] keeps the members of the
    array.) *)
Theorem X30_after_a_scan_the_known_bots_are_the_enabled_ones
    (bots : list MbcBotInfo) (s : BotSchema) :
  NoDup (knownBots s) ->
  (forall x, In x (sort (enabled_ids bots)) <-> In x (enabled_ids bots)) ->
  let s' := Scan.scanFromMBC sort (Some (Returns bots)) s in
  NoDup (knownBots s')
  /\ forall x,
       In x (knownBots s')
       <-> exists b, In b bots /\ mbc_enabled b = true
                     /\ x = BotManager.getBotId (mbc_platform b) (mbc_selfId b).
Proof.
  intros Hs Hsort s'.
  assert (Hids : forall x,
    In x (enabled_ids bots)
    <-> exists b, In b bots /\ mbc_enabled b = true
                  /\ x = BotManager.getBotId (mbc_platform b) (mbc_selfId b)).
  { intros x. rewrite in_map_iff. unfold BotManager.getBotId.
    split.
    - intros [b [<- Hb]]. apply filter_In in Hb. exists b. tauto.
    - intros [b [Hb [He ->]]]. exists b. split; [reflexivity|].
      apply filter_In. tauto. }
  subst s'. unfold Scan.scanFromMBC.
  destruct (Scan.setsEqual (knownBots s)
              (Scan.to_set (sort (enabled_ids bots)))) eqn:E.
  - split; [exact Hs|]. intros x.
    pose proof (proj1 (setsEqual_same_members _ _ Hs (to_set_NoDup _)) E x)
      as H.
    rewrite H, to_set_In, Hsort. apply Hids.
  - cbn [knownBots]. split; [apply to_set_NoDup|].
    intros x. now rewrite to_set_In, Hsort, Hids.
Qed.

End ScanProperties.

Lemma X29_witness :
  let bots := [mkMbcBotInfo "disc" "42" true; mkMbcBotInfo "qq" "7" false;
               mkMbcBotInfo "disc" "42" true] in
  let s := mkBotSchema ["disc:42"] [] in
  Scan.scanFromMBC (fun l => l) (Some (Returns bots)) s = s.
Proof.
  refine (proj2 (X29_a_scan_of_the_same_bots_changes_nothing (fun l => l)
            (Some (Returns [mkMbcBotInfo "disc" "42" true;
                            mkMbcBotInfo "qq" "7" false;
                            mkMbcBotInfo "disc" "42" true]))
            (mkBotSchema ["disc:42"] [])) _ eq_refl _ _ _).
  - repeat constructor. simpl. tauto.
  - intros x. reflexivity.
  - intros x. simpl. tauto.
Defined.

Lemma X30_witness :
  let bots := [mkMbcBotInfo "disc" "42" true; mkMbcBotInfo "qq" "7" false] in
  let s' := Scan.scanFromMBC (fun l => l) (Some (Returns bots))
              (mkBotSchema [] []) in
  NoDup (knownBots s')
  /\ forall x,
       In x (knownBots s')
       <-> exists b, In b bots /\ mbc_enabled b = true
                     /\ x = BotManager.getBotId (mbc_platform b) (mbc_selfId b).
Proof.
  apply (X30_after_a_scan_the_known_bots_are_the_enabled_ones (fun l => l)
           [mkMbcBotInfo "disc" "42" true; mkMbcBotInfo "qq" "7" false]
           (mkBotSchema [] [])).
  - constructor.
  - intros x. reflexivity.
Defined.

(** ** Store failures during creation, through the resolution *)

(** C8 (as amended).  Only the create of the user-default record is
    forgiven: when [createRoom] has returned the room,
    [createBotSpecificRoom] returns it whether or not the [chathub_user]
    create raised.  A uniqueness violation on the conversation record (the
    id [maxRoomId + 1] is taken, as it is when the largest id is [2^53]),
    on the membership record or on the scope-association record is
    rethrown by [createRoom]: the conversation record is not stored in
    the first case, and in every case [createBotSpecificRoom],
    find-or-create and the pre-hook end with the same exception, the
    pre-hook leaving the bound room of the message context as it was. *)
Theorem C8_only_the_user_default_create_is_forgiven
    (uuid : string) (now : Z) (session : Session) (id : string)
    (botConfig : BotPersonaConfig) (db : Database) :
  let o := ChainInterceptor.botRoomOptions session id botConfig in
  let n := newRoomId_of db in
  let r := newRoom uuid now n o in
  let m := mkRoomMember (opt_roomMasterId o) n (Some "owner") in
  let g := mkRoomGroupMember (Js.template (opt_guildId o)) n
             (Some (opt_visibility o)) in
  (forall db1 created,
      createRoom uuid now o db = (db1, Ok created) ->
      ChainInterceptor.createBotSpecificRoom uuid now session id botConfig db
      = (fst (Store.create_user
                (ChainInterceptor.userDefaultRow session created) db1),
         Ok created))
  /\ (existsb (Store.same_room r) (chathub_room db) = true ->
      createRoom uuid now o db
      = (Store.journal (CreateRoom r) db,
         Throw (UniqueConstraint "chathub_room")))
  /\ (existsb (Store.same_room r) (chathub_room db) = false ->
      existsb (Store.same_member m) (chathub_room_member db) = true ->
      snd (createRoom uuid now o db)
      = Throw (UniqueConstraint "chathub_room_member"))
  /\ (existsb (Store.same_room r) (chathub_room db) = false ->
      existsb (Store.same_member m) (chathub_room_member db) = false ->
      ChainInterceptor.isDirect session = false ->
      existsb (Store.same_group_member g) (chathub_room_group_member db)
      = true ->
      snd (createRoom uuid now o db)
      = Throw (UniqueConstraint "chathub_room_group_member"))
  /\ (forall db1 e,
         createRoom uuid now o db = (db1, Throw e) ->
         ChainInterceptor.createBotSpecificRoom uuid now session id botConfig
           db = (db1, Throw e)
         /\ (existingRoom session id db = None ->
             ChainInterceptor.getOrCreateBotSpecificRoom uuid now session id
               botConfig db = (db1, Throw e)))
  /\ (forall config w db1 e,
         let own := BotManager.getBotId (platform session)
                      (Js.template (selfId_of session)) in
         let out := ChainInterceptor.charon_resolve_bot_room uuid now config
                      session w in
         BotManager.getBotConfig config own = Some botConfig ->
         interception (Some botConfig) = Resolved ->
         Js.truthy_opt (room_resolve_name (options w)) = false ->
         existingRoom session own (database w) = None ->
         createRoom uuid now
           (ChainInterceptor.botRoomOptions session own botConfig)
           (database w) = (db1, Throw e) ->
         snd out = Throw e
         /\ database (fst out) = db1
         /\ room (options (fst out)) = room (options w)).
Proof.
  intros o n r m g.
  split; [|split; [|split; [|split; [|split]]]].
  - intros db1 created H. rewrite createBotSpecificRoom_unfold. fold o.
    now rewrite H.
  - intros Hr. rewrite createRoom_cases. cbv zeta. fold o n r.
    now rewrite Hr.
  - intros Hr Hm. rewrite createRoom_cases. cbv zeta. fold o n r m.
    now rewrite Hr, Hm.
  - intros Hr Hm Hd Hg. rewrite createRoom_cases. cbv zeta.
    fold o n r m g. rewrite Hr, Hm, Hg.
    assert (Hscope : Js.truthy_opt (opt_guildId o)
                     && negb (String.eqb (opt_visibility o) "private") = true).
    { subst o. unfold ChainInterceptor.botRoomOptions. simpl.
      rewrite Hd. simpl. unfold ChainInterceptor.isDirect in Hd.
      apply negb_false_iff in Hd. now rewrite Hd. }
    now rewrite Hscope.
  - intros db1 e H. split.
    + rewrite createBotSpecificRoom_unfold. fold o. now rewrite H.
    + intros Hnone. rewrite getOrCreateBotSpecificRoom_unfold, Hnone.
      rewrite createBotSpecificRoom_unfold. fold o. now rewrite H.
  - intros config w db1 e own out Hcfg Hint Hname Hnone Hc. subst out.
    rewrite (pre_hook_resolved uuid now config session w botConfig Hcfg
               Hint).
    cbv zeta. rewrite Hname.
    rewrite getOrCreateBotSpecificRoom_unfold. fold own. rewrite Hnone.
    rewrite createBotSpecificRoom_unfold, Hc.
    repeat split.
Qed.

Lemma C8_witness :
  createRoom "UUID" 100
    (ChainInterceptor.botRoomOptions Scenario.direct "disc:42"
       Scenario.helper)
    Scenario.brim_db
  = (Store.journal
       (CreateRoom
          (newRoom "UUID" 100 (newRoomId_of Scenario.brim_db)
             (ChainInterceptor.botRoomOptions Scenario.direct "disc:42"
                Scenario.helper)))
       Scenario.brim_db,
     Throw (UniqueConstraint "chathub_room")).
Proof.
  apply (proj1 (proj2 (C8_only_the_user_default_create_is_forgiven
                         "UUID" 100 Scenario.direct "disc:42" Scenario.helper
                         Scenario.brim_db))).
  reflexivity.
Defined.

(** C8 as stated fails.  A membership row left over for the id the new
    room is about to get makes the membership create raise a uniqueness
    violation; [createRoom] rethrows it, the pre-hook ends with that
    exception and no room is bound.  The same holds for the create of the
    conversation record when the largest room id is [2^53]: the new id
    is [2^53] again, the create raises, no row is stored and no room is
    bound. *)
Lemma C8_counterexample :
  let w := mkWorld Scenario.stale_member_db Scenario.no_options None in
  let out := ChainInterceptor.charon_resolve_bot_room "UUID" 100
               Scenario.config Scenario.direct w in
  let brim := mkWorld Scenario.brim_db Scenario.no_options None in
  let out' := ChainInterceptor.charon_resolve_bot_room "UUID" 100
                Scenario.config Scenario.direct brim in
  snd (Store.create_room_member (mkRoomMember "u1" 1 (Some "owner"))
         Scenario.stale_member_db)
  = Throw (UniqueConstraint "chathub_room_member")
  /\ snd out = Throw (UniqueConstraint "chathub_room_member")
  /\ snd out <> Ok CONTINUE
  /\ room (options (fst out)) = None
  /\ newRoomId_of Scenario.brim_db = roomId Scenario.brim_room
  /\ snd out' = Throw (UniqueConstraint "chathub_room")
  /\ snd out' <> Ok CONTINUE
  /\ room (options (fst out')) = None
  /\ chathub_room (database (fst out')) = [Scenario.brim_room].
Proof. repeat split; discriminate. Qed.

(** ** Rebinding of a foreign room *)

(** [updateBotConfig] never takes a bot id out of the registry. *)
Lemma updateBotConfig_keeps_ids (config : list BotPersonaConfig)
    (c : BotPersonaConfig) (id : string) :
  BotManager.getBotConfig config id <> None ->
  BotManager.getBotConfig (Registry.updateBotConfig config c) id <> None.
Proof.
  unfold BotManager.getBotConfig.
  destruct (updateBotConfig_shape config c)
    as [(before & old & after & -> & Hold & _ & ->)|[_ ->]].
  - induction before as [|b before IH]; simpl.
    + rewrite Hold. now destruct (String.eqb (botId c) id).
    + now destruct (String.eqb (botId b) id).
  - induction config as [|b config IH]; simpl; [congruence|].
    now destruct (String.eqb (botId b) id).
Qed.

Lemma updates_keep_ids (updates config : list BotPersonaConfig)
    (id : string) :
  BotManager.getBotConfig config id <> None ->
  BotManager.getBotConfig (fold_left Registry.updateBotConfig updates config)
    id <> None.
Proof.
  revert config. induction updates as [|c updates IH]; simpl; intros config H;
    [exact H|].
  apply IH. now apply updateBotConfig_keeps_ids.
Qed.

(** A stash that the pre-hook wrote names an identity of the registry. *)
Lemma stash_written_by_pre_hook (uuid : string) (now : Z)
    (config : list BotPersonaConfig) (session : Session) (w : World)
    (stash : CharonBotConfig) :
  charonBotConfig (options w) = None ->
  charonBotConfig
    (options (fst (ChainInterceptor.charon_resolve_bot_room uuid now config
                     session w))) = Some stash ->
  stash_botId stash
  = BotManager.getBotId (platform session) (Js.template (selfId_of session))
  /\ BotManager.getBotConfig config (stash_botId stash) <> None.
Proof.
  intros Hnone Hstash.
  set (id := BotManager.getBotId (platform session)
               (Js.template (selfId_of session))) in *.
  destruct (interception (BotManager.getBotConfig config id)) as [|p|]
    eqn:Hint.
  - rewrite (pre_hook_left_alone uuid now config session w Hint) in Hstash.
    cbn [fst] in Hstash. congruence.
  - rewrite (pre_hook_character uuid now config session w p Hint) in Hstash.
    cbn [fst] in Hstash.
    destruct (configureCharacterPlugin_frame session p w) as [_ E].
    rewrite E in Hstash. congruence.
  - destruct (BotManager.getBotConfig config id) as [bc|] eqn:Hcfg;
      [|discriminate].
    rewrite (pre_hook_resolved uuid now config session w bc Hcfg Hint)
      in Hstash.
    cbv zeta in Hstash. fold id in Hstash.
    assert (E : stash = stash_of id bc).
    { destruct (Js.truthy_opt (room_resolve_name (options w))).
      - destruct (ChainInterceptor.findBotSpecificRoom _ id (database w))
          as [db1 [[r|]|e]]; cbn in Hstash; congruence.
      - destruct (ChainInterceptor.getOrCreateBotSpecificRoom uuid now
                    session id bc (database w)) as [db1 [r|e]];
          cbn in Hstash; congruence. }
    subst stash. cbn [stash_botId stash_of]. split; [reflexivity|].
    rewrite Hcfg. discriminate.
Qed.

(** C2.  In a run of the post-hook on a message whose stash the pre-hook
    wrote (on a message context that had none), under the registry as it
    was then or as [updateBotConfig] has changed it since: when the bound
    room's key lacks the prefix [bot_<botId>_] of the stashed identity,
    the registry has a configuration for that identity, the post-hook
    runs find-or-create with it, and the repair phase works on the room
    find-or-create returns, over the store it leaves (if find-or-create
    raises, the post-hook raises and the bound room stays).  A room
    whose key carries the prefix is repaired in place: find-or-create is
    not run, and the room left bound has the same id and the same key. *)
Theorem C2_foreign_room_is_rebound
    (uuid0 uuid : string) (now0 now fixTime : Z)
    (config0 updates : list BotPersonaConfig) (session : Session)
    (w0 w : World) (stash : CharonBotConfig) (bound : Room) :
  let config := fold_left Registry.updateBotConfig updates config0 in
  let post_hook :=
    ChainInterceptor.charon_fix_room_auto_update uuid now config fixTime
      session in
  let find_or_create :=
    ChainInterceptor.getOrCreateBotSpecificRoom uuid now session
      (stash_botId stash) in
  charonBotConfig (options w0) = None ->
  charonBotConfig
    (options (fst (ChainInterceptor.charon_resolve_bot_room uuid0 now0
                     config0 session w0))) = Some stash ->
  charonBotConfig (options w) = Some stash ->
  room (options w) = Some bound ->
  (Js.startsWith ("bot_" ++ stash_botId stash ++ "_")
     (conversationId bound) = false ->
   exists botConfig,
     BotManager.getBotConfig config (stash_botId stash) = Some botConfig
     /\ (forall db1 correctRoom,
            find_or_create botConfig (database w) = (db1, Ok correctRoom) ->
            post_hook w
            = (repaired fixTime stash correctRoom db1 w, Ok CONTINUE)
            /\ room (options (fst (post_hook w)))
               = Some (final_room fixTime stash correctRoom)
            /\ roomId (final_room fixTime stash correctRoom)
               = roomId correctRoom
            /\ conversationId (final_room fixTime stash correctRoom)
               = conversationId correctRoom)
     /\ (forall db1 e,
            find_or_create botConfig (database w) = (db1, Throw e) ->
            post_hook w
            = (mkWorld db1 (options w) (chatluna_character w), Throw e)))
  /\ (Js.startsWith ("bot_" ++ stash_botId stash ++ "_")
        (conversationId bound) = true ->
      post_hook w = (repaired fixTime stash bound (database w) w, Ok CONTINUE)
      /\ room (options (fst (post_hook w)))
         = Some (final_room fixTime stash bound)
      /\ roomId (final_room fixTime stash bound) = roomId bound
      /\ conversationId (final_room fixTime stash bound)
         = conversationId bound).
Proof.
  intros config post_hook find_or_create Hfresh Hwritten Hs Hr. split.
  - intros Hforeign.
    destruct (stash_written_by_pre_hook uuid0 now0 config0 session w0 stash
                Hfresh Hwritten) as [_ Hknown].
    pose proof (updates_keep_ids updates config0 (stash_botId stash) Hknown)
      as Hnow.
    fold config in Hnow.
    destruct (BotManager.getBotConfig config (stash_botId stash)) as [bc|]
      eqn:Hcfg; [|congruence].
    exists bc. split; [reflexivity|].
    pose proof (post_hook_rebinds uuid now config fixTime session w stash
                  bound bc Hs Hr Hforeign Hcfg) as Hrun.
    fold post_hook in Hrun. fold find_or_create in Hrun.
    split.
    + intros db1 r Hfind. rewrite Hfind in Hrun. rewrite Hrun. simpl.
      rewrite repaired_room.
      split; [reflexivity|split; [reflexivity|]].
      split; apply final_room_identity.
    + intros db1 e Hfind. now rewrite Hfind in Hrun.
  - intros Hown.
    pose proof (post_hook_stays uuid now config fixTime session w stash bound
                  Hs Hr (or_introl Hown)) as Hrun.
    fold post_hook in Hrun. rewrite Hrun. simpl. rewrite repaired_room.
    split; [reflexivity|split; [reflexivity|]].
    split; apply final_room_identity.
Qed.

Lemma C2_witness :
  exists botConfig,
    BotManager.getBotConfig Scenario.config "disc:42" = Some botConfig
    /\ ChainInterceptor.charon_fix_room_auto_update "UUID" 100
         Scenario.config 200 Scenario.direct Scenario.lobby_bound
       = (repaired 200 Scenario.stash Scenario.created_room_8
            (fst (ChainInterceptor.getOrCreateBotSpecificRoom "UUID" 100
                    Scenario.direct "disc:42" botConfig
                    (database Scenario.lobby_bound)))
            Scenario.lobby_bound, Ok CONTINUE)
    /\ room (options
               (fst (ChainInterceptor.charon_fix_room_auto_update "UUID" 100
                       Scenario.config 200 Scenario.direct
                       Scenario.lobby_bound)))
       = Some (final_room 200 Scenario.stash Scenario.created_room_8)
    /\ roomId (final_room 200 Scenario.stash Scenario.created_room_8) = 8
    /\ conversationId (final_room 200 Scenario.stash Scenario.created_room_8)
       = "bot_disc:42_UUID".
Proof.
  destruct (proj1 (C2_foreign_room_is_rebound "UUID0" "UUID" 50 100 200
                     Scenario.config [] Scenario.direct Scenario.lobby_asked
                     Scenario.lobby_bound Scenario.stash Scenario.host_room
                     eq_refl eq_refl eq_refl eq_refl) eq_refl)
    as (botConfig & Hcfg & Hok & _).
  exists botConfig. split; [exact Hcfg|].
  simpl in Hcfg. inversion Hcfg; subst botConfig.
  destruct (Hok _ Scenario.created_room_8 eq_refl) as (H1 & H2 & H3 & H4).
  split; [exact H1|]. split; [exact H2|]. split; [exact H3|exact H4].
Defined.
